(** * Durable research workflows: a shallow embedding

    The repository holds example glue around a durable workflow engine:
    activities that search and render reports, workflow bodies that call
    them through engine primitives, orchestrators that fan children out
    through a task group, workers that register types and clients that
    start runs.  This development embeds that code, models the engine parts
    the repository uses but does not contain, and settles the properties
    stated about them. *)

From Stdlib Require Import String Ascii List ZArith QArith Qminmax Lia Bool Arith.
From stdpp Require Import gmap strings list pretty.
Import ListNotations.

Set Warnings "-register-all".
Open Scope string_scope.

(** ** Python values, exceptions and results *)

(** A Python object as the activities exchange them.  A [str] is a byte
    string here: concatenation and substring search agree with Python on
    UTF-8 text, slicing counts bytes where Python counts code points.  A
    [dict] is an association list in insertion order. *)
Inductive value : Type :=
| VNone
| VBool (b : bool)
| VInt (z : Z)
| VFloat (q : Q)
| VStr (s : string)
| VList (l : list value)
| VDict (d : list (string * value)).

Inductive exn : Type :=
| KeyError (key : string)
| TypeError
| AttributeError
| CancelledError
| InvalidStateError
| ExceptionGroup (errors : list exn)
| TimeoutError
| ExternalError (msg : string).

Inductive result (A : Type) : Type :=
| Ok (a : A)
| Raise (e : exn).
Arguments Ok {A} a.
Arguments Raise {A} e.

Definition rbind {A B} (m : result A) (k : A -> result B) : result B :=
  match m with
  | Ok a => k a
  | Raise e => Raise e
  end.

Notation "'try!' x := m 'in' k" := (rbind m (fun x => k))
  (at level 10, x name, m at level 100, k at level 200).

Fixpoint rmap {A B} (f : A -> result B) (l : list A) : result (list B) :=
  match l with
  | [] => Ok []
  | a :: l' =>
      try! b := f a in
      try! bs := rmap f l' in
      Ok (b :: bs)
  end.

(** What an activity does to the outside world besides returning. *)
Inductive effect : Type :=
| Print (line : string)
| MakeDirs (path : string)
| WriteFile (path content : string).

(** An activity body: the effects performed so far and how it ended. *)
Definition io (A : Type) : Type := (list effect * result A)%type.

Definition io_ret {A} (a : A) : io A := ([], Ok a).

Definition io_bind {A B} (m : io A) (k : A -> io B) : io B :=
  match m with
  | (out, Ok a) => let '(out', r) := k a in ((out ++ out')%list, r)
  | (out, Raise e) => (out, Raise e)
  end.

Definition io_lift {A} (r : result A) : io A := ([], r).

Definition io_emit (e : effect) : io unit := ([e], Ok tt).

(** A step on the outside world that can fail, such as making a directory
    or writing a file: the effect is recorded once the step has succeeded;
    when the step raises the body ends there, and the log says nothing of
    what the failed step may have left behind. *)
Definition io_attempt (e : effect) (r : result unit) : io unit :=
  match r with
  | Ok _ => ([e], Ok tt)
  | Raise err => ([], Raise err)
  end.

Notation "'do!' x := m 'in' k" := (io_bind m (fun x => k))
  (at level 10, x name, m at level 100, k at level 200).
Notation "'run!' m 'in' k" := (io_bind m (fun _ => k))
  (at level 10, m at level 100, k at level 200).

(** ** Strings *)

Definition nl : string := String (ascii_of_nat 10) EmptyString.

(** [needle in hay] on two strings. *)
Fixpoint str_contains (needle hay : string) : bool :=
  if String.prefix needle hay then true
  else match hay with
       | EmptyString => false
       | String _ hay' => str_contains needle hay'
       end.

(** [s.replace(old, new)] for one-character [old] and [new]. *)
Fixpoint str_replace_char (old new : ascii) (s : string) : string :=
  match s with
  | EmptyString => EmptyString
  | String c s' =>
      String (if Ascii.eqb c old then new else c) (str_replace_char old new s')
  end.

(** [s[:n]]. *)
Definition str_take (n : nat) (s : string) : string := String.substring 0 n s.

(** [sep.join(parts)]. *)
Fixpoint str_join (sep : string) (parts : list string) : string :=
  match parts with
  | [] => ""
  | [p] => p
  | p :: ps => p ++ sep ++ str_join sep ps
  end.

(** ** Python operations on values *)

Fixpoint dict_lookup (k : string) (d : list (string * value)) : option value :=
  match d with
  | [] => None
  | (k', v) :: d' => if String.eqb k' k then Some v else dict_lookup k d'
  end.

Definition dict_keys (d : list (string * value)) : list string := map fst d.

(** [v[k]] for a string key. *)
Definition py_getitem (v : value) (k : string) : result value :=
  match v with
  | VDict d =>
      match dict_lookup k d with
      | Some x => Ok x
      | None => Raise (KeyError k)
      end
  | _ => Raise TypeError
  end.

(** [v.get(k, default)]. *)
Definition py_get (v : value) (k : string) (default : value) : result value :=
  match v with
  | VDict d =>
      match dict_lookup k d with
      | Some x => Ok x
      | None => Ok default
      end
  | _ => Raise AttributeError
  end.

(** The elements [for x in v] visits. *)
Definition py_iter (v : value) : result (list value) :=
  match v with
  | VList l => Ok l
  | VDict d => Ok (map VStr (dict_keys d))
  | VStr s => Ok (map (fun c => VStr (String c EmptyString)) (list_ascii_of_string s))
  | _ => Raise TypeError
  end.

Definition is_str (s : string) (v : value) : bool :=
  match v with
  | VStr s' => String.eqb s' s
  | _ => false
  end.

(** [needle in v] for a string [needle]. *)
Definition py_str_in (needle : string) (v : value) : result bool :=
  match v with
  | VStr s => Ok (str_contains needle s)
  | VList l => Ok (existsb (is_str needle) l)
  | VDict d => Ok (existsb (String.eqb needle) (dict_keys d))
  | _ => Raise TypeError
  end.

(** [v[:n]]. *)
Definition py_slice_to (n : nat) (v : value) : result value :=
  match v with
  | VStr s => Ok (VStr (str_take n s))
  | VList l => Ok (VList (firstn n l))
  | _ => Raise TypeError
  end.

Definition as_str (v : value) : result string :=
  match v with
  | VStr s => Ok s
  | _ => Raise TypeError
  end.

(** [sep.join(parts)], which rejects a part that is not a [str]. *)
Definition py_join (sep : string) (parts : list value) : result string :=
  try! ss := rmap as_str parts in
  Ok (str_join sep ss).

Definition py_len {A} (l : list A) : value := VInt (Z.of_nat (length l)).

(** The host language's formatting and case folding, and the collaborators
    an activity reaches: the search client and the clock. *)
Class Host : Type := {
  str_lower : string -> string;
  py_str : value -> string;
  py_format_percent1 : value -> result string;
  tavily_search : string -> result value;
  now_isoformat : string
}.

(** The file system a report activity works on: how
    [os.makedirs(path, exist_ok=True)] and
    [with open(path, 'w') as f: f.write(content)] end there.  Either one can
    raise: a path that cannot be made or written, a path with a NUL
    character. *)
Class Files : Type := {
  os_makedirs : string -> result unit;
  write_text : string -> string -> result unit
}.

(** ** The date filter shared by both research activities

    [temporal_research_workflows_v2.py] lines 70-81 and
    [bleeding_edge_research_final.py] lines 70-79 are the same code. *)

(** The six-month test of the filter loop, an [or] chain that stops at the
    first [True]. *)
Definition in_june_november (date_str : value) : result bool :=
  try! m06 := py_str_in "2025-06" date_str in
  if m06 then Ok true else
  try! m07 := py_str_in "2025-07" date_str in
  if m07 then Ok true else
  try! m08 := py_str_in "2025-08" date_str in
  if m08 then Ok true else
  try! m09 := py_str_in "2025-09" date_str in
  if m09 then Ok true else
  try! m10 := py_str_in "2025-10" date_str in
  if m10 then Ok true else
  py_str_in "2025-11" date_str.

(** The loop [for source in sources: ... filtered_sources.append(source)]. *)
Fixpoint date_filter_loop (sources : list value) : result (list value) :=
  match sources with
  | [] => Ok []
  | source :: rest =>
      try! date_str := py_get source "published_date" (VStr "") in
      try! keep := in_june_november date_str in
      try! kept := date_filter_loop rest in
      Ok (if keep then source :: kept else kept)
  end.

(** The loop followed by [if not filtered_sources: filtered_sources =
    sources[:10]]. *)
Definition filter_sources (sources : list value) : result (list value) :=
  try! filtered_sources := date_filter_loop sources in
  match filtered_sources with
  | [] => Ok (firstn 10 sources)
  | _ => Ok filtered_sources
  end.

(** One element of the [sources] comprehension. *)
Definition make_source (topic : string) (r : value) : result value :=
  try! title := py_getitem r "title" in
  try! url := py_getitem r "url" in
  try! snippet := py_get r "snippet" (VStr "") in
  try! content := py_get r "content" snippet in
  try! published_date := py_get r "published_date" (VStr "N/A") in
  Ok (VDict [("title", title); ("url", url); ("content", content);
             ("query", VStr topic); ("published_date", published_date)]).

(** [sources = [... for r in results.get('results', [])]]. *)
Definition extract_sources (topic : string) (results : value) : result (list value) :=
  try! found := py_get results "results" (VList []) in
  try! rs := py_iter found in
  rmap (make_source topic) rs.

(** ** temporal_research_workflows_v2.py *)

Module V2.

Definition RESEARCH_TOPICS : list string :=
  [ "Temporal workflow patterns for AI agents 2025";
    "Durable execution in multi-agent systems 2025";
    "Agent orchestration patterns with Temporal 2025";
    "Crash-proof AI agent architectures 2025";
    "Temporal activities for AI workflows 2025";
    "Event sourcing in agent systems 2025";
    "AI agent persistence strategies 2025";
    "Temporal workflows for autonomous agents 2025";
    "Multi-agent coordination with Temporal 2025";
    "Agent state management Temporal 2025";
    "AI agent workflows crash recovery 2025";
    "Temporal in production AI systems 2025";
    "Temporal vs AWS Step Functions AI 2025";
    "Agent messaging with Temporal 2025";
    "AI agent orchestration LangGraph Temporal 2025";
    "Temporal activities async AI agents 2025";
    "Agent workflow durability patterns 2025";
    "AI agent temporal workflows best practices 2025";
    "Temporal in multi-agent architecture 2025";
    "Autonomous AI systems Temporal case studies 2025" ].

Definition key_concepts : list string :=
  [ "Temporal workflows 2025"; "Durable execution"; "Agent orchestration 2025";
    "Crash recovery"; "Multi-agent systems"; "AI agents 2025"; "Event sourcing";
    "State management"; "Persistence"; "Coordination"; "LangGraph";
    "Production deployment"; "Architecture patterns"; "Best practices";
    "Case studies" ].

Section Activities.
Context `{Host} `{Files}.

(** The part of [bleeding_edge_research_activity] after the search call. *)
Definition research_result (topic : string) (results : value) : result value :=
  try! sources := extract_sources topic results in
  try! filtered_sources := filter_sources sources in
  try! all_content :=
    (try! contents := rmap (fun s => py_getitem s "content") (firstn 10 filtered_sources) in
     py_join " " contents) in
  let found_concepts :=
    List.filter (fun c => str_contains (str_lower c) (str_lower all_content))
                key_concepts in
  Ok (VDict
        [ ("topic", VStr topic);
          ("sources", VList filtered_sources);
          ("key_concepts", VList (map VStr found_concepts));
          ("total_sources", py_len filtered_sources);
          ("concepts_found", py_len found_concepts);
          ("coverage",
            VFloat (Z.of_nat (length found_concepts) # Pos.of_nat (length key_concepts)));
          ("timestamp", VStr now_isoformat);
          ("date_filter", VStr "June-November 2025");
          ("raw_count", py_len sources);
          ("filtered_count", py_len filtered_sources) ]).

Definition bleeding_edge_research_activity (topic : string) : io value :=
  run! io_emit (Print ("[Temporal Activity] 🔥 Bleeding Edge Research: " ++ topic)) in
  do! results := io_lift (tavily_search topic) in
  io_lift (research_result topic results).

(** [for i, x in enumerate(xs, start): md_content += line(i, x)]. *)
Fixpoint enumerate_lines (line : Z -> value -> result string) (start : Z)
    (xs : list value) : result string :=
  match xs with
  | [] => Ok ""
  | x :: xs' =>
      try! l := line start x in
      try! ls := enumerate_lines line (start + 1)%Z xs' in
      Ok (l ++ ls)
  end.

Definition numbered_line (i : Z) (x : value) : result string :=
  Ok (py_str (VInt i) ++ ". " ++ py_str x ++ nl).

Definition concept_line (_ : Z) (concept : value) : result string :=
  Ok ("- **" ++ py_str concept ++ "**" ++ nl).

Definition source_block (i : Z) (source : value) : result string :=
  try! title := py_getitem source "title" in
  try! url := py_getitem source "url" in
  try! url' := py_getitem source "url" in
  try! published := py_get source "published_date" (VStr "N/A") in
  try! content := py_getitem source "content" in
  try! head := py_slice_to 500 content in
  Ok ("### " ++ py_str (VInt i) ++ ". " ++ py_str title ++ nl ++ nl
      ++ "**URL**: [" ++ py_str url ++ "](" ++ py_str url' ++ ")" ++ nl
      ++ "**Published**: " ++ py_str published ++ nl ++ nl
      ++ py_str head ++ "..." ++ nl ++ nl ++ "---" ++ nl ++ nl).

Definition next_steps : string :=
  nl ++ "---" ++ nl ++ nl ++ "## 🚀 Next Steps" ++ nl ++ nl
  ++ "Based on this bleeding edge research:" ++ nl ++ nl
  ++ "1. **Immediate**: Implement Temporal workflows for agent coordination" ++ nl
  ++ "2. **Short-term**: Build event sourcing for agent state" ++ nl
  ++ "3. **Medium-term**: Create agent registry for discovery" ++ nl
  ++ "4. **Long-term**: Scale to 50+ parallel agents" ++ nl ++ nl
  ++ "---" ++ nl ++ nl ++ "## 📊 Research Metadata" ++ nl ++ nl.

Definition report_footer : string :=
  "- **Research Method**: Parallel web search via Tavily API" ++ nl
  ++ "- **Filter Applied**: June-November 2025 (Bleeding Edge)" ++ nl
  ++ "- **Generated By**: Firebird Autonomous Research Swarm" ++ nl ++ nl
  ++ "---" ++ nl ++ nl
  ++ "*This report was generated autonomously by Firebird's Temporal-powered research agents.*" ++ nl
  ++ "*For more information, see: https://github.com/adaptnova/firebird*" ++ nl.

(** [topic.replace(' ', '_').replace('/', '_').replace(':', '_')[:50]]. *)
Definition safe_filename_of (topic : value) : result string :=
  match topic with
  | VStr t =>
      Ok (str_take 50
            (str_replace_char ":" "_"
               (str_replace_char "/" "_" (str_replace_char " " "_" t))))
  | _ => Raise AttributeError
  end.

Definition reports_dir : string := "/adapt/projects/firebird/reports".

(** The markdown text [generate_markdown_report_activity] builds, with the
    dictionary reads in the order the f-strings and loops make them. *)
Definition markdown_content (research_data topic : value) : result string :=
  try! timestamp := py_getitem research_data "timestamp" in
  try! date_filter := py_getitem research_data "date_filter" in
  try! filtered_count := py_getitem research_data "filtered_count" in
  try! raw_count := py_getitem research_data "raw_count" in
  try! executive_summary := py_getitem research_data "executive_summary" in
  let header :=
    "# 🔥 BLEEDING EDGE Research: " ++ py_str topic ++ nl ++ nl
    ++ "**Generated**: " ++ py_str timestamp ++ nl
    ++ "**Research Period**: " ++ py_str date_filter ++ nl
    ++ "**Sources Analyzed**: " ++ py_str filtered_count
    ++ " (from " ++ py_str raw_count ++ " total)" ++ nl ++ nl
    ++ "---" ++ nl ++ nl ++ "## 📋 Executive Summary" ++ nl ++ nl
    ++ py_str executive_summary ++ nl ++ nl
    ++ "---" ++ nl ++ nl ++ "## 🎯 Key Findings" ++ nl ++ nl in
  try! key_findings := py_getitem research_data "key_findings" in
  try! findings := py_iter key_findings in
  try! findings_text := enumerate_lines numbered_line 1 findings in
  try! concepts := py_getitem research_data "key_concepts" in
  try! concept_list := py_iter concepts in
  try! concepts_text := enumerate_lines concept_line 1 concept_list in
  try! sources := py_getitem research_data "sources" in
  try! top := py_slice_to 5 sources in
  try! top_list := py_iter top in
  try! sources_text := enumerate_lines source_block 1 top_list in
  try! recommendations := py_getitem research_data "recommendations" in
  try! recs := py_iter recommendations in
  try! recs_text := enumerate_lines numbered_line 1 recs in
  try! total_sources := py_getitem research_data "total_sources" in
  try! concepts_found := py_getitem research_data "concepts_found" in
  try! coverage := py_getitem research_data "coverage" in
  try! coverage_text := py_format_percent1 coverage in
  Ok (header ++ findings_text
      ++ nl ++ "---" ++ nl ++ nl ++ "## 🔑 Key Concepts Identified" ++ nl ++ nl
      ++ concepts_text
      ++ nl ++ "---" ++ nl ++ nl ++ "## 📚 Top Sources (June-Nov 2025)" ++ nl ++ nl
      ++ sources_text
      ++ nl ++ "## 💡 Recommendations" ++ nl ++ nl
      ++ recs_text
      ++ next_steps
      ++ "- **Total Sources**: " ++ py_str total_sources ++ nl
      ++ "- **Key Concepts**: " ++ py_str concepts_found ++ nl
      ++ "- **Coverage Score**: " ++ coverage_text ++ nl
      ++ report_footer).

Definition generate_markdown_report_activity (research_data : value) : io value :=
  do! topic := io_lift (py_getitem research_data "topic") in
  do! short := io_lift (py_slice_to 50 topic) in
  run! io_emit (Print ("[Temporal Activity] 📝 Generating Markdown report: "
                       ++ py_str short ++ "...")) in
  do! md_content := io_lift (markdown_content research_data topic) in
  do! safe_filename := io_lift (safe_filename_of topic) in
  let md_path := reports_dir ++ "/" ++ safe_filename ++ ".md" in
  run! io_attempt (MakeDirs reports_dir) (os_makedirs reports_dir) in
  run! io_attempt (WriteFile md_path md_content) (write_text md_path md_content) in
  run! io_emit (Print ("[Temporal Activity] ✅ Saved Markdown: " ++ safe_filename ++ ".md")) in
  io_ret (VStr md_path).

End Activities.
End V2.

(** ** bleeding_edge_research_final.py *)

Module Final.
Section Activities.
Context `{Host}.

Definition research_result (topic : string) (results : value) : result value :=
  try! sources := extract_sources topic results in
  try! filtered_sources := filter_sources sources in
  Ok (VDict
        [ ("topic", VStr topic);
          ("sources", VList filtered_sources);
          ("timestamp", VStr now_isoformat);
          ("date_filter", VStr "June-November 2025") ]).

Definition bleeding_edge_research_activity (topic : string) : io value :=
  run! io_emit (Print ("[Activity] 🔥 Research: " ++ topic)) in
  do! results := io_lift (tavily_search topic) in
  io_lift (research_result topic results).

End Activities.
End Final.

(** ** Workflow bodies

    A workflow body is a program over the operations it asks for; each
    operation is answered from outside and the body continues with the
    answer.  Engine calls are the two the SDK offers a workflow; the others
    are what the bodies in the repository do besides. *)

(** [workflow.RetryPolicy(...)], intervals in seconds. *)
Record RetryPolicy : Type := {
  initial_interval : Q;
  maximum_interval : Q;
  backoff_coefficient : Q;
  maximum_attempts : nat
}.

Inductive call : Type :=
| ExecuteActivity (activity : string) (args : list value)
    (start_to_close_timeout : option Q) (retry_policy : option RetryPolicy)
| ExecuteChildWorkflow (workflow : string) (arg : value) (id task_queue : string)
    (start_to_close_timeout : option Q).

(** Handle of a task made by [tg.create_task]: its creation index. *)
Abbreviation task := nat (only parsing).

(** The pydantic models a planning agent is asked for in
    [deep_research_agent.py]. *)
Record SearchQuery : Type := { query : string; focus_area : string }.

Record ResearchPlan : Type := { plan_topic : string; queries : list SearchQuery }.

Inductive op : Type -> Type :=
| OpPrint (line : string) : op unit
| OpAwait (c : call) : op value
| OpCreateTask (c : call) : op task
| OpJoin (ts : list task) : op unit
| OpTaskResult (t : task) : op value
| OpAgentRun (model system_prompt prompt : string) : op ResearchPlan.

Inductive wf (R : Type) : Type :=
| Ret (r : R)
| Vis {X : Type} (o : op X) (k : X -> wf R).
Arguments Ret {R} r.
Arguments Vis {R X} o k.

Fixpoint wf_bind {A B} (p : wf A) (k : A -> wf B) : wf B :=
  match p with
  | Ret a => k a
  | Vis o h => Vis o (fun x => wf_bind (h x) k)
  end.

Definition perform {X} (o : op X) : wf X := Vis o Ret.

Notation "'let!' x := m 'in' k" := (wf_bind m (fun x => k))
  (at level 10, x name, m at level 100, k at level 200).
Notation "'seq!' m 'in' k" := (wf_bind m (fun _ => k))
  (at level 10, m at level 100, k at level 200).

(** [[tg.create_task(c) for c in calls]]. *)
Fixpoint create_tasks (calls : list call) : wf (list task) :=
  match calls with
  | [] => Ret []
  | c :: calls' =>
      let! t := perform (OpCreateTask c) in
      let! ts := create_tasks calls' in
      Ret (t :: ts)
  end.

(** [[task.result() for task in tasks]]. *)
Fixpoint task_results (tasks : list task) : wf (list value) :=
  match tasks with
  | [] => Ret []
  | t :: tasks' =>
      let! v := perform (OpTaskResult t) in
      let! vs := task_results tasks' in
      Ret (v :: vs)
  end.

(** [async with TaskGroup() as tg: tasks = [tg.create_task(c) ...]] followed
    by [[task.result() for task in tasks]]. *)
Definition task_group (calls : list call) : wf (list value) :=
  let! tasks := create_tasks calls in
  seq! perform (OpJoin tasks) in
  task_results tasks.

(** [enumerate(xs, start)]. *)
Fixpoint enumerate {A} (start : Z) (xs : list A) : list (Z * A) :=
  match xs with
  | [] => []
  | x :: xs' => (start, x) :: enumerate (start + 1)%Z xs'
  end.

Definition minutes (n : Z) : Q := (n * 60) # 1.
Definition seconds (n : Z) : Q := n # 1.

(** *** workflows.py *)

Module Simple.

Definition research_call (topic : string) : call :=
  ExecuteActivity "research_activity" [VStr topic] (Some (seconds 10)) None.

Definition ResearchWorkflow_run `{Host} (topic : string) : wf value :=
  seq! perform (OpPrint ("[Workflow] Starting research workflow for: " ++ topic)) in
  let! result := perform (OpAwait (research_call topic)) in
  seq! perform (OpPrint ("[Workflow] Workflow completed: " ++ py_str result)) in
  Ret result.

End Simple.

(** *** temporal_research_workflows_v2.py *)

Module V2Workflows.
Section Bodies.
Context `{Host}.

Definition research_retry_policy : RetryPolicy :=
  {| initial_interval := seconds 1;
     maximum_interval := seconds 15;
     backoff_coefficient := 2;
     maximum_attempts := 3 |}.

Definition research_call (topic : string) : call :=
  ExecuteActivity "bleeding_edge_research_activity" [VStr topic]
    (Some (minutes 3)) (Some research_retry_policy).

Definition report_call (research_data : value) : call :=
  ExecuteActivity "generate_markdown_report_activity" [research_data]
    (Some (minutes 1)) None.

Definition BleedingEdgeResearchWorkflow_run (topic : string) : wf value :=
  seq! perform (OpPrint ("[Temporal Workflow] 🔥 Starting Bleeding Edge research: " ++ topic)) in
  let! research_data := perform (OpAwait (research_call topic)) in
  let! report_path := perform (OpAwait (report_call research_data)) in
  seq! perform (OpPrint ("[Temporal Workflow] ✅ Completed: " ++ str_take 50 topic ++ "...")) in
  Ret report_path.

Definition child_id (i : Z) (topic : string) : string :=
  "bleeding-edge-" ++ py_str (VInt i) ++ "-"
  ++ str_take 20 (str_replace_char " " "_" topic).

Definition child_call (it : Z * string) : call :=
  ExecuteChildWorkflow "BleedingEdgeResearchWorkflow" (VStr (snd it))
    (child_id (fst it) (snd it)) "research-tasks" (Some (minutes 5)).

Definition BleedingEdgeOrchestrator_run_all (topics : list string) : wf value :=
  seq! perform (OpPrint ("[Orchestrator] 🔥 Launching " ++ py_str (py_len topics)
                         ++ " BLEEDING EDGE research workflows...")) in
  seq! perform (OpPrint "[Orchestrator] 📅 Date Filter: June-November 2025 ONLY") in
  let! results := task_group (map child_call (enumerate 1 topics)) in
  seq! perform (OpPrint ("[Orchestrator] ✅ All " ++ py_str (py_len results)
                         ++ " BLEEDING EDGE workflows completed!")) in
  Ret (VList results).

End Bodies.
End V2Workflows.

(** *** bleeding_edge_research_final.py *)

Module FinalWorkflows.
Section Bodies.
Context `{Host}.

Definition research_call (topic : string) : call :=
  ExecuteActivity "bleeding_edge_research_activity" [VStr topic]
    (Some (minutes 3)) None.

Definition report_call (research_data : value) : call :=
  ExecuteActivity "generate_markdown_report_activity" [research_data]
    (Some (minutes 1)) None.

Definition BleedingEdgeResearchWorkflow_run (topic : string) : wf value :=
  seq! perform (OpPrint ("[Workflow] 🔥 " ++ topic)) in
  let! research_data := perform (OpAwait (research_call topic)) in
  let! report_path := perform (OpAwait (report_call research_data)) in
  Ret report_path.

Definition child_call (it : Z * string) : call :=
  ExecuteChildWorkflow "BleedingEdgeResearchWorkflow" (VStr (snd it))
    ("bleeding-" ++ py_str (VInt (fst it))) "research-tasks" (Some (minutes 5)).

Definition BleedingEdgeOrchestrator_run_all (topics : list string) : wf value :=
  seq! perform (OpPrint ("[Orchestrator] 🔥 " ++ py_str (py_len topics) ++ " workflows...")) in
  let! results := task_group (map child_call (enumerate 1 topics)) in
  Ret (VList results).

End Bodies.
End FinalWorkflows.

(** *** pydantic_ai_examples/deep_research_agent.py *)

Module DeepResearch.

Definition planning_system_prompt : string :=
  "You are a research planning expert. Generate 3-5 strategic search queries" ++ nl
  ++ "                that will comprehensively cover the topic. Each query should focus on a different aspect."
  ++ nl ++ "                ".

Definition search_call (q : SearchQuery) : call :=
  ExecuteActivity "search_activity" [VStr (query q)] None None.

Definition analysis_call (topic : string) (all_results : list value) : call :=
  ExecuteActivity "analysis_activity" [VStr topic; VList all_results] None None.

(** Step 1 of [DeepResearchWorkflow.run]: the plan the later steps use. *)
Definition plan_queries (topic : string) (research_plan : ResearchPlan) : wf ResearchPlan :=
  match queries research_plan with
  | [] =>
      perform (OpAgentRun "minimax-m3" planning_system_prompt
                 ("Create a research plan for: " ++ topic))
  | _ => Ret research_plan
  end.

Definition DeepResearchWorkflow_run (topic : string) (research_plan : ResearchPlan)
    : wf value :=
  let! research_plan := plan_queries topic research_plan in
  let! all_results := task_group (map search_call (queries research_plan)) in
  let! final_report := perform (OpAwait (analysis_call topic all_results)) in
  Ret final_report.

End DeepResearch.

(** ** Running a workflow body

    The body runs against an environment that says how each engine call
    ends and when, relative to the other tasks of its group.  A task group
    behaves as the host language's [asyncio.TaskGroup] does, and
    [workflow.TaskGroup] is taken to be the same construct: the tasks finish
    in any order, the first one to fail cancels those still pending, and
    leaving the group raises the failures as a group. *)

Inductive status : Type :=
| Pending
| Done (r : result value)
| Cancelled.

Record slot : Type := { slot_call : call; slot_status : status }.

Record env : Type := {
  outcome : task -> call -> result value;
  finish_time : task -> nat;
  agent_answer : string -> string -> string -> result ResearchPlan
}.

Record exec_state : Type := {
  slots : list slot;
  printed : list string;
  agent_runs : list (string * string * string)
}.

Definition exec_init : exec_state :=
  {| slots := []; printed := []; agent_runs := [] |}.

Definition with_slots (st : exec_state) (sl : list slot) : exec_state :=
  {| slots := sl; printed := printed st; agent_runs := agent_runs st |}.

Fixpoint insert_by (key : task -> nat) (t : task) (l : list task) : list task :=
  match l with
  | [] => [t]
  | u :: l' => if (key t <=? key u)%nat then t :: l else u :: insert_by key t l'
  end.

(** The tasks in the order they finish, ties in creation order. *)
Definition finish_order (key : task -> nat) (ts : list task) : list task :=
  fold_right (insert_by key) [] ts.

Definition cancel_slot (s : slot) : slot :=
  match slot_status s with
  | Pending => {| slot_call := slot_call s; slot_status := Cancelled |}
  | _ => s
  end.

(** Cancel the tasks of the group that are still pending. *)
Fixpoint cancel_pending (ts : list task) (sl : list slot) : list slot :=
  match ts with
  | [] => sl
  | t :: ts' => cancel_pending ts' (alter cancel_slot t sl)
  end.

(** Let the tasks of group [ts] finish in the given order. *)
Fixpoint complete_in_order (e : env) (ts : list task) (order : list task)
    (sl : list slot) (failed : list exn) : list slot * list exn :=
  match order with
  | [] => (sl, failed)
  | t :: rest =>
      match sl !! t with
      | Some {| slot_call := c; slot_status := Pending |} =>
          let r := outcome e t c in
          let sl1 := <[t := {| slot_call := c; slot_status := Done r |}]> sl in
          match r with
          | Ok _ => complete_in_order e ts rest sl1 failed
          | Raise err =>
              complete_in_order e ts rest (cancel_pending ts sl1) (failed ++ [err])%list
          end
      | _ => complete_in_order e ts rest sl failed
      end
  end.

(** Leaving [async with TaskGroup()]. *)
Definition join (e : env) (ts : list task) (sl : list slot) : list slot * list exn :=
  complete_in_order e ts (finish_order (finish_time e) ts) sl [].

(** [task.result()]. *)
Definition task_result (sl : list slot) (t : task) : result value :=
  match sl !! t with
  | Some {| slot_status := Done r |} => r
  | Some {| slot_status := Cancelled |} => Raise CancelledError
  | _ => Raise InvalidStateError
  end.

Fixpoint exec {R} (e : env) (p : wf R) (st : exec_state) : exec_state * result R :=
  match p with
  | Ret r => (st, Ok r)
  | Vis o k =>
      match o in op X return (X -> wf R) -> exec_state * result R with
      | OpPrint line => fun k =>
          exec e (k tt)
            {| slots := slots st; printed := (printed st ++ [line])%list;
               agent_runs := agent_runs st |}
      | OpAwait c => fun k =>
          let r := outcome e (length (slots st)) c in
          let st' := with_slots st
                       (slots st ++ [{| slot_call := c; slot_status := Done r |}])%list in
          match r with
          | Ok v => exec e (k v) st'
          | Raise err => (st', Raise err)
          end
      | OpCreateTask c => fun k =>
          exec e (k (length (slots st)))
            (with_slots st
               (slots st ++ [{| slot_call := c; slot_status := Pending |}])%list)
      | OpJoin ts => fun k =>
          let '(sl, failed) := join e ts (slots st) in
          match failed with
          | [] => exec e (k tt) (with_slots st sl)
          | _ => (with_slots st sl, Raise (ExceptionGroup failed))
          end
      | OpTaskResult t => fun k =>
          match task_result (slots st) t with
          | Ok v => exec e (k v) st
          | Raise err => (st, Raise err)
          end
      | OpAgentRun model system_prompt prompt => fun k =>
          let st' := {| slots := slots st; printed := printed st;
                        agent_runs := (agent_runs st
                                       ++ [(model, system_prompt, prompt)])%list |} in
          match agent_answer e model system_prompt prompt with
          | Ok plan => exec e (k plan) st'
          | Raise err => (st', Raise err)
          end
      end k
  end.

(** The engine calls a run made that ran to an end, in creation order. *)
Definition invoked (st : exec_state) : list call :=
  omap (fun s => match slot_status s with
                 | Done _ => Some (slot_call s)
                 | _ => None
                 end) (slots st).

(** The slots of a task group that starts a run, given which tasks have
    finished and whether the others were cancelled. *)
Definition pending_slot (c : call) : slot := {| slot_call := c; slot_status := Pending |}.

Definition group_status (e : env) (fin : list task) (cancelled : bool)
    (i : task) (c : call) : status :=
  if bool_decide (i ∈ fin) then Done (outcome e i c)
  else if cancelled then Cancelled else Pending.

Definition group_slots (e : env) (calls : list call) (fin : list task)
    (cancelled : bool) : list slot :=
  imap (fun i c => {| slot_call := c; slot_status := group_status e fin cancelled i c |}) calls.

Definition ok_value (r : result value) : option value :=
  match r with
  | Ok v => Some v
  | Raise _ => None
  end.

Definition values_of (rs : list (result value)) : list value := omap ok_value rs.

(** How the engine calls of a group that starts a run end, in the order the
    calls were given. *)
Definition group_outcomes (e : env) (calls : list call) : list (result value) :=
  imap (fun i c => outcome e i c) calls.


(** ** Workers and clients

    [@workflow.defn] and [@activity.defn] are used without a name
    throughout, so a class or function is registered under its own name.
    [Worker(...)] builds the two name tables of one task queue from the
    lists it is given. *)

Record worker : Type := {
  worker_queue : string;
  worker_workflows : gmap string string;
  worker_activities : gmap string string
}.

(** [Worker(client, task_queue=q, workflows=[...], activities=[...])]: each
    entry pairs the registered name with the module that defines it. *)
Definition Worker (q : string) (workflows activities : list (string * string)) : worker :=
  {| worker_queue := q;
     worker_workflows := list_to_map workflows;
     worker_activities := list_to_map activities |}.

(** worker.py *)
Definition simple_worker : worker :=
  Worker "research-tasks"
    [("ResearchWorkflow", "workflows")]
    [("research_activity", "workflows")].

(** bleeding_edge_worker.py *)
Definition bleeding_edge_worker : worker :=
  Worker "research-tasks"
    [("BleedingEdgeResearchWorkflow", "temporal_research_workflows_v2");
     ("BleedingEdgeOrchestrator", "temporal_research_workflows_v2")]
    [("bleeding_edge_research_activity", "temporal_research_workflows_v2");
     ("generate_markdown_report_activity", "temporal_research_workflows_v2")].

(** run_bleeding_worker.py *)
Definition run_bleeding_worker : worker :=
  Worker "research-tasks"
    [("BleedingEdgeResearchWorkflow", "bleeding_edge_research_final");
     ("BleedingEdgeOrchestrator", "bleeding_edge_research_final")]
    [("bleeding_edge_research_activity", "bleeding_edge_research_final");
     ("generate_markdown_report_activity", "bleeding_edge_research_final")].

(** pydantic_ai_examples/temporal_worker.py *)
Definition temporal_worker : worker :=
  Worker "research-tasks"
    [("ResearchWorkflow", "workflows");
     ("DeepResearchWorkflow", "pydantic_ai_examples.deep_research_agent")]
    [("research_activity", "workflows");
     ("search_activity", "pydantic_ai_examples.deep_research_agent");
     ("analysis_activity", "pydantic_ai_examples.deep_research_agent")].

Definition repo_workers : list worker :=
  [simple_worker; bleeding_edge_worker; run_bleeding_worker; temporal_worker].

(** A client's [start_workflow(name, ..., task_queue=q)] or
    [execute_workflow]: the type name and the queue it is sent to. *)
Record start_request : Type := { start_type : string; start_queue : string }.

(** simple_temporal_demo.py *)
Definition simple_demo_start : start_request :=
  {| start_type := "ResearchWorkflow"; start_queue := "research-tasks" |}.

(** [run_bleeding_edge_research_swarm] and [run_bleeding_edge_swarm]. *)
Definition orchestrator_start : start_request :=
  {| start_type := "BleedingEdgeOrchestrator.run_all"; start_queue := "research-tasks" |}.

(** [run_with_temporal] in deep_research_agent.py. *)
Definition deep_research_start : start_request :=
  {| start_type := "DeepResearchWorkflow"; start_queue := "deep-research" |}.

(** The request an engine call of a workflow body turns into: a child
    workflow goes to the queue it names, an activity to the queue of the
    workflow that calls it. *)
Definition call_type (c : call) : string :=
  match c with
  | ExecuteActivity name _ _ _ => name
  | ExecuteChildWorkflow name _ _ _ _ => name
  end.

(** What a worker polling [start_queue] finds when the task reaches it. *)
Definition resolve_workflow (w : worker) (r : start_request) : option string :=
  if String.eqb (worker_queue w) (start_queue r)
  then worker_workflows w !! start_type r
  else None.

Definition resolve_activity (w : worker) (name : string) : option string :=
  worker_activities w !! name.

(** Some worker of the repository serves the request. *)
Definition served (r : start_request) : bool :=
  existsb (fun w => bool_decide (is_Some (resolve_workflow w r))) repo_workers.

(** ** The durable execution engine

    The repository calls an engine it does not contain.  Its parts are
    modelled here from the specification, over the workflow bodies above. *)

Module Engine.

(** Modelled from the spec: the event kinds of the data model (section 3),
    each with its payload.  The engine itself is missing from the sources. *)
Inductive event_kind : Type :=
| WorkflowStarted (input : value)
| ActivityScheduled (id : task) (c : call)
| ActivityCompleted (id : task) (v : value)
| ActivityFailed (id : task) (err : exn)
| ActivityTimedOut (id : task)
| TimerStarted (id : task) (delay : Q)
| TimerFired (id : task)
| ChildWorkflowStarted (id : task) (c : call)
| ChildWorkflowCompleted (id : task) (v : value)
| ChildWorkflowFailed (id : task) (err : exn)
| SignalReceived (name : string) (payload : value)
| CancelRequested
| WorkflowCompleted (v : value)
| WorkflowFailed (err : exn)
| WorkflowCancelled.

(** Modelled from the spec: an event of the log, [seq] counting from 0
    (section 3).  No part of the model reads a timestamp, so none is kept. *)
Record event : Type := { seq : nat; kind : event_kind }.

Fixpoint number_from (n : nat) (ks : list event_kind) : list event :=
  match ks with
  | [] => []
  | k :: ks' => {| seq := n; kind := k |} :: number_from (S n) ks'
  end.

(** Modelled from the spec: [append(runId, expectedSeq, events)] of the
    EventLog (section 4.1): the whole batch or nothing, [None] being
    [Conflict]. *)
Definition append (log : list event) (expectedSeq : nat) (ks : list event_kind)
    : option (list event) :=
  if (expectedSeq =? length log)%nat
  then Some (log ++ number_from expectedSeq ks)%list
  else None.

(** Modelled from the spec: [read(runId, fromSeq)] (section 4.1). *)
Definition read (log : list event) (fromSeq : nat) : list event := drop fromSeq log.

(** Modelled from the spec: the statuses of a run (section 3). *)
Inductive run_status : Type :=
| Running | Completed | Failed | CancelledRun | TimedOut | ContinuedAsNew.

Definition terminal_of (k : event_kind) : option (result value) :=
  match k with
  | WorkflowCompleted v => Some (Ok v)
  | WorkflowFailed err => Some (Raise err)
  | WorkflowCancelled => Some (Raise CancelledError)
  | _ => None
  end.

(** The terminal event of a history, if it has one. *)
Fixpoint terminal (h : list event) : option (result value) :=
  match h with
  | [] => None
  | ev :: h' =>
      match terminal_of (kind ev) with
      | Some r => Some r
      | None => terminal h'
      end
  end.

Fixpoint status_of (h : list event) : run_status :=
  match h with
  | [] => Running
  | ev :: h' =>
      match kind ev with
      | WorkflowCompleted _ => Completed
      | WorkflowFailed _ => Failed
      | WorkflowCancelled => CancelledRun
      | _ => status_of h'
      end
  end.

Definition scheduled_by (id : task) (k : event_kind) : option call :=
  match k with
  | ActivityScheduled i c | ChildWorkflowStarted i c =>
      if (i =? id)%nat then Some c else None
  | _ => None
  end.

Definition closed_by (id : task) (k : event_kind) : option (result value) :=
  match k with
  | ActivityCompleted i v | ChildWorkflowCompleted i v =>
      if (i =? id)%nat then Some (Ok v) else None
  | ActivityFailed i err | ChildWorkflowFailed i err =>
      if (i =? id)%nat then Some (Raise err) else None
  | ActivityTimedOut i =>
      if (i =? id)%nat then Some (Raise TimeoutError) else None
  | _ => None
  end.

Fixpoint find_event {A} (f : event_kind -> option A) (h : list event) : option A :=
  match h with
  | [] => None
  | ev :: h' =>
      match f (kind ev) with
      | Some a => Some a
      | None => find_event f h'
      end
  end.

(** The call history recorded as scheduled under [id]. *)
Definition scheduled_in (h : list event) (id : task) : option call :=
  find_event (scheduled_by id) h.

(** The recorded result of the call scheduled under [id]. *)
Definition outcome_in (h : list event) (id : task) : option (result value) :=
  find_event (closed_by id) h.

Definition failure_of (ts : list task) (k : event_kind) : option exn :=
  match k with
  | ActivityFailed i err | ChildWorkflowFailed i err =>
      if existsb (Nat.eqb i) ts then Some err else None
  | ActivityTimedOut i =>
      if existsb (Nat.eqb i) ts then Some TimeoutError else None
  | _ => None
  end.

(** The first failure history records among the tasks [ts]. *)
Definition first_failure (h : list event) (ts : list task) : option exn :=
  find_event (failure_of ts) h.

(** Modelled from the spec: the decisions of the WorkflowExecutor (section
    4.2); an empty list of decisions is "wait". *)
Inductive decision : Type :=
| ScheduleCall (id : task) (c : call)
| CancelCall (id : task)
| CompleteWorkflow (v : value)
| FailWorkflow (err : exn)
| NonDeterminismError.

Definition same_type (c c' : call) : bool :=
  match c, c' with
  | ExecuteActivity n _ _ _, ExecuteActivity n' _ _ _ => String.eqb n n'
  | ExecuteChildWorkflow n _ _ _ _, ExecuteChildWorkflow n' _ _ _ _ => String.eqb n n'
  | _, _ => false
  end.

(** What a replay leaves behind besides its decisions: the lines the body
    printed and the agent runs it made, both done again on every replay. *)
Record replayed : Type := {
  decisions : list decision;
  lines : list string;
  agent_calls : nat
}.

Definition decide (ds : list decision) (ls : list string) (n : nat) : replayed :=
  {| decisions := ds; lines := ls; agent_calls := n |}.

Definition open_in (h : list event) (t : task) : bool :=
  match outcome_in h t with
  | Some _ => false
  | None => true
  end.

(** Modelled from the spec: replay-and-advance (section 4.2).  The body is
    run from its start against history [h]; a call history already records
    is answered from the record, the first one it does not record is
    emitted as a decision.  [agent n] answers the [n]-th direct agent run
    of the process, which no event records.  Leaving a task group follows
    the host language: a recorded failure of a member cancels the open
    members and fails the run. *)
Fixpoint replay (agent : nat -> result ResearchPlan) (h : list event)
    (p : wf value) (next : task) (ls : list string) (runs : nat) : replayed :=
  match p with
  | Ret v => decide [CompleteWorkflow v] ls runs
  | Vis o k =>
      match o in op X return (X -> wf value) -> replayed with
      | OpPrint line => fun k => replay agent h (k tt) next (ls ++ [line])%list runs
      | OpAwait c => fun k =>
          match scheduled_in h next with
          | None => decide [ScheduleCall next c] ls runs
          | Some c' =>
              if same_type c c' then
                match outcome_in h next with
                | None => decide [] ls runs
                | Some (Ok v) => replay agent h (k v) (S next) ls runs
                | Some (Raise err) => decide [FailWorkflow err] ls runs
                end
              else decide [NonDeterminismError] ls runs
          end
      | OpCreateTask c => fun k =>
          match scheduled_in h next with
          | None =>
              let r := replay agent h (k next) (S next) ls runs in
              decide (ScheduleCall next c :: decisions r) (lines r) (agent_calls r)
          | Some c' =>
              if same_type c c' then replay agent h (k next) (S next) ls runs
              else decide [NonDeterminismError] ls runs
          end
      | OpJoin ts => fun k =>
          match first_failure h ts with
          | Some err =>
              decide (map CancelCall (List.filter (open_in h) ts)
                      ++ [FailWorkflow (ExceptionGroup [err])])%list ls runs
          | None =>
              if forallb (fun t => negb (open_in h t)) ts
              then replay agent h (k tt) next ls runs
              else decide [] ls runs
          end
      | OpTaskResult t => fun k =>
          match outcome_in h t with
          | Some (Ok v) => replay agent h (k v) next ls runs
          | Some (Raise err) => decide [FailWorkflow err] ls runs
          | None => decide [FailWorkflow InvalidStateError] ls runs
          end
      | OpAgentRun _ _ _ => fun k =>
          match agent runs with
          | Ok plan => replay agent h (k plan) next ls (S runs)
          | Raise err => decide [FailWorkflow err] ls (S runs)
          end
      end k
  end.

(** Modelled from the spec: an ActivityTask (section 3), as far as the
    scheduler reads it: the call carries name, input and retry policy. *)
Record activity_task : Type := {
  activityId : task;
  task_call : call;
  attempt : nat
}.

(** Modelled from the spec: what lies outside the engine (sections 4.3 and
    6): what an attempt of a call does, whether the worker reports an error
    as retryable, the order in which open tasks come to an end, the answers
    of an agent a body runs directly, and the retry policy of a call that
    names none.  An attempt delivered again after a crash ends as it did. *)
Record world : Type := {
  run_attempt : task -> nat -> call -> result value;
  retryable : exn -> bool;
  rank : task -> nat;
  agent : nat -> result ResearchPlan;
  default_policy : RetryPolicy
}.

(** Modelled from the spec: a child workflow ends in
    [ChildWorkflowCompleted] or [ChildWorkflowFailed] (section 4.4); the
    scheduler does not retry it: one attempt. *)
Definition single_attempt : RetryPolicy :=
  {| initial_interval := 0; maximum_interval := 0;
     backoff_coefficient := 1; maximum_attempts := 1 |}.

Definition policy_of (w : world) (c : call) : RetryPolicy :=
  match c with
  | ExecuteActivity _ _ _ (Some p) => p
  | ExecuteActivity _ _ _ None => default_policy w
  | ExecuteChildWorkflow _ _ _ _ _ => single_attempt
  end.

(** Modelled from the spec: the delay before the retry that follows failed
    attempt [n] (section 4.3):
    [min(initialInterval * backoffCoefficient^(attempt-1), maxInterval)]. *)
Definition retry_delay (p : RetryPolicy) (n : nat) : Q :=
  Qmin (initial_interval p * backoff_coefficient p ^ (Z.of_nat n - 1))
       (maximum_interval p).

Inductive failure_action : Type :=
| RetryAfter (delay : Q)
| GiveUp.

(** Modelled from the spec: the scheduler's reading of the RetryPolicy on a
    failure report (section 4.3): retry when [attempt < maxAttempts] (or
    unlimited, [maxAttempts = 0]) and the error is marked retryable,
    otherwise the failure is terminal. *)
Definition on_failure (p : RetryPolicy) (n : nat) (is_retryable : bool) : failure_action :=
  if is_retryable && ((maximum_attempts p =? 0)%nat || (n <? maximum_attempts p)%nat)
  then RetryAfter (retry_delay p n)
  else GiveUp.

(** Modelled from the spec: the state of one run (sections 3 and 6).
    [history], [queue] and [wake] are the persisted records: the event log,
    the task queue and whether a decision task is due.  [inflight] lives in
    the memory of the processes at work.  The rest is the outside world:
    which attempts took place, which delays the scheduler waited, what
    replays printed and how many agent runs they made. *)
Record state : Type := {
  history : list event;
  queue : list activity_task;
  wake : bool;
  inflight : option (activity_task * result value);
  performed : list (task * nat);
  delays : list (task * Q);
  stdout : list string;
  agent_count : nat
}.

(** Modelled from the spec: [start_workflow] creates the execution and
    appends [WorkflowStarted] (section 2). *)
Definition start_workflow (input : value) : state :=
  {| history := [{| seq := 0; kind := WorkflowStarted input |}];
     queue := []; wake := true; inflight := None;
     performed := []; delays := []; stdout := []; agent_count := 0 |}.

Definition decision_event (d : decision) : option event_kind :=
  match d with
  | ScheduleCall id (ExecuteActivity _ _ _ _ as c) => Some (ActivityScheduled id c)
  | ScheduleCall id (ExecuteChildWorkflow _ _ _ _ _ as c) => Some (ChildWorkflowStarted id c)
  | CancelCall _ => None
  | CompleteWorkflow v => Some (WorkflowCompleted v)
  | FailWorkflow err => Some (WorkflowFailed err)
  | NonDeterminismError => None
  end.

Definition remove_task (id : task) (q : list activity_task) : list activity_task :=
  List.filter (fun t => negb (activityId t =? id)%nat) q.

Definition apply_to_queue (q : list activity_task) (d : decision) : list activity_task :=
  match d with
  | ScheduleCall id c => (q ++ [{| activityId := id; task_call := c; attempt := 1 |}])%list
  | CancelCall id => remove_task id q
  | _ => q
  end.

Definition is_nondeterminism (d : decision) : bool :=
  match d with
  | NonDeterminismError => true
  | _ => false
  end.

(** Modelled from the spec: one decision cycle (sections 2 and 4.2): replay
    the body against the whole history, append the events of the decisions
    in one batch and hand the scheduled calls to the queue.  A replay that
    contradicts history halts the run. *)
Definition decision_cycle (w : world) (p : wf value) (s : state) : state :=
  let r := replay (agent w) (history s) p 0 [] (agent_count s) in
  let h' :=
    if existsb is_nondeterminism (decisions r) then Some (history s)
    else append (history s) (length (history s)) (omap decision_event (decisions r)) in
  match h' with
  | Some h' =>
      {| history := h';
         queue := if existsb is_nondeterminism (decisions r) then queue s
                  else fold_left apply_to_queue (decisions r) (queue s);
         wake := false; inflight := inflight s;
         performed := performed s; delays := delays s;
         stdout := (stdout s ++ lines r)%list; agent_count := agent_calls r |}
  | None => s
  end.

(** The open task that comes to an end first, ties in queue order. *)
Fixpoint pick (rk : task -> nat) (q : list activity_task) : option activity_task :=
  match q with
  | [] => None
  | t :: q' =>
      match pick rk q' with
      | Some u => if (rk (activityId u) <? rk (activityId t))%nat then Some u else Some t
      | None => Some t
      end
  end.

(** Modelled from the spec: a worker polls the task and runs the attempt
    (section 6, worker-facing protocol); the task stays in the queue, leased,
    until the worker reports. *)
Definition start_task (w : world) (t : activity_task) (s : state) : state :=
  {| history := history s; queue := queue s; wake := wake s;
     inflight := Some (t, run_attempt w (activityId t) (attempt t) (task_call t));
     performed := (performed s ++ [(activityId t, attempt t)])%list;
     delays := delays s; stdout := stdout s; agent_count := agent_count s |}.

Definition closing_event (t : activity_task) (r : result value) : event_kind :=
  match task_call t, r with
  | ExecuteActivity _ _ _ _, Ok v => ActivityCompleted (activityId t) v
  | ExecuteActivity _ _ _ _, Raise err => ActivityFailed (activityId t) err
  | ExecuteChildWorkflow _ _ _ _ _, Ok v => ChildWorkflowCompleted (activityId t) v
  | ExecuteChildWorkflow _ _ _ _ _, Raise err => ChildWorkflowFailed (activityId t) err
  end.

Definition close_task (t : activity_task) (r : result value) (s : state) : state :=
  {| history := (history s
                 ++ [{| seq := length (history s); kind := closing_event t r |}])%list;
     queue := remove_task (activityId t) (queue s);
     wake := true; inflight := None;
     performed := performed s; delays := delays s;
     stdout := stdout s; agent_count := agent_count s |}.

Definition bump (id : task) (t : activity_task) : activity_task :=
  if (activityId t =? id)%nat
  then {| activityId := activityId t; task_call := task_call t; attempt := S (attempt t) |}
  else t.

(** Modelled from the spec: the scheduler on a worker's report (section
    4.3): a completion is appended; a failure is retried after the delay of
    the policy, or appended as terminal. *)
Definition report (w : world) (t : activity_task) (r : result value) (s : state) : state :=
  match r with
  | Ok _ => close_task t r s
  | Raise err =>
      match on_failure (policy_of w (task_call t)) (attempt t) (retryable w err) with
      | RetryAfter d =>
          {| history := history s; queue := map (bump (activityId t)) (queue s);
             wake := wake s; inflight := None;
             performed := performed s;
             delays := (delays s ++ [(activityId t, d)])%list;
             stdout := stdout s; agent_count := agent_count s |}
      | GiveUp => close_task t r s
      end
  end.

(** Modelled from the spec: what the engine does next for a run (sections 2
    and 4.3): nothing once the run is terminal; a decision cycle when new
    events woke the executor; otherwise the scheduler takes a report or
    hands out the next task. *)
Definition advance (w : world) (p : wf value) (s : state) : state :=
  match terminal (history s) with
  | Some _ => s
  | None =>
      if wake s then decision_cycle w p s
      else match inflight s with
           | Some (t, r) => report w t r s
           | None =>
               match pick (rank w) (queue s) with
               | Some t => start_task w t s
               | None => s
               end
           end
  end.

(** Modelled from the spec: a crash loses what processes held in memory and
    nothing that was persisted (section 4.6); the lease of a task taken but
    not reported expires and the task is delivered again. *)
Definition crash (s : state) : state :=
  {| history := history s; queue := queue s; wake := wake s; inflight := None;
     performed := performed s; delays := delays s;
     stdout := stdout s; agent_count := agent_count s |}.

(** Modelled from the spec: what happens to a run at one instant: the
    engine advances it, the processes crash (section 4.6), or an engine-level
    error (storage unavailable, lease contention; section 7) makes the
    engine's operation fail with nothing applied, to be retried. *)
Inductive tick : Type :=
| Advance
| Crash
| Fault.

Definition step (w : world) (p : wf value) (s : state) (t : tick) : state :=
  match t with
  | Advance => advance w p s
  | Crash => crash s
  | Fault => s
  end.

Definition run (w : world) (p : wf value) (ts : list tick) (s : state) : state :=
  fold_left (step w p) ts s.

(** Modelled from the spec: [get_result(handle)] (section 6): the result or
    error of the terminal event; [None] while the caller is kept waiting. *)
Definition get_result (s : state) : option (result value) := terminal (history s).

(** Modelled from the spec: the snapshot a [query(handle)] returns (section
    6): the status, the open tasks and what the body is waiting to do. *)
Record snapshot : Type := {
  snap_status : run_status;
  snap_open : list task;
  snap_next : list decision
}.

(** Modelled from the spec: [query(handle)] (section 6) replays the body
    against history and keeps none of its decisions. *)
Definition query (w : world) (p : wf value) (s : state) : snapshot * state :=
  let r := replay (agent w) (history s) p 0 [] (agent_count s) in
  ({| snap_status := status_of (history s);
      snap_open := map activityId (queue s);
      snap_next := decisions r |},
   {| history := history s; queue := queue s; wake := wake s;
      inflight := inflight s; performed := performed s; delays := delays s;
      stdout := (stdout s ++ lines r)%list; agent_count := agent_calls r |}).

(** *** What the properties of the engine are stated with *)

(** Two states of a run that agree on what was persisted and on what the
    processes hold; they may differ in what the world saw. *)
Definition same_run (s s' : state) : Prop :=
  history s = history s' /\ queue s = queue s' /\ wake s = wake s' /\
  inflight s = inflight s'.



(** A task is open in a history that scheduled it and has not closed it. *)
Definition open_task (h : list event) (t : activity_task) : Prop :=
  outcome_in h (activityId t) = None /\ is_Some (scheduled_in h (activityId t)).

(** What holds of every state a run reaches: the queue holds open tasks
    only; what is closed was scheduled; and a worker holds the task that
    was next in line, with the result of its attempt, while the run is
    neither woken nor terminal. *)
Record sound (w : world) (s : state) : Prop := {
  sound_queue : forall t, t ∈ queue s -> open_task (history s) t;
  sound_closed : forall id,
    is_Some (outcome_in (history s) id) -> is_Some (scheduled_in (history s) id);
  sound_inflight : forall t r,
    inflight s = Some (t, r) ->
    wake s = false /\ terminal (history s) = None /\
    pick (rank w) (queue s) = Some t /\
    r = run_attempt w (activityId t) (attempt t) (task_call t)
}.

(** How many times the call scheduled under [id] was executed. *)
Definition executions (id : task) (s : state) : nat :=
  length (List.filter (fun x => (fst x =? id)%nat) (performed s)).

(** The run that nothing interrupts. *)
Definition uninterrupted (w : world) (p : wf value) (input : value) (n : nat) : state :=
  run w p (repeat Advance n) (start_workflow input).

(** The body prints, if at all, and then awaits the call [c]. *)
Inductive awaits (c : call) : wf value -> Prop :=
| awaits_here k : awaits c (Vis (OpAwait c) k)
| awaits_print line k : awaits c (k tt) -> awaits c (Vis (OpPrint line) k).

(** The history while the call is being tried. *)
Definition trying_history (input : value) (c : call) : list event :=
  [{| seq := 0; kind := WorkflowStarted input |};
   {| seq := 1; kind := ActivityScheduled 0 c |}].

(** The state before attempt [n]: the call scheduled, its task queued with
    attempt number [n], nobody woken, nothing held. *)
Definition before_attempt (input : value) (c : call) (n : nat) (s : state) : Prop :=
  history s = trying_history input c /\
  queue s = [{| activityId := 0; task_call := c; attempt := n |}] /\
  wake s = false /\ inflight s = None.

End Engine.

(** ** Fan-out and join as the specification words it *)

Inductive policy : Type :=
| FailFast
| CollectAll.

(** What a caller sees of a join: a result or error per child, in the order
    of the child specifications, or the failure of the join. *)
Inductive join_result : Type :=
| Joined (per_child : list (result value))
| JoinFailed (first : exn).

(** The children that reach an end before a first failure, walking them in
    the order they finish, and that failure if there is one. *)
Fixpoint finished_until_failure (e : env) (calls : list call) (order : list task)
    : list task * option exn :=
  match order with
  | [] => ([], None)
  | t :: rest =>
      match calls !! t with
      | Some c =>
          match outcome e t c with
          | Ok _ =>
              let '(fin, failure) := finished_until_failure e calls rest in
              (t :: fin, failure)
          | Raise err => ([t], Some err)
          end
      | None => finished_until_failure e calls rest
      end
  end.

(** Modelled from the spec: [fan_out] followed by [join] under a failure
    policy (section 4.4).  Under [CollectAll] the join waits for every child
    and returns a result or error per index; under [FailFast] the first child
    failure cancels the siblings still running and the join fails at once.
    The statuses of the children come first, the join's answer second. *)
Definition fan_out_join (pol : policy) (e : env) (calls : list call)
    : list status * join_result :=
  let outcomes := group_outcomes e calls in
  match pol with
  | CollectAll => (map Done outcomes, Joined outcomes)
  | FailFast =>
      match finished_until_failure e calls
              (finish_order (finish_time e) (seq 0 (length calls))) with
      | (_, None) => (map Done outcomes, Joined outcomes)
      | (fin, Some err) =>
          (imap (fun i r => if bool_decide (i ∈ fin) then Done r else Cancelled) outcomes,
           JoinFailed err)
      end
  end.

(** What a caller sees of a task group in the code: the list it got back,
    or the first error of the group the join raised. *)
Definition observe_join (r : result (list value)) : join_result :=
  match r with
  | Ok vs => Joined (map Ok vs)
  | Raise (ExceptionGroup (err :: _)) => JoinFailed err
  | Raise err => JoinFailed err
  end.

Definition observe_run (r : result value) : join_result :=
  match r with
  | Ok (VList vs) => Joined (map Ok vs)
  | Ok v => Joined [Ok v]
  | Raise (ExceptionGroup (err :: _)) => JoinFailed err
  | Raise err => JoinFailed err
  end.

(** The statuses of the tasks of a run and what its caller sees. *)
Definition observed (x : exec_state * result value) : list status * join_result :=
  (map slot_status (slots (fst x)), observe_run (snd x)).

(** ** Which operations a body performs *)

(** The engine primitives among the operations: awaiting an engine call,
    and the task-group operations over engine calls. *)
Definition engine_primitive {X} (o : op X) : bool :=
  match o with
  | OpAwait _ | OpCreateTask _ | OpJoin _ | OpTaskResult _ => true
  | OpPrint _ | OpAgentRun _ _ _ => false
  end.

(** The engine primitives whose engine call, if they make one, is a
    [workflow.execute_activity]. *)
Definition is_activity (c : call) : bool :=
  match c with
  | ExecuteActivity _ _ _ _ => true
  | ExecuteChildWorkflow _ _ _ _ _ => false
  end.

Definition activity_primitive {X} (o : op X) : bool :=
  match o with
  | OpAwait c | OpCreateTask c => is_activity c
  | OpJoin _ | OpTaskResult _ => true
  | OpPrint _ | OpAgentRun _ _ _ => false
  end.

Definition is_print {X} (o : op X) : bool :=
  match o with
  | OpPrint _ => true
  | _ => false
  end.

(** Every operation the body can come to perform, whatever the answers it
    gets, satisfies [ok]. *)
Inductive all_ops (ok : forall X, op X -> bool) {R} : wf R -> Prop :=
| all_ops_ret r : all_ops ok (Ret r)
| all_ops_vis X (o : op X) k :
    ok X o = true -> (forall x, all_ops ok (k x)) -> all_ops ok (Vis o k).

(** The body performs only engine primitives. *)
Definition engine_only {R} (p : wf R) : Prop := all_ops (@engine_primitive) p.

(** The body performs only engine primitives and prints. *)
Definition engine_or_print {R} (p : wf R) : Prop :=
  all_ops (fun X o => engine_primitive o || is_print o) p.

(** The first operation of a body. *)
Definition first_op_is {R} (ok : forall X, op X -> bool) (p : wf R) : bool :=
  match p with
  | Ret _ => false
  | Vis o _ => ok _ o
  end.

Definition is_agent_run {X} (o : op X) : bool :=
  match o with
  | OpAgentRun _ _ _ => true
  | _ => false
  end.

(** ** The activities behind the engine calls

    What a worker of [bleeding_edge_worker.py] runs for an engine call of
    the v2 workflows: the activity registered under the call's name, on the
    call's arguments. *)

Definition run_activity `{Host} `{Files} (c : call) : result value :=
  match c with
  | ExecuteActivity "bleeding_edge_research_activity" [VStr topic] _ _ =>
      snd (V2.bleeding_edge_research_activity topic)
  | ExecuteActivity "generate_markdown_report_activity" [research_data] _ _ =>
      snd (V2.generate_markdown_report_activity research_data)
  | _ => Raise (ExternalError "not registered")
  end.

Definition worker_env `{Host} `{Files} (ft : task -> nat)
    (ag : string -> string -> string -> result ResearchPlan) : env :=
  {| outcome := fun _ c => run_activity c; finish_time := ft; agent_answer := ag |}.

(** ** The filter, stated on its own *)

Definition june_november : list string :=
  ["2025-06"; "2025-07"; "2025-08"; "2025-09"; "2025-10"; "2025-11"].

(** Whether the filter loop keeps a source. *)
Definition date_matches (source : value) : bool :=
  match (try! date_str := py_get source "published_date" (VStr "") in
         in_june_november date_str) with
  | Ok true => true
  | _ => false
  end.

(** The sources an activity result carries under ['sources']. *)
Definition sources_of (d : value) : result value := py_getitem d "sources".

(** ** Sample data for the examples *)

(** A host for the examples: case folding of ASCII letters, a coarse
    [str()], a fixed clock, and a search client that answers every topic
    with the same response. *)
Definition ascii_lower_char (c : ascii) : ascii :=
  let n := nat_of_ascii c in
  if ((65 <=? n) && (n <=? 90))%nat then ascii_of_nat (n + 32) else c.

Fixpoint ascii_lower (s : string) : string :=
  match s with
  | EmptyString => EmptyString
  | String c s' => String (ascii_lower_char c) (ascii_lower s')
  end.

Definition sample_str (v : value) : string :=
  match v with
  | VNone => "None"
  | VBool true => "True"
  | VBool false => "False"
  | VInt z => pretty z
  | VStr s => s
  | _ => "<object>"
  end.

(** Three search hits: one dated July 2025, one dated 2024 that carries a
    snippet and no content, one with neither date nor text. *)
Definition dated_hit : value :=
  VDict [("title", VStr "Durable agents"); ("url", VStr "https://example.org/a");
         ("content", VStr "Durable execution for AI agents 2025");
         ("published_date", VStr "2025-07-14")].

Definition old_hit : value :=
  VDict [("title", VStr "Workflows in 2024"); ("url", VStr "https://example.org/b");
         ("snippet", VStr "Event sourcing"); ("published_date", VStr "2024-01-09")].

Definition undated_hit : value :=
  VDict [("title", VStr "Undated"); ("url", VStr "https://example.org/c")].

Definition sample_host (response : value) : Host :=
  {| str_lower := ascii_lower;
     py_str := sample_str;
     py_format_percent1 := fun _ => Ok "0.0%";
     tavily_search := fun _ => Ok response;
     now_isoformat := "2025-11-03T09:30:00" |}.

Definition mixed_response : value := VDict [("results", VList [dated_hit; old_hit; undated_hit])].
Definition stale_response : value := VDict [("results", VList [old_hit; undated_hit])].

(** The keys of the dictionary the v2 research activity returns, in the
    order it writes them. *)
Definition v2_result_keys : list string :=
  ["topic"; "sources"; "key_concepts"; "total_sources"; "concepts_found";
   "coverage"; "timestamp"; "date_filter"; "raw_count"; "filtered_count"].

(** Three children that finish after 5, 1 and 3 seconds; in [struck_env]
    the second one fails. *)
Definition child_report (t : task) : value :=
  VStr ("/adapt/projects/firebird/reports/child-" ++ pretty t ++ ".md").

Definition five_one_three (t : task) : nat :=
  match t with
  | 0 => 5
  | 1 => 1
  | _ => 3
  end.

Definition punctual_env : env :=
  {| outcome := fun t _ => Ok (child_report t);
     finish_time := five_one_three;
     agent_answer := fun _ _ _ => Raise (ExternalError "no agent") |}.

Definition struck_env : env :=
  {| outcome := fun t _ =>
       match t with
       | 1 => Raise (ExternalError "child failed")
       | _ => Ok (child_report t)
       end;
     finish_time := five_one_three;
     agent_answer := fun _ _ _ => Raise (ExternalError "no agent") |}.

Definition three_topics : list string := ["durability"; "replay"; "fan-out"].

Definition three_queries : ResearchPlan :=
  {| plan_topic := "workflows";
     queries := [ {| query := "durability"; focus_area := "engine" |};
                  {| query := "replay"; focus_area := "engine" |};
                  {| query := "fan-out"; focus_area := "orchestration" |} ] |}.

Definition no_queries : ResearchPlan := {| plan_topic := "workflows"; queries := [] |}.

(** An environment that differs from [punctual_env] in the agent's answer
    alone. *)
Definition planning_env : env :=
  {| outcome := outcome punctual_env;
     finish_time := finish_time punctual_env;
     agent_answer := fun _ _ _ => Ok three_queries |}.

(** The start request a child-workflow call makes. *)
Definition child_request (c : call) : option start_request :=
  match c with
  | ExecuteChildWorkflow name _ _ q _ => Some {| start_type := name; start_queue := q |}
  | ExecuteActivity _ _ _ _ => None
  end.

(** A world in which the search is down: every attempt fails, retryably. *)
Definition failing_world : Engine.world :=
  {| Engine.run_attempt := fun _ _ _ => Raise (ExternalError "search unavailable");
     Engine.retryable := fun _ => true;
     Engine.rank := fun t => t;
     Engine.agent := fun _ => Raise (ExternalError "no agent");
     Engine.default_policy := Engine.single_attempt |}.

(** A world in which every attempt succeeds. *)
Definition steady_world : Engine.world :=
  {| Engine.run_attempt := fun id _ _ => Ok (child_report id);
     Engine.retryable := fun _ => true;
     Engine.rank := fun t => t;
     Engine.agent := fun _ => Raise (ExternalError "no agent");
     Engine.default_policy := Engine.single_attempt |}.

Definition sample_run : wf value :=
  V2Workflows.BleedingEdgeResearchWorkflow_run "durable agents".

(** ** The other activities

    The report activity of [bleeding_edge_research_final.py], the activity
    of [workflows.py] and the search activity of [deep_research_agent.py],
    with the workers that run them. *)

(** [len(v)]. *)
Definition py_len_of (v : value) : result value :=
  match v with
  | VStr s => Ok (VInt (Z.of_nat (String.length s)))
  | VList l => Ok (py_len l)
  | VDict d => Ok (py_len d)
  | _ => Raise TypeError
  end.

Module FinalReport.
Section Activities.
Context `{Host} `{Files}.

(** One round of [for i, source in enumerate(research_data['sources'][:5], 1)]. *)
Definition source_entry (i : Z) (source : value) : result string :=
  try! title := py_getitem source "title" in
  try! content := py_getitem source "content" in
  try! head := py_slice_to 500 content in
  Ok ("### " ++ py_str (VInt i) ++ ". " ++ py_str title ++ nl ++ nl
      ++ py_str head ++ "..." ++ nl ++ nl).

(** The markdown text of [generate_markdown_report_activity], with the
    dictionary reads in the order the statements make them. *)
Definition markdown_content (research_data topic : value) : result string :=
  try! counted := py_getitem research_data "sources" in
  try! sources_count := py_len_of counted in
  try! timestamp := py_getitem research_data "timestamp" in
  try! date_filter := py_getitem research_data "date_filter" in
  let header :=
    "# 🔥 " ++ py_str topic ++ nl ++ nl
    ++ "**Generated**: " ++ py_str timestamp ++ nl
    ++ "**Period**: " ++ py_str date_filter ++ nl
    ++ "**Sources**: " ++ py_str sources_count ++ nl ++ nl
    ++ "---" ++ nl ++ nl ++ "## Summary" ++ nl ++ nl
    ++ "Research completed on '" ++ py_str topic ++ "' with "
    ++ py_str sources_count ++ " sources from June-November 2025." ++ nl ++ nl
    ++ "## Sources" ++ nl ++ nl in
  try! sources := py_getitem research_data "sources" in
  try! top := py_slice_to 5 sources in
  try! top_list := py_iter top in
  try! sources_text := V2.enumerate_lines source_entry 1 top_list in
  Ok (header ++ sources_text).

Definition generate_markdown_report_activity (research_data : value) : io value :=
  do! topic := io_lift (py_getitem research_data "topic") in
  do! short := io_lift (py_slice_to 50 topic) in
  run! io_emit (Print ("[Activity] 📝 Report: " ++ py_str short ++ "...")) in
  do! md_content := io_lift (markdown_content research_data topic) in
  do! safe_filename := io_lift (V2.safe_filename_of topic) in
  let md_path := V2.reports_dir ++ "/" ++ safe_filename ++ ".md" in
  run! io_attempt (MakeDirs V2.reports_dir) (os_makedirs V2.reports_dir) in
  run! io_attempt (WriteFile md_path md_content) (write_text md_path md_content) in
  io_ret (VStr md_path).

End Activities.
End FinalReport.

(** What a worker of [run_bleeding_worker.py] runs for an engine call of the
    workflows of [bleeding_edge_research_final.py]. *)
Definition run_final_activity `{Host} `{Files} (c : call) : result value :=
  match c with
  | ExecuteActivity "bleeding_edge_research_activity" [VStr topic] _ _ =>
      snd (Final.bleeding_edge_research_activity topic)
  | ExecuteActivity "generate_markdown_report_activity" [research_data] _ _ =>
      snd (FinalReport.generate_markdown_report_activity research_data)
  | _ => Raise (ExternalError "not registered")
  end.

(** The same worker, which also runs the child workflows the orchestrator
    starts on its queue: a child is a run of the workflow body over the
    worker's activities. *)
Definition run_final_call `{Host} `{Files} (ft : task -> nat)
    (ag : string -> string -> string -> result ResearchPlan) (c : call) : result value :=
  match c with
  | ExecuteChildWorkflow "BleedingEdgeResearchWorkflow" (VStr topic) _ "research-tasks" _ =>
      snd (exec {| outcome := fun _ c' => run_final_activity c';
                   finish_time := ft; agent_answer := ag |}
             (FinalWorkflows.BleedingEdgeResearchWorkflow_run topic) exec_init)
  | _ => run_final_activity c
  end.

Definition final_worker_env `{Host} `{Files} (ft : task -> nat)
    (ag : string -> string -> string -> result ResearchPlan) : env :=
  {| outcome := fun _ c => run_final_call ft ag c; finish_time := ft; agent_answer := ag |}.

(** *** workflows.py *)

Module SimpleActivity.

(** [research_activity]; the two seconds it sleeps between its prints are
    left out, time is not part of an activity's result. *)
Definition research_activity (topic : string) : io value :=
  run! io_emit (Print ("[Activity] Starting research on: " ++ topic)) in
  let result := "Research completed for: " ++ topic in
  run! io_emit (Print ("[Activity] " ++ result)) in
  io_ret (VStr result).

End SimpleActivity.

(** What a worker of [worker.py] runs for an engine call. *)
Definition run_simple_activity (c : call) : result value :=
  match c with
  | ExecuteActivity "research_activity" [VStr topic] _ _ =>
      snd (SimpleActivity.research_activity topic)
  | _ => Raise (ExternalError "not registered")
  end.

Definition simple_worker_env (ft : task -> nat)
    (ag : string -> string -> string -> result ResearchPlan) : env :=
  {| outcome := fun _ c => run_simple_activity c; finish_time := ft; agent_answer := ag |}.

(** *** pydantic_ai_examples/deep_research_agent.py *)

Module DeepActivities.

(** The pydantic model [SearchResult]. *)
Record SearchResult : Type := {
  title : string;
  url : string;
  content : string;
  query : string
}.

(** What a [str] field of a pydantic model does with the value it is given:
    a [str] is kept, any other value of [value] is rejected. *)
Definition validate_str (v : value) : result string :=
  match v with
  | VStr s => Ok s
  | _ => Raise (ExternalError "ValidationError")
  end.

(** [SearchResult(title=..., url=..., content=..., query=query)]. *)
Definition new_SearchResult (title url content : value) (query : string)
    : result SearchResult :=
  try! title := validate_str title in
  try! url := validate_str url in
  try! content := validate_str content in
  Ok {| title := title; url := url; content := content; query := query |}.

(** One element of the comprehension [search_activity] returns. *)
Definition search_hit (query : string) (r : value) : result SearchResult :=
  try! title := py_getitem r "title" in
  try! url := py_getitem r "url" in
  try! snippet := py_get r "snippet" (VStr "") in
  try! content := py_get r "content" snippet in
  new_SearchResult title url content query.

(** The part of [search_activity] after the search call. *)
Definition search_results (query : string) (results : value)
    : result (list SearchResult) :=
  try! found := py_getitem results "results" in
  try! hits := py_iter found in
  rmap (search_hit query) hits.

(** [search_activity], over the client's [search] with the keyword
    arguments the activity fixes. *)
Definition search_activity (search : string -> result value) (query : string)
    : result (list SearchResult) :=
  try! results := search query in
  search_results query results.

End DeepActivities.

(** ** Paths and the file system *)

(** The effects of an activity that reach the file system. *)
Definition touches_files (e : effect) : bool :=
  match e with
  | Print _ => false
  | MakeDirs _ | WriteFile _ _ => true
  end.

Definition file_effects (out : list effect) : list effect := List.filter touches_files out.

(** Whether the character [c] occurs in [s]. *)
Fixpoint str_has (c : ascii) (s : string) : bool :=
  match s with
  | EmptyString => false
  | String a s' => Ascii.eqb a c || str_has c s'
  end.

(** [s.lstrip(chars)] and [s.rstrip(chars)], the characters to strip given
    as a test. *)
Fixpoint str_lstrip (strip : ascii -> bool) (s : string) : string :=
  match s with
  | EmptyString => EmptyString
  | String c s' => if strip c then str_lstrip strip s' else s
  end.

Fixpoint str_rstrip (strip : ascii -> bool) (s : string) : string :=
  match s with
  | EmptyString => EmptyString
  | String c s' =>
      match str_rstrip strip s' with
      | EmptyString => if strip c then EmptyString else String c EmptyString
      | r => String c r
      end
  end.

Definition str_strip (strip : ascii -> bool) (s : string) : string :=
  str_rstrip strip (str_lstrip strip s).

(** [p[:p.rfind('/') + 1]]. *)
Fixpoint path_head (p : string) : string :=
  match p with
  | EmptyString => EmptyString
  | String c p' => if str_has "/" p then String c (path_head p') else EmptyString
  end.

Fixpoint all_chars (c : ascii) (s : string) : bool :=
  match s with
  | EmptyString => true
  | String a s' => Ascii.eqb a c && all_chars c s'
  end.

(** [os.path.dirname(p)] on a POSIX path: the head up to the last slash,
    without its trailing slashes unless it is made of slashes only. *)
Definition dirname (p : string) : string :=
  let head := path_head p in
  if all_chars "/" head then head else str_rstrip (Ascii.eqb "/") head.

(** ** The executive summary of temporal_research_workflows_v2.py

    The loop of [generate_executive_markdown_report] that reads the reports
    back and collects their concepts. *)

(** [s.split(sep)] for a separator that is not empty: [part] is the piece
    being read, [skip] counts the characters of a separator just met that
    are still to pass. *)
Fixpoint str_split_from (sep : string) (skip : nat) (part : string) (s : string)
    : list string :=
  match s with
  | EmptyString => [part]
  | String c s' =>
      match skip with
      | S n => str_split_from sep n part s'
      | O =>
          if String.prefix sep s
          then part :: str_split_from sep (String.length sep - 1) EmptyString s'
          else str_split_from sep 0 (part ++ String c EmptyString) s'
      end
  end.

Definition str_split (sep s : string) : list string := str_split_from sep 0 EmptyString s.

(** The white space [s.strip()] removes, among the characters of ASCII. *)
Definition is_space (c : ascii) : bool :=
  let n := nat_of_ascii c in
  ((9 <=? n) && (n <=? 13) || (28 <=? n) && (n <=? 32))%nat.

Module Executive.

Definition concepts_heading : string := "## 🔑 Key Concepts Identified".

(** [content.split("## 🔑 Key Concepts Identified")[1].split("---")[0] if
    "## 🔑 Key Concepts" in content else ""]; [None] is the [IndexError] of
    an index past the end of a list. *)
Definition concepts_section (content : string) : option string :=
  if str_contains "## 🔑 Key Concepts" content then
    match str_split concepts_heading content with
    | _ :: after :: _ =>
        match str_split "---" after with
        | first :: _ => Some first
        | [] => None
        end
    | _ => None
    end
  else Some "".

(** [[line.strip('- *').strip() for line in concepts_section.split('\n')
    if line.strip().startswith('-')]]. *)
Definition concept_lines (section : string) : list string :=
  map (fun line => str_strip is_space (str_strip (fun c => str_has c "- *") line))
    (List.filter (fun line => String.prefix "-" (str_strip is_space line))
       (str_split nl section)).

(** The loop over [workflow_results]: [files] says which paths exist and
    what they hold; a path that does not exist is passed over. *)
Fixpoint collect_concepts (files : string -> option string)
    (workflow_results : list string) : option (list string) :=
  match workflow_results with
  | [] => Some []
  | result_path :: rest =>
      match files result_path with
      | None => collect_concepts files rest
      | Some content =>
          match concepts_section content with
          | None => None
          | Some section =>
              match collect_concepts files rest with
              | None => None
              | Some more => Some (concept_lines section ++ more)%list
              end
          end
      end
  end.

End Executive.

(** ** Vocabulary for the properties of the activities *)

(** The keys of a source as the research activities build it. *)
Definition source_keys : list string :=
  ["title"; "url"; "content"; "query"; "published_date"].

(** The values [needle in v] accepts on its right. *)
Definition is_container (v : value) : bool :=
  match v with
  | VStr _ | VList _ | VDict _ => true
  | _ => false
  end.

(** The hits of a search response: what [results.get('results', [])]
    iterates over. *)
Definition hits_of (results : value) : result (list value) :=
  try! found := py_get results "results" (VList []) in
  py_iter found.

(** The test the filter loop makes on one source. *)
Definition date_test (source : value) : result bool :=
  try! date_str := py_get source "published_date" (VStr "") in
  in_june_november date_str.

(** The path both report activities write for a topic. *)
Definition report_path (topic : string) : string :=
  V2.reports_dir ++ "/"
  ++ str_take 50 (str_replace_char ":" "_"
                    (str_replace_char "/" "_" (str_replace_char " " "_" topic)))
  ++ ".md".

(** Whether the report activity can take [source['content'][:500]]. *)
Definition content_sliceable (source : value) : bool :=
  match py_getitem source "content" with
  | Ok (VStr _) | Ok (VList _) => true
  | _ => false
  end.

(** A file system on which every step succeeds, and one on which a path
    with a NUL character cannot be written, as [open] has it. *)
Definition sample_files : Files :=
  {| os_makedirs := fun _ => Ok tt; write_text := fun _ _ => Ok tt |}.

Definition strict_files : Files :=
  {| os_makedirs := fun _ => Ok tt;
     write_text := fun path _ =>
       if str_has (ascii_of_nat 0) path
       then Raise (ExternalError "ValueError: embedded null byte")
       else Ok tt |}.


(** The topics the final pipeline can render: the search returns, the
    research activity returns on its response, the report activity builds
    its markdown text from what the research returned, and the file system
    lets the reports directory be made and the text be written to the
    report path of the topic. *)
Definition renderable `{Host} `{Files} (topic : string) : Prop :=
  exists results d text,
    tavily_search topic = Ok results /\
    Final.research_result topic results = Ok d /\
    FinalReport.markdown_content d (VStr topic) = Ok text /\
    os_makedirs V2.reports_dir = Ok tt /\
    write_text (report_path topic) text = Ok tt.

(** What [DeepResearchWorkflow.run] asks its planning agent: the model, the
    system prompt and the prompt. *)
Definition planning_prompt (topic : string) : string * string * string :=
  ("minimax-m3", DeepResearch.planning_system_prompt,
   "Create a research plan for: " ++ topic).

(** The report paths whose text makes the reading fail. *)
Definition unreadable (files : string -> option string) (result_path : string) : Prop :=
  exists content,
    files result_path = Some content /\
    str_contains "## 🔑 Key Concepts" content = true /\
    str_contains Executive.concepts_heading content = false.

(** Whether [' '.join] accepts the content of a source. *)
Definition content_is_str (source : value) : bool :=
  match py_getitem source "content" with
  | Ok (VStr _) => true
  | _ => false
  end.

(** The keys the v2 report activity reads from its argument. *)
Definition v2_report_keys : list string :=
  ["topic"; "timestamp"; "date_filter"; "filtered_count"; "raw_count";
   "executive_summary"; "key_findings"; "key_concepts"; "sources";
   "recommendations"; "total_sources"; "concepts_found"; "coverage"].





(** The workflow id a child-workflow call asks for. *)
Definition call_id (c : call) : option string :=
  match c with
  | ExecuteChildWorkflow _ _ id _ _ => Some id
  | ExecuteActivity _ _ _ _ => None
  end.

(** Whether [s] is made of ASCII characters, for which a character of the
    text is one character of the string. *)
Fixpoint str_ascii (s : string) : bool :=
  match s with
  | EmptyString => true
  | String c s' => (nat_of_ascii c <? 128)%nat && str_ascii s'
  end.

(** * Properties *)

(** ** Results *)

Lemma rbind_ok {A B} (m : result A) (k : A -> result B) (b : B) :
  rbind m k = Ok b -> exists a, m = Ok a /\ k a = Ok b.
Proof. destruct m as [a|e]; simpl; [eauto | discriminate]. Qed.

Lemma Ok_inj {A} (a b : A) : Ok a = Ok b -> a = b.
Proof. intros Hab. congruence. Qed.

Ltac rbind_inv H :=
  let a := fresh "x" in
  let Ha := fresh "E" in
  apply rbind_ok in H; destruct H as (a & Ha & H).

Lemma rmap_length {A B} (f : A -> result B) (l : list A) (bs : list B) :
  rmap f l = Ok bs -> length bs = length l.
Proof.
  revert bs; induction l as [|a l IH]; simpl; intros bs Hm.
  - injection Hm as <-. reflexivity.
  - rbind_inv Hm. rbind_inv Hm. injection Hm as <-. simpl. f_equal. eauto.
Qed.

(** ** The date filter *)

Lemma in_june_november_str (s : string) :
  in_june_november (VStr s) = Ok (existsb (fun m => str_contains m s) june_november).
Proof.
  unfold in_june_november, june_november; simpl.
  repeat (destruct (str_contains _ s); simpl; [reflexivity|]).
  reflexivity.
Qed.

Lemma date_matches_str (entries : list (string * value)) (s : string) :
  dict_lookup "published_date" entries = Some (VStr s) ->
  date_matches (VDict entries) = existsb (fun m => str_contains m s) june_november.
Proof.
  intros Hd. unfold date_matches. cbn [py_get rbind]. rewrite Hd.
  cbn [rbind]. rewrite in_june_november_str.
  destruct (existsb _ june_november); reflexivity.
Qed.

Lemma date_filter_loop_ok (sources kept : list value) :
  date_filter_loop sources = Ok kept -> kept = List.filter date_matches sources.
Proof.
  revert kept; induction sources as [|source rest IH]; simpl; intros kept Hk.
  - injection Hk as <-. reflexivity.
  - rbind_inv Hk. rbind_inv Hk. rbind_inv Hk. injection Hk as <-.
    unfold date_matches. rewrite E; simpl. rewrite E0.
    rewrite (IH _ E1). destruct x0; reflexivity.
Qed.

Lemma filter_nil_existsb {A} (f : A -> bool) (l : list A) :
  List.filter f l = [] <-> existsb f l = false.
Proof.
  induction l as [|a l IH]; simpl; [tauto|].
  destruct (f a); simpl; [split; discriminate | exact IH].
Qed.

(** The filter returns the sources the loop keeps if there are any, and
    else the first ten of all sources. *)
Lemma filter_sources_ok (sources fs : list value) :
  filter_sources sources = Ok fs ->
  fs = if existsb date_matches sources
       then List.filter date_matches sources
       else firstn 10 sources.
Proof.
  unfold filter_sources; intros Hf. rbind_inv Hf.
  apply date_filter_loop_ok in E; subst x.
  destruct (List.filter date_matches sources) as [|s kept] eqn:Hk.
  - apply filter_nil_existsb in Hk. rewrite Hk. congruence.
  - destruct (existsb date_matches sources) eqn:He.
    + congruence.
    + apply filter_nil_existsb in He. congruence.
Qed.

(** ** C10: what the date filter returns *)

Lemma research_sources_v2 `{Host} (topic : string) (results d : value) :
  V2.research_result topic results = Ok d ->
  exists sources,
    extract_sources topic results = Ok sources /\
    sources_of d = Ok (VList (if existsb date_matches sources
                              then List.filter date_matches sources
                              else firstn 10 sources)) /\
    py_getitem d "date_filter" = Ok (VStr "June-November 2025").
Proof.
  unfold V2.research_result; intros Hr.
  rbind_inv Hr. rbind_inv Hr. rbind_inv Hr. apply Ok_inj in Hr; subst d.
  exists x. split; [exact E|]. apply filter_sources_ok in E0; subst x0.
  split; reflexivity.
Qed.

Lemma research_sources_final `{Host} (topic : string) (results d : value) :
  Final.research_result topic results = Ok d ->
  exists sources,
    extract_sources topic results = Ok sources /\
    sources_of d = Ok (VList (if existsb date_matches sources
                              then List.filter date_matches sources
                              else firstn 10 sources)) /\
    py_getitem d "date_filter" = Ok (VStr "June-November 2025").
Proof.
  unfold Final.research_result; intros Hr.
  rbind_inv Hr. rbind_inv Hr. apply Ok_inj in Hr; subst d.
  exists x. split; [exact E|]. apply filter_sources_ok in E0; subst x0.
  split; reflexivity.
Qed.

(** C10.  In both research activities, whenever the activity returns, the
    sources it returns are the fetched sources whose [published_date]
    contains one of ['2025-06'] to ['2025-11'] if there is at least one, and
    the first ten fetched sources if there is none; the result is labelled
    ['June-November 2025'] either way, and on a response with no source in
    range it carries a source dated 2024. *)
Theorem date_filter_falls_back_to_unfiltered `{Host} :
  (forall topic results d,
     V2.research_result topic results = Ok d \/
     Final.research_result topic results = Ok d ->
     exists sources,
       extract_sources topic results = Ok sources /\
       sources_of d = Ok (VList (if existsb date_matches sources
                                 then List.filter date_matches sources
                                 else firstn 10 sources)) /\
       py_getitem d "date_filter" = Ok (VStr "June-November 2025")) /\
  (forall entries s,
     dict_lookup "published_date" entries = Some (VStr s) ->
     date_matches (VDict entries) = existsb (fun m => str_contains m s) june_november) /\
  (exists d old,
     V2.research_result "durable agents" stale_response = Ok d /\
     Final.research_result "durable agents" stale_response
       = Ok (VDict [("topic", VStr "durable agents"); ("sources", VList [old; VDict
              [("title", VStr "Undated"); ("url", VStr "https://example.org/c");
               ("content", VStr ""); ("query", VStr "durable agents");
               ("published_date", VStr "N/A")]]);
              ("timestamp", VStr now_isoformat);
              ("date_filter", VStr "June-November 2025")]) /\
     py_getitem d "date_filter" = Ok (VStr "June-November 2025") /\
     (exists rest, sources_of d = Ok (VList (old :: rest))) /\
     py_getitem old "published_date" = Ok (VStr "2024-01-09") /\
     date_matches old = false).
Proof.
  split; [|split].
  - intros topic results d [Hr|Hr].
    + exact (research_sources_v2 topic results d Hr).
    + exact (research_sources_final topic results d Hr).
  - exact date_matches_str.
  - eexists. eexists. split; [reflexivity|]. split; [reflexivity|].
    split; [reflexivity|]. split; [eexists; reflexivity|]. split; reflexivity.
Qed.

Lemma date_filter_falls_back_to_unfiltered_witness :
  exists d,
    @V2.research_result (sample_host mixed_response) "durable agents" mixed_response
    = Ok d /\
    sources_of d
    = Ok (VList [VDict [("title", VStr "Durable agents");
                        ("url", VStr "https://example.org/a");
                        ("content", VStr "Durable execution for AI agents 2025");
                        ("query", VStr "durable agents");
                        ("published_date", VStr "2025-07-14")]]).
Proof.
  pose (H := sample_host mixed_response).
  destruct (@V2.research_result H "durable agents" mixed_response) as [d|e] eqn:Hd;
    [|vm_compute in Hd; discriminate].
  exists d. split; [exact Hd|].
  destruct (proj1 (@date_filter_falls_back_to_unfiltered H) _ _ d (or_introl Hd))
    as (sources & Hs & Hd' & _).
  vm_compute in Hs. injection Hs as <-. exact Hd'.
Defined.

(** ** Running bodies: general facts *)

Lemma exec_bind {A B} (e : env) (p : wf A) (k : A -> wf B) (st : exec_state) :
  exec e (wf_bind p k) st
  = match exec e p st with
    | (st', Ok a) => exec e (k a) st'
    | (st', Raise err) => (st', Raise err)
    end.
Proof.
  revert st; induction p as [r | X o h IH]; intros st; simpl.
  - reflexivity.
  - destruct o; simpl.
    + apply IH.
    + destruct (outcome e (length (slots st)) c); [apply IH | reflexivity].
    + apply IH.
    + destruct (join e ts (slots st)) as [sl failed].
      destruct failed; [apply IH | reflexivity].
    + destruct (task_result (slots st) t); [apply IH | reflexivity].
    + destruct (agent_answer e model system_prompt prompt); [apply IH | reflexivity].
Qed.

(** ** C9: the v2 pipeline *)

Lemma research_result_keys `{Host} (topic : string) (results d : value) :
  V2.research_result topic results = Ok d ->
  exists entries, d = VDict entries /\ dict_keys entries = v2_result_keys /\
                  dict_lookup "topic" entries = Some (VStr topic).
Proof.
  unfold V2.research_result; intros Hr.
  rbind_inv Hr. rbind_inv Hr. rbind_inv Hr. apply Ok_inj in Hr; subst d.
  eexists; split; [reflexivity|]. split; reflexivity.
Qed.

Lemma dict_lookup_not_key (k : string) (entries : list (string * value)) :
  ~ In k (dict_keys entries) -> dict_lookup k entries = None.
Proof.
  induction entries as [|[k' v] entries IH]; simpl; intros Hk; [reflexivity|].
  destruct (String.eqb_spec k' k) as [->|Hne]; [tauto|].
  apply IH; tauto.
Qed.

Lemma dict_lookup_key (k : string) (entries : list (string * value)) :
  In k (dict_keys entries) -> exists v, dict_lookup k entries = Some v.
Proof.
  induction entries as [|[k' v] entries IH]; simpl; intros Hk; [tauto|].
  destruct (String.eqb_spec k' k) as [->|Hne]; [eauto|].
  destruct Hk as [Hk|Hk]; [congruence | eauto].
Qed.

(** The report activity on a dictionary with exactly the keys the research
    activity produces: it prints its first line and raises. *)
Lemma report_raises_on_v2_keys `{Host} `{Files} (entries : list (string * value)) (topic : string) :
  dict_keys entries = v2_result_keys ->
  dict_lookup "topic" entries = Some (VStr topic) ->
  V2.generate_markdown_report_activity (VDict entries)
  = ([Print ("[Temporal Activity] 📝 Generating Markdown report: "
             ++ py_str (VStr (str_take 50 topic)) ++ "...")],
     Raise (KeyError "executive_summary")).
Proof.
  intros Hkeys Htopic.
  assert (Hin : forall k, In k v2_result_keys -> exists v, dict_lookup k entries = Some v)
    by (intros k Hk; apply dict_lookup_key; rewrite Hkeys; exact Hk).
  assert (Hout : dict_lookup "executive_summary" entries = None).
  { apply dict_lookup_not_key. rewrite Hkeys. unfold v2_result_keys; simpl.
    intros Hk; repeat (destruct Hk as [Hk|Hk]; [discriminate|]); exact Hk. }
  destruct (Hin "timestamp") as [v1 H1]; [unfold v2_result_keys; simpl; tauto|].
  destruct (Hin "date_filter") as [v2 H2]; [unfold v2_result_keys; simpl; tauto|].
  destruct (Hin "filtered_count") as [v3 H3]; [unfold v2_result_keys; simpl; tauto|].
  destruct (Hin "raw_count") as [v4 H4]; [unfold v2_result_keys; simpl; tauto|].
  unfold V2.generate_markdown_report_activity, V2.markdown_content, io_bind, io_lift, io_emit, py_getitem, rbind.
  rewrite Htopic; cbn [py_slice_to]. rewrite H1, H2, H3, H4, Hout. reflexivity.
Qed.

Lemma research_activity_result `{Host} (topic : string) :
  snd (V2.bleeding_edge_research_activity topic)
  = rbind (tavily_search topic) (V2.research_result topic).
Proof.
  unfold V2.bleeding_edge_research_activity, io_bind, io_emit, io_lift.
  destruct (tavily_search topic) as [results|err]; simpl; [|reflexivity].
  destruct (V2.research_result topic results); reflexivity.
Qed.

Lemma run_research_call `{Host} `{Files} (topic : string) :
  run_activity (V2Workflows.research_call topic)
  = snd (V2.bleeding_edge_research_activity topic).
Proof. reflexivity. Qed.

Lemma run_report_call `{Host} `{Files} (research_data : value) :
  run_activity (V2Workflows.report_call research_data)
  = snd (V2.generate_markdown_report_activity research_data).
Proof. reflexivity. Qed.

Lemma report_raises_on_research_output `{Host} `{Files} (topic : string) (d : value) :
  snd (V2.bleeding_edge_research_activity topic) = Ok d ->
  (exists entries, d = VDict entries /\ dict_keys entries = v2_result_keys) /\
  V2.generate_markdown_report_activity d
  = ([Print ("[Temporal Activity] 📝 Generating Markdown report: "
             ++ py_str (VStr (str_take 50 topic)) ++ "...")],
     Raise (KeyError "executive_summary")).
Proof.
  rewrite research_activity_result. intros Hd. rbind_inv Hd.
  destruct (research_result_keys _ _ _ Hd) as (entries & -> & Hkeys & Htopic).
  split; [eauto|]. apply report_raises_on_v2_keys; assumption.
Qed.

(** C9.  For every topic the v2 pipeline fails.  Whenever the research
    activity returns, its dictionary has exactly the ten keys [topic],
    [sources], [key_concepts], [total_sources], [concepts_found], [coverage],
    [timestamp], [date_filter], [raw_count] and [filtered_count]; none of
    [executive_summary], [key_findings] and [recommendations] is among them;
    the report activity, given that dictionary, prints one line and raises
    [KeyError] on [executive_summary] without writing a file; and the workflow
    run by a worker with these two activities ends in an error, that
    [KeyError] when the research activity returns. *)
Theorem v2_pipeline_always_fails `{Host} `{Files} (topic : string) (ft : task -> nat)
    (ag : string -> string -> string -> result ResearchPlan) :
  (forall d,
     snd (V2.bleeding_edge_research_activity topic) = Ok d ->
     (exists entries, d = VDict entries /\ dict_keys entries = v2_result_keys) /\
     Forall (fun k => py_getitem d k = Raise (KeyError k))
       ["executive_summary"; "key_findings"; "recommendations"] /\
     (exists line,
        V2.generate_markdown_report_activity d
        = ([Print line], Raise (KeyError "executive_summary"))) /\
     snd (exec (worker_env ft ag) (V2Workflows.BleedingEdgeResearchWorkflow_run topic)
            exec_init)
     = Raise (KeyError "executive_summary")) /\
  (exists err,
     snd (exec (worker_env ft ag) (V2Workflows.BleedingEdgeResearchWorkflow_run topic)
            exec_init)
     = Raise err).
Proof.
  assert (Hrun : forall d,
    snd (V2.bleeding_edge_research_activity topic) = Ok d ->
    snd (exec (worker_env ft ag) (V2Workflows.BleedingEdgeResearchWorkflow_run topic)
           exec_init)
    = Raise (KeyError "executive_summary")).
  { intros d Hd. destruct (report_raises_on_research_output topic d Hd) as [_ Hrep].
    unfold V2Workflows.BleedingEdgeResearchWorkflow_run, perform.
    cbn [wf_bind exec]. cbn [worker_env outcome]. rewrite run_research_call, Hd.
    cbn [wf_bind exec]. cbn [worker_env outcome]. rewrite run_report_call, Hrep.
    reflexivity. }
  split.
  - intros d Hd. destruct (report_raises_on_research_output topic d Hd)
      as [(entries & -> & Hkeys) Hrep].
    split; [eauto|]. split; [|split; [eauto | exact (Hrun _ Hd)]].
    repeat constructor; unfold py_getitem;
      (rewrite dict_lookup_not_key; [reflexivity|]); rewrite Hkeys;
      unfold v2_result_keys; simpl;
      intros Hk; repeat (destruct Hk as [Hk|Hk]; [discriminate|]); exact Hk.
  - destruct (snd (V2.bleeding_edge_research_activity topic)) as [d|err] eqn:Hd.
    + eexists. exact (Hrun d eq_refl).
    + exists err.
      unfold V2Workflows.BleedingEdgeResearchWorkflow_run, perform.
      cbn [wf_bind exec]. cbn [worker_env outcome]. rewrite run_research_call, Hd.
      reflexivity.
Qed.

Lemma v2_pipeline_always_fails_witness :
  exists d,
    snd (@V2.bleeding_edge_research_activity (sample_host mixed_response) "durable agents")
    = Ok d /\
    snd (@V2.generate_markdown_report_activity (sample_host mixed_response) sample_files d)
    = Raise (KeyError "executive_summary").
Proof.
  pose (H := sample_host mixed_response).
  destruct (snd (@V2.bleeding_edge_research_activity H "durable agents"))
    as [d|e] eqn:Hd; [|vm_compute in Hd; discriminate].
  exists d. split; [exact Hd|].
  destruct (proj1 (@v2_pipeline_always_fails H sample_files "durable agents" (fun t => t)
                     (fun _ _ _ => Raise TimeoutError)) d Hd)
    as (_ & _ & (line & Hrep) & _).
  exact (f_equal snd Hrep).
Defined.

(** ** Task groups *)

Lemma insert_by_perm key t l : Permutation (insert_by key t l) (t :: l).
Proof.
  induction l as [|u l IH]; simpl; [reflexivity|].
  destruct (key t <=? key u)%nat; [reflexivity|].
  rewrite IH. apply perm_swap.
Qed.

Lemma finish_order_perm key ts : Permutation (finish_order key ts) ts.
Proof.
  induction ts as [|t ts IH]; simpl; [reflexivity|].
  rewrite insert_by_perm. now constructor.
Qed.

Lemma exec_create_tasks (e : env) (calls : list call) (st : exec_state) :
  exec e (create_tasks calls) st
  = (with_slots st (slots st ++ map pending_slot calls),
     Ok (seq (length (slots st)) (length calls))).
Proof.
  revert st; induction calls as [|c calls IH]; intros st; simpl.
  - unfold with_slots. rewrite app_nil_r. destruct st; reflexivity.
  - rewrite exec_bind, IH. simpl. rewrite length_app; simpl.
    rewrite <- app_assoc; simpl. rewrite Nat.add_1_r. reflexivity.
Qed.

Lemma group_slots_lookup e calls fin cancelled t c :
  calls !! t = Some c ->
  group_slots e calls fin cancelled !! t
  = Some {| slot_call := c; slot_status := group_status e fin cancelled t c |}.
Proof. intros Hc. unfold group_slots. rewrite list_lookup_imap, Hc. reflexivity. Qed.

Lemma group_slots_pending e calls :
  map pending_slot calls = group_slots e calls [] false.
Proof.
  unfold group_slots. apply list_eq; intros i.
  rewrite list_lookup_fmap, list_lookup_imap.
  destruct (calls !! i); reflexivity.
Qed.

Lemma group_slots_length e calls fin cancelled :
  length (group_slots e calls fin cancelled) = length calls.
Proof. unfold group_slots. apply length_imap. Qed.

Lemma group_slots_finish e calls fin t c :
  calls !! t = Some c -> t ∉ fin ->
  <[t := {| slot_call := c; slot_status := Done (outcome e t c) |}]>
    (group_slots e calls fin false)
  = group_slots e calls (t :: fin) false.
Proof.
  intros Hc Hfin. apply list_eq; intros i.
  destruct (decide (i = t)) as [->|Hne].
  - rewrite list_lookup_insert_eq
      by (rewrite group_slots_length; eapply lookup_lt_Some; eauto).
    rewrite (group_slots_lookup _ _ _ _ _ _ Hc). unfold group_status.
    rewrite bool_decide_eq_true_2 by apply list_elem_of_here. reflexivity.
  - rewrite list_lookup_insert_ne by auto.
    unfold group_slots. rewrite !list_lookup_imap.
    destruct (calls !! i) as [ci|]; simpl; [|reflexivity].
    unfold group_status.
    assert (Hiff : i ∈ t :: fin <-> i ∈ fin)
      by (rewrite elem_of_cons; tauto).
    rewrite (bool_decide_ext _ _ Hiff). reflexivity.
Qed.

Lemma cancel_pending_lookup ts sl i :
  cancel_pending ts sl !! i
  = (if bool_decide (i ∈ ts) then cancel_slot else id) <$> sl !! i.
Proof.
  revert sl; induction ts as [|t ts IH]; intros sl; cbn [cancel_pending].
  - case_bool_decide as Hi; [inversion Hi|]. now destruct (sl !! i).
  - rewrite IH. destruct (decide (i = t)) as [->|Hne].
    + rewrite list_lookup_alter_eq.
      rewrite (bool_decide_eq_true_2 (t ∈ t :: ts)) by apply list_elem_of_here.
      destruct (sl !! t) as [s|]; simpl; [|reflexivity].
      case_bool_decide; simpl; [|reflexivity].
      destruct s as [c []]; reflexivity.
    + rewrite list_lookup_alter_ne by auto.
      assert (Hiff : i ∈ t :: ts <-> i ∈ ts)
        by (rewrite elem_of_cons; tauto).
      rewrite (bool_decide_ext _ _ Hiff). reflexivity.
Qed.

Lemma group_slots_cancel e calls fin :
  cancel_pending (seq 0 (length calls)) (group_slots e calls fin false)
  = group_slots e calls fin true.
Proof.
  apply list_eq; intros i. rewrite cancel_pending_lookup.
  unfold group_slots. rewrite !list_lookup_imap.
  destruct (calls !! i) as [c|] eqn:Hc; simpl; [|reflexivity].
  rewrite bool_decide_eq_true_2.
  2:{ apply elem_of_seq. apply lookup_lt_Some in Hc. lia. }
  unfold cancel_slot, group_status; simpl.
  destruct (bool_decide (i ∈ fin)); reflexivity.
Qed.

Lemma complete_no_pending e ts order sl failed :
  (forall t s, t ∈ order -> sl !! t = Some s -> slot_status s <> Pending) ->
  complete_in_order e ts order sl failed = (sl, failed).
Proof.
  induction order as [|t rest IH]; intros Hno; simpl; [reflexivity|].
  assert (Hrest : complete_in_order e ts rest sl failed = (sl, failed)).
  { apply IH. intros u s Hu. apply Hno. now apply list_elem_of_further. }
  destruct (sl !! t) as [[c st]|] eqn:Ht; [|exact Hrest].
  destruct st; try exact Hrest.
  exfalso. exact (Hno t _ (list_elem_of_here _ _) Ht eq_refl).
Qed.

Lemma group_slots_none_pending e calls fin t s :
  group_slots e calls fin true !! t = Some s -> slot_status s <> Pending.
Proof.
  unfold group_slots. rewrite list_lookup_imap.
  destruct (calls !! t) as [c|]; simpl; [|discriminate].
  intros [= <-]; simpl. unfold group_status.
  destruct (bool_decide (t ∈ fin)); discriminate.
Qed.

(** Letting the tasks of a group finish in a given order: those up to the
    first failure are done, the others cancelled. *)
Lemma complete_group e calls order fin :
  NoDup order ->
  (forall t, t ∈ order -> t ∉ fin) ->
  (forall t, t ∈ order -> t < length calls) ->
  complete_in_order e (seq 0 (length calls)) order (group_slots e calls fin false) []
  = match finished_until_failure e calls order with
    | (fin', None) => (group_slots e calls (rev fin' ++ fin) false, [])
    | (fin', Some err) => (group_slots e calls (rev fin' ++ fin) true, [err])
    end.
Proof.
  revert fin; induction order as [|t rest IH]; intros fin Hnd Hfin Hlt; simpl.
  - reflexivity.
  - apply NoDup_cons in Hnd as [Ht Hnd].
    destruct (lookup_lt_is_Some_2 calls t) as [c Hc];
      [apply Hlt, list_elem_of_here|].
    rewrite (group_slots_lookup _ _ _ _ _ _ Hc), Hc.
    unfold group_status at 1.
    rewrite bool_decide_eq_false_2 by (apply Hfin, list_elem_of_here).
    rewrite (group_slots_finish _ _ _ _ _ Hc) by (apply Hfin, list_elem_of_here).
    destruct (outcome e t c) as [v|err] eqn:Hout.
    + rewrite IH; [| assumption | | ].
      * destruct (finished_until_failure e calls rest) as [fin' [err|]];
          simpl; rewrite <- app_assoc; reflexivity.
      * intros u Hu. rewrite elem_of_cons. intros [->|Hin]; [tauto|].
        apply (Hfin u); [now apply list_elem_of_further | assumption].
      * intros u Hu. apply Hlt. now apply list_elem_of_further.
    + rewrite group_slots_cancel. simpl.
      apply complete_no_pending. intros u s _. apply group_slots_none_pending.
Qed.

Lemma finished_all e calls order fin :
  finished_until_failure e calls order = (fin, None) ->
  (forall t, t ∈ order -> t < length calls) ->
  fin = order /\
  forall t c, t ∈ order -> calls !! t = Some c -> exists v, outcome e t c = Ok v.
Proof.
  revert fin; induction order as [|t rest IH]; intros fin; simpl.
  - intros [= <-] _. split; [reflexivity|]. intros t c Ht. inversion Ht.
  - intros Hf Hlt.
    destruct (lookup_lt_is_Some_2 calls t) as [c Hc];
      [apply Hlt, list_elem_of_here|].
    rewrite Hc in Hf. destruct (outcome e t c) as [v|err] eqn:Hout; [|discriminate].
    destruct (finished_until_failure e calls rest) as [fin' fl] eqn:Hrest.
    injection Hf as <- ->.
    destruct (IH fin' eq_refl) as [-> Hok].
    { intros u Hu. apply Hlt. now apply list_elem_of_further. }
    split; [reflexivity|].
    intros u cu Hu Hcu. apply elem_of_cons in Hu as [->|Hu].
    + rewrite Hc in Hcu. injection Hcu as <-. eauto.
    + eauto.
Qed.

Lemma finished_failure e calls order fin err :
  finished_until_failure e calls order = (fin, Some err) ->
  exists t c, t ∈ order /\ calls !! t = Some c /\ outcome e t c = Raise err.
Proof.
  revert fin; induction order as [|t rest IH]; intros fin; simpl; [discriminate|].
  destruct (calls !! t) as [c|] eqn:Hc.
  - destruct (outcome e t c) as [v|err'] eqn:Hout.
    + destruct (finished_until_failure e calls rest) as [fin' fl] eqn:Hrest.
      intros [= <- ->]. destruct (IH fin' eq_refl) as (u & cu & Hu & Hcu & Hou).
      exists u, cu. split; [now apply list_elem_of_further | auto].
    + intros [= <- <-]. exists t, c. split; [apply list_elem_of_here | auto].
  - intros Hf. destruct (IH fin Hf) as (u & cu & Hu & Hcu & Hou).
    exists u, cu. split; [now apply list_elem_of_further | auto].
Qed.

Lemma all_ok_values {A} (f : nat -> A -> result value) (l : list A) :
  (forall i a, l !! i = Some a -> exists v, f i a = Ok v) ->
  exists vs, imap f l = map Ok vs.
Proof.
  revert f; induction l as [|a l IH]; intros f Hok; simpl.
  - exists []. reflexivity.
  - destruct (Hok 0 a eq_refl) as [v Hv].
    destruct (IH (f ∘ S)) as [vs Hvs].
    { intros i b Hb. apply (Hok (S i) b Hb). }
    exists (v :: vs). simpl. rewrite Hv, Hvs. reflexivity.
Qed.

Lemma exec_task_results e ts vs st :
  Forall2 (fun t v => task_result (slots st) t = Ok v) ts vs ->
  exec e (task_results ts) st = (st, Ok vs).
Proof.
  induction 1 as [|t v ts vs Ht _ IH]; simpl; [reflexivity|].
  rewrite Ht. rewrite exec_bind, IH. reflexivity.
Qed.

Lemma values_of_ok (vs : list value) : values_of (map Ok vs) = vs.
Proof. induction vs as [|v vs IH]; simpl; [reflexivity | now f_equal]. Qed.

Lemma finish_order_elem key n t :
  t ∈ finish_order key (seq 0 n) <-> t < n.
Proof.
  rewrite (finish_order_perm key (seq 0 n)). rewrite elem_of_seq. lia.
Qed.

Lemma finish_order_nodup key n : NoDup (finish_order key (seq 0 n)).
Proof. rewrite (finish_order_perm key (seq 0 n)). apply NoDup_seq. Qed.

(** A task group that starts a run: either a member fails, then the group
    raises that failure and the body stops; or none does, then the body goes
    on with the values of the members in the order they were created. *)
Lemma exec_task_group {R} (e : env) (calls : list call) (K : list value -> wf R)
    (st : exec_state) :
  slots st = [] ->
  exec e (wf_bind (task_group calls) K) st
  = match finished_until_failure e calls
            (finish_order (finish_time e) (seq 0 (length calls))) with
    | (fin, None) =>
        exec e (K (values_of (group_outcomes e calls)))
          (with_slots st (group_slots e calls (rev fin) false))
    | (fin, Some err) =>
        (with_slots st (group_slots e calls (rev fin) true),
         Raise (ExceptionGroup [err]))
    end.
Proof.
  intros Hst. rewrite exec_bind. unfold task_group.
  rewrite exec_bind, exec_create_tasks, Hst. cbn [app length].
  rewrite group_slots_pending with (e := e).
  cbn [wf_bind perform exec with_slots slots]. unfold join.
  rewrite complete_group.
  2:{ apply finish_order_nodup. }
  2:{ intros t _ Ht. inversion Ht. }
  2:{ intros t Ht. now apply finish_order_elem in Ht. }
  destruct (finished_until_failure e calls _) as [fin [err|]] eqn:Hfin;
    rewrite app_nil_r; [reflexivity|].
  apply finished_all in Hfin as [-> Hok];
    [| intros t Ht; now apply finish_order_elem in Ht].
  destruct (all_ok_values (fun i c => outcome e i c) calls) as [vs Hvs].
  { intros i c Hc. apply (Hok i c); [|exact Hc].
    apply finish_order_elem. eapply lookup_lt_Some; eauto. }
  unfold group_outcomes. rewrite Hvs, values_of_ok.
  rewrite (exec_task_results e (seq 0 (length calls)) vs); [reflexivity|].
  apply Forall2_same_length_lookup. split.
  - rewrite length_seq. apply (f_equal length) in Hvs.
    rewrite length_imap, length_map in Hvs. exact Hvs.
  - intros i t v Ht Hv. apply lookup_seq in Ht as [-> Hi]. simpl.
    destruct (lookup_lt_is_Some_2 calls i Hi) as [c Hc].
    unfold task_result; cbn [with_slots slots].
    rewrite (group_slots_lookup _ _ _ _ _ _ Hc); cbn.
    unfold group_status. rewrite bool_decide_eq_true_2.
    2:{ apply list_elem_of_In. apply -> in_rev. apply list_elem_of_In.
        now apply finish_order_elem. }
    apply (f_equal (fun l => l !! i)) in Hvs.
    rewrite list_lookup_imap, Hc, list_lookup_fmap, Hv in Hvs.
    simpl in Hvs. now injection Hvs.
Qed.

Lemma group_slots_ext e calls fin fin' cancelled :
  (forall i, i ∈ fin <-> i ∈ fin') ->
  group_slots e calls fin cancelled = group_slots e calls fin' cancelled.
Proof.
  intros Hiff. unfold group_slots. apply imap_ext; intros i c _.
  unfold group_status. now rewrite (bool_decide_ext _ _ (Hiff i)).
Qed.

Lemma group_statuses_cancelled e calls fin :
  map slot_status (group_slots e calls fin true)
  = imap (fun i r => if bool_decide (i ∈ fin) then Done r else Cancelled)
      (group_outcomes e calls).
Proof.
  unfold group_slots, group_outcomes. apply list_eq; intros i.
  rewrite list_lookup_fmap, !list_lookup_imap.
  destruct (calls !! i); reflexivity.
Qed.

Lemma group_statuses_all_done e calls fin :
  (forall i, i < length calls -> i ∈ fin) ->
  map slot_status (group_slots e calls fin false) = map Done (group_outcomes e calls).
Proof.
  intros Hall. unfold group_slots, group_outcomes. apply list_eq; intros i.
  rewrite !list_lookup_fmap, !list_lookup_imap.
  destruct (calls !! i) as [c|] eqn:Hc; simpl; [|reflexivity].
  unfold group_status. rewrite bool_decide_eq_true_2; [reflexivity|].
  apply Hall. eapply lookup_lt_Some; eauto.
Qed.

Lemma elem_of_rev_iff {A} (x : A) (l : list A) : x ∈ rev l <-> x ∈ l.
Proof. rewrite !list_elem_of_In. symmetry. apply in_rev. Qed.

(** Whether a member of the group fails decides between the two cases. *)
Lemma group_failure_cases (e : env) (calls : list call) :
  match finished_until_failure e calls
          (finish_order (finish_time e) (seq 0 (length calls))) with
  | (fin, None) =>
      fin = finish_order (finish_time e) (seq 0 (length calls)) /\
      group_outcomes e calls = map Ok (values_of (group_outcomes e calls))
  | (_, Some err) =>
      forall vs, group_outcomes e calls <> map Ok vs
  end.
Proof.
  destruct (finished_until_failure e calls _) as [fin [err|]] eqn:Hfin.
  - apply finished_failure in Hfin as (t & c & _ & Hc & Hout).
    intros vs Hvs. apply (f_equal (fun l => l !! t)) in Hvs.
    unfold group_outcomes in Hvs.
    rewrite list_lookup_imap, Hc, list_lookup_fmap in Hvs. simpl in Hvs.
    rewrite Hout in Hvs. destruct (vs !! t); discriminate.
  - apply finished_all in Hfin as [-> Hok];
      [| intros t Ht; now apply finish_order_elem in Ht].
    split; [reflexivity|].
    destruct (all_ok_values (fun i c => outcome e i c) calls) as [vs Hvs].
    { intros i c Hc. apply (Hok i c); [|exact Hc].
      apply finish_order_elem. eapply lookup_lt_Some; eauto. }
    unfold group_outcomes. rewrite Hvs, values_of_ok. reflexivity.
Qed.

(** A body that opens with a task group and, when the group returns,
    returns the list it got: what its caller sees is what the specification
    calls a fail-fast join. *)
Lemma observed_group (e : env) (calls : list call) (K : list value -> wf value)
    (st : exec_state) :
  slots st = [] ->
  (forall vs st', exists st'', exec e (K vs) st' = (st'', Ok (VList vs))
                               /\ slots st'' = slots st') ->
  observed (exec e (wf_bind (task_group calls) K) st) = fan_out_join FailFast e calls.
Proof.
  intros Hst HK. rewrite exec_task_group by exact Hst.
  unfold fan_out_join. pose proof (group_failure_cases e calls) as Hcases.
  destruct (finished_until_failure e calls _) as [fin [err|]].
  - unfold observed; cbn [fst snd with_slots slots observe_run].
    rewrite group_statuses_cancelled.
    f_equal. apply imap_ext; intros i r _.
    now rewrite (bool_decide_ext _ _ (elem_of_rev_iff i fin)).
  - destruct Hcases as [-> Hvs].
    destruct (HK (values_of (group_outcomes e calls))
                 (with_slots st (group_slots e calls
                    (rev (finish_order (finish_time e) (seq 0 (length calls)))) false)))
      as (st'' & -> & Hsl).
    unfold observed; cbn [fst snd observe_run]. rewrite Hsl; cbn [with_slots slots].
    rewrite <- Hvs. f_equal. apply group_statuses_all_done.
    intros i Hi. apply elem_of_rev_iff. now apply finish_order_elem.
Qed.

Lemma observed_group_failure (e : env) (calls : list call) (K : list value -> wf value)
    (st : exec_state) (sts : list status) (err : exn) :
  slots st = [] ->
  fan_out_join FailFast e calls = (sts, JoinFailed err) ->
  observed (exec e (wf_bind (task_group calls) K) st) = (sts, JoinFailed err).
Proof.
  intros Hst. rewrite exec_task_group by exact Hst. unfold fan_out_join.
  destruct (finished_until_failure e calls _) as [fin [err'|]]; [|discriminate].
  intros [= <- <-].
  unfold observed; cbn [fst snd with_slots slots observe_run].
  rewrite group_statuses_cancelled.
  f_equal. apply imap_ext; intros i r _.
  now rewrite (bool_decide_ext _ _ (elem_of_rev_iff i fin)).
Qed.

Lemma result_group (e : env) (calls : list call) (K : list value -> wf value)
    (st : exec_state) :
  slots st = [] ->
  (forall vs st', snd (exec e (K vs) st') = Ok (VList vs)) ->
  forall rs,
    snd (exec e (wf_bind (task_group calls) K) st) = Ok (VList rs)
    <-> group_outcomes e calls = map Ok rs.
Proof.
  intros Hst HK rs. rewrite exec_task_group by exact Hst.
  pose proof (group_failure_cases e calls) as Hcases.
  destruct (finished_until_failure e calls _) as [fin [err|]].
  - cbn [snd]. split; [discriminate|]. intros Hrs. now apply Hcases in Hrs.
  - destruct Hcases as [_ Hvs]. rewrite HK. split.
    + intros [= <-]. exact Hvs.
    + intros Hrs. rewrite Hrs, values_of_ok. reflexivity.
Qed.

(** ** C2 and C3: the fan-outs of the repository *)

Section FanOut.
Context `{Host}.

Lemma v2_run_all_tail (results : list value) (st : exec_state) (e : env) :
  exists st',
    exec e (seq! perform (OpPrint ("[Orchestrator] ✅ All " ++ py_str (py_len results)
                                   ++ " BLEEDING EDGE workflows completed!")) in
            Ret (VList results)) st
    = (st', Ok (VList results)) /\ slots st' = slots st.
Proof. eexists. split; reflexivity. Qed.

Lemma v2_run_all_observed (e : env) (topics : list string) :
  observed (exec e (V2Workflows.BleedingEdgeOrchestrator_run_all topics) exec_init)
  = fan_out_join FailFast e (map V2Workflows.child_call (enumerate 1 topics)).
Proof.
  unfold V2Workflows.BleedingEdgeOrchestrator_run_all.
  cbn [wf_bind perform exec].
  apply observed_group; [reflexivity|].
  intros vs st'. apply v2_run_all_tail.
Qed.

Lemma final_run_all_observed (e : env) (topics : list string) :
  observed (exec e (FinalWorkflows.BleedingEdgeOrchestrator_run_all topics) exec_init)
  = fan_out_join FailFast e (map FinalWorkflows.child_call (enumerate 1 topics)).
Proof.
  unfold FinalWorkflows.BleedingEdgeOrchestrator_run_all.
  cbn [wf_bind perform exec].
  apply observed_group; [reflexivity|].
  intros vs st'. eexists. split; reflexivity.
Qed.

Lemma deep_research_group (topic : string) (plan : ResearchPlan) :
  queries plan <> [] ->
  DeepResearch.DeepResearchWorkflow_run topic plan
  = let! all_results := task_group (map DeepResearch.search_call (queries plan)) in
    let! final_report := perform (OpAwait (DeepResearch.analysis_call topic all_results)) in
    Ret final_report.
Proof.
  intros Hq. unfold DeepResearch.DeepResearchWorkflow_run, DeepResearch.plan_queries.
  destruct (queries plan) eqn:Hqs; [contradiction|].
  cbn [wf_bind]. rewrite Hqs. reflexivity.
Qed.

Lemma group_slots_calls e calls fin cancelled :
  map slot_call (group_slots e calls fin cancelled) = calls.
Proof.
  unfold group_slots. apply list_eq; intros i.
  rewrite list_lookup_fmap, list_lookup_imap. now destruct (calls !! i).
Qed.

(** C2.  The list a join returns follows the order of the child
    specifications, whatever the order in which the children finish.
    [BleedingEdgeOrchestrator.run_all] returns a list exactly when every
    child workflow ends well, and the list then holds the children's results
    in the order of [topics]; [DeepResearchWorkflow.run], given queries that
    all succeed, hands [analysis_activity] the search results in the order of
    the queries; and three children that finish after 5, 1 and 3 seconds
    (so in the order 1, 2, 0) are returned as child 0, child 1, child 2,
    which is also what a join that collects all would return. *)
Theorem join_results_follow_input_order (e : env) :
  (forall topics rs,
     snd (exec e (V2Workflows.BleedingEdgeOrchestrator_run_all topics) exec_init)
     = Ok (VList rs)
     <-> group_outcomes e (map V2Workflows.child_call (enumerate 1 topics)) = map Ok rs) /\
  (forall topic plan rs,
     queries plan <> [] ->
     group_outcomes e (map DeepResearch.search_call (queries plan)) = map Ok rs ->
     map slot_call
       (slots (fst (exec e (DeepResearch.DeepResearchWorkflow_run topic plan) exec_init)))
     = (map DeepResearch.search_call (queries plan)
        ++ [DeepResearch.analysis_call topic rs])%list) /\
  (forall a b c r0 r1 r2,
     finish_time e 0 = 5 -> finish_time e 1 = 1 -> finish_time e 2 = 3 ->
     outcome e 0 (V2Workflows.child_call (1%Z, a)) = Ok r0 ->
     outcome e 1 (V2Workflows.child_call (2%Z, b)) = Ok r1 ->
     outcome e 2 (V2Workflows.child_call (3%Z, c)) = Ok r2 ->
     finish_order (finish_time e) [0; 1; 2] = [1; 2; 0] /\
     snd (exec e (V2Workflows.BleedingEdgeOrchestrator_run_all [a; b; c]) exec_init)
     = Ok (VList [r0; r1; r2]) /\
     snd (fan_out_join CollectAll e
            (map V2Workflows.child_call (enumerate 1 [a; b; c])))
     = Joined [Ok r0; Ok r1; Ok r2]).
Proof.
  assert (Hrun : forall topics rs,
     snd (exec e (V2Workflows.BleedingEdgeOrchestrator_run_all topics) exec_init)
     = Ok (VList rs)
     <-> group_outcomes e (map V2Workflows.child_call (enumerate 1 topics)) = map Ok rs).
  { intros topics rs. unfold V2Workflows.BleedingEdgeOrchestrator_run_all.
    cbn [wf_bind perform exec].
    apply result_group; [reflexivity|]. intros vs st'. reflexivity. }
  split; [exact Hrun|]. split.
  - intros topic plan rs Hq Hrs. rewrite (deep_research_group topic plan Hq).
    rewrite exec_task_group by reflexivity.
    pose proof (group_failure_cases e (map DeepResearch.search_call (queries plan)))
      as Hcases.
    destruct (finished_until_failure e _ _) as [fin [err|]].
    + now apply Hcases in Hrs.
    + rewrite Hrs, values_of_ok. cbn [wf_bind perform exec with_slots slots].
      destruct (outcome e _ _); cbn [fst slots with_slots];
        rewrite map_app, group_slots_calls; reflexivity.
  - intros a b c r0 r1 r2 H0 H1 H2 Hr0 Hr1 Hr2.
    assert (Hout : group_outcomes e
                     (map V2Workflows.child_call (enumerate 1 [a; b; c]))
                   = map Ok [r0; r1; r2]).
    { change (group_outcomes e (map V2Workflows.child_call (enumerate 1 [a; b; c])))
        with [outcome e 0 (V2Workflows.child_call (1%Z, a));
              outcome e 1 (V2Workflows.child_call (2%Z, b));
              outcome e 2 (V2Workflows.child_call (3%Z, c))].
      rewrite Hr0, Hr1, Hr2. reflexivity. }
    split; [|split].
    + unfold finish_order; cbn [fold_right insert_by].
      rewrite H1, H2; cbn [insert_by Nat.leb]. rewrite H0, H1; cbn [Nat.leb].
      rewrite H2. reflexivity.
    + apply Hrun. exact Hout.
    + unfold fan_out_join; cbn [snd]. rewrite Hout. reflexivity.
Qed.

(** C3, as the code has it.  No fan-out of the repository takes a failure
    policy: each is a task group, and what its caller sees is the fail-fast
    join of the specification.  For [BleedingEdgeOrchestrator.run_all] in
    both versions the children's statuses and the caller's answer are those
    of a fail-fast join over the child workflows of [topics]; for
    [DeepResearchWorkflow.run] with queries, a failing search makes the run
    fail as the fail-fast join of the searches does, the searches still
    pending cancelled. *)
Theorem task_group_join_is_fail_fast (e : env) :
  (forall topics,
     observed (exec e (V2Workflows.BleedingEdgeOrchestrator_run_all topics) exec_init)
     = fan_out_join FailFast e (map V2Workflows.child_call (enumerate 1 topics))) /\
  (forall topics,
     observed (exec e (FinalWorkflows.BleedingEdgeOrchestrator_run_all topics) exec_init)
     = fan_out_join FailFast e (map FinalWorkflows.child_call (enumerate 1 topics))) /\
  (forall topic plan sts err,
     queries plan <> [] ->
     fan_out_join FailFast e (map DeepResearch.search_call (queries plan))
     = (sts, JoinFailed err) ->
     observed (exec e (DeepResearch.DeepResearchWorkflow_run topic plan) exec_init)
     = (sts, JoinFailed err)).
Proof.
  split; [exact (v2_run_all_observed e)|]. split; [exact (final_run_all_observed e)|].
  intros topic plan sts err Hq Hjoin. rewrite (deep_research_group topic plan Hq).
  now apply observed_group_failure.
Qed.

End FanOut.

Lemma join_results_follow_input_order_witness :
  finish_order (finish_time punctual_env) [0; 1; 2] = [1; 2; 0] /\
  snd (exec punctual_env
         (@V2Workflows.BleedingEdgeOrchestrator_run_all (sample_host mixed_response)
            three_topics) exec_init)
  = Ok (VList [child_report 0; child_report 1; child_report 2]).
Proof.
  destruct (proj2 (proj2 (@join_results_follow_input_order
                            (sample_host mixed_response) punctual_env))
              "durability" "replay" "fan-out" _ _ _
              eq_refl eq_refl eq_refl eq_refl eq_refl eq_refl) as (Ho & Hr & _).
  split; [exact Ho | exact Hr].
Defined.

(** C3, as stated, fails: [run_all] takes the topics and nothing else, and
    when the second of three children fails its join raises, the two
    siblings cancelled; a join that collects all would let them end and
    return a result or error per child. *)
Lemma run_all_join_is_not_collect_all :
  observed (exec struck_env
              (@V2Workflows.BleedingEdgeOrchestrator_run_all (sample_host mixed_response)
                 three_topics) exec_init)
  = ([Cancelled; Done (Raise (ExternalError "child failed")); Cancelled],
     JoinFailed (ExternalError "child failed")) /\
  fan_out_join CollectAll struck_env
    (map (@V2Workflows.child_call (sample_host mixed_response)) (enumerate 1 three_topics))
  = ([Done (Ok (child_report 0)); Done (Raise (ExternalError "child failed"));
      Done (Ok (child_report 2))],
     Joined [Ok (child_report 0); Raise (ExternalError "child failed");
             Ok (child_report 2)]) /\
  observed (exec struck_env
              (@V2Workflows.BleedingEdgeOrchestrator_run_all (sample_host mixed_response)
                 three_topics) exec_init)
  <> fan_out_join CollectAll struck_env
       (map (@V2Workflows.child_call (sample_host mixed_response))
          (enumerate 1 three_topics)).
Proof.
  split; [vm_compute; reflexivity|]. split; [vm_compute; reflexivity|].
  vm_compute. discriminate.
Qed.

Lemma task_group_join_is_fail_fast_witness :
  observed (exec struck_env
              (DeepResearch.DeepResearchWorkflow_run "workflows" three_queries)
              exec_init)
  = ([Cancelled; Done (Raise (ExternalError "child failed")); Cancelled],
     JoinFailed (ExternalError "child failed")).
Proof.
  apply (proj2 (proj2 (@task_group_join_is_fail_fast (sample_host mixed_response)
                         struck_env))).
  - discriminate.
  - vm_compute. reflexivity.
Defined.

(** ** C1: what the workflow bodies perform *)

Lemma all_ops_bind (ok : forall X, op X -> bool) {A B} (p : wf A) (k : A -> wf B) :
  all_ops ok p -> (forall a, all_ops ok (k a)) -> all_ops ok (wf_bind p k).
Proof.
  intros Hp Hk. induction Hp as [r | X o h Ho _ IH]; simpl.
  - apply Hk.
  - constructor; [exact Ho | exact IH].
Qed.

Lemma all_ops_perform (ok : forall X, op X -> bool) {X} (o : op X) :
  ok X o = true -> all_ops ok (perform o).
Proof. intros Ho. constructor; [exact Ho | intros x; constructor]. Qed.

Lemma all_ops_weaken (ok ok' : forall X, op X -> bool) {R} (p : wf R) :
  (forall X o, ok X o = true -> ok' X o = true) -> all_ops ok p -> all_ops ok' p.
Proof. intros Hw Hp. induction Hp; constructor; auto. Qed.

Lemma task_group_engine_only (calls : list call) : engine_only (task_group calls).
Proof.
  unfold engine_only, task_group. apply all_ops_bind.
  - induction calls as [|c calls IH]; simpl; [constructor|].
    constructor; [reflexivity|]. intros t. apply all_ops_bind; [exact IH|].
    intros ts. constructor.
  - intros tasks. constructor; [reflexivity|]. intros _. simpl.
    induction tasks as [|t tasks IH]; simpl; [constructor|].
    constructor; [reflexivity|]. intros v. apply all_ops_bind; [exact IH|].
    intros vs. constructor.
Qed.

Lemma task_group_of_activities (calls : list call) :
  forallb is_activity calls = true ->
  all_ops (@activity_primitive) (task_group calls).
Proof.
  intros Hacts. unfold task_group. apply all_ops_bind.
  - induction calls as [|c calls IH]; simpl; [constructor|].
    simpl in Hacts. apply andb_prop in Hacts as [Hc Hacts].
    constructor; [exact Hc|]. intros t. apply all_ops_bind; [now apply IH|].
    intros ts. constructor.
  - intros tasks. constructor; [reflexivity|]. intros _. simpl.
    induction tasks as [|t tasks IH]; simpl; [constructor|].
    constructor; [reflexivity|]. intros v. apply all_ops_bind; [exact IH|].
    intros vs. constructor.
Qed.

Lemma engine_only_or_print {R} (p : wf R) : engine_only p -> engine_or_print p.
Proof.
  apply all_ops_weaken. intros X o Ho. now rewrite Ho.
Qed.

Ltac body_ops :=
  repeat first
    [ apply all_ops_ret
    | solve [ apply task_group_engine_only ]
    | solve [ apply (engine_only_or_print (task_group _)), task_group_engine_only ]
    | apply all_ops_vis; [reflexivity | intros ?]
    | apply all_ops_bind; [ | intros ?] ].

Lemma complete_in_order_ext (e e' : env) ts order sl failed :
  (forall t c, outcome e t c = outcome e' t c) ->
  complete_in_order e ts order sl failed = complete_in_order e' ts order sl failed.
Proof.
  intros Hout. revert sl failed; induction order as [|t rest IH]; intros sl failed;
    simpl; [reflexivity|].
  destruct (sl !! t) as [[c []]|]; try apply IH.
  rewrite Hout. destruct (outcome e' t c); apply IH.
Qed.

Lemma finish_order_ext (key key' : nat -> nat) ts :
  (forall t, key t = key' t) -> finish_order key ts = finish_order key' ts.
Proof.
  intros Hkey. induction ts as [|t ts IH]; simpl; [reflexivity|].
  rewrite IH. generalize (finish_order key' ts) as l.
  induction l as [|u l IHl]; simpl; [reflexivity|].
  now rewrite !Hkey, IHl.
Qed.

(** A body that performs engine primitives and prints only is a function of
    its input and of how the engine calls end: no agent answer reaches it. *)
Lemma exec_engine_or_print {R} (p : wf R) (e e' : env) (st : exec_state) :
  engine_or_print p ->
  (forall t c, outcome e t c = outcome e' t c) ->
  (forall t, finish_time e t = finish_time e' t) ->
  exec e p st = exec e' p st.
Proof.
  intros Hp Hout Hfin. revert st.
  induction Hp as [r | X o k Ho _ IH]; intros st; [reflexivity|].
  destruct o; simpl in *; try discriminate.
  - apply IH.
  - rewrite Hout. destruct (outcome e' _ c); [apply IH | reflexivity].
  - apply IH.
  - unfold join. rewrite (finish_order_ext _ _ ts Hfin).
    rewrite (complete_in_order_ext e e') by exact Hout.
    destruct (complete_in_order e' ts _ (slots st) []) as [sl [|err failed]];
      [apply IH | reflexivity].
  - destruct (task_result (slots st) t); [apply IH | reflexivity].
Qed.

Section Bodies.
Context `{Host}.

(** C1, as the code has it.  The bodies of [ResearchWorkflow.run], of
    [BleedingEdgeResearchWorkflow.run] and of
    [BleedingEdgeOrchestrator.run_all], the latter two in both files that
    define them, perform engine primitives and, for logging, prints, and
    nothing else; [DeepResearchWorkflow.run] given a plan with queries
    performs engine primitives only, all of them [workflow.execute_activity]
    calls; and a body that performs engine primitives and prints only is a
    function of its input and of how its engine calls end.  The one body
    left out is [DeepResearchWorkflow.run] given a plan without queries. *)
Theorem workflow_bodies_use_engine_primitives :
  (forall topic, engine_or_print (Simple.ResearchWorkflow_run topic)) /\
  (forall topic, engine_or_print (V2Workflows.BleedingEdgeResearchWorkflow_run topic)) /\
  (forall topics, engine_or_print (V2Workflows.BleedingEdgeOrchestrator_run_all topics)) /\
  (forall topic, engine_or_print (FinalWorkflows.BleedingEdgeResearchWorkflow_run topic)) /\
  (forall topics, engine_or_print (FinalWorkflows.BleedingEdgeOrchestrator_run_all topics)) /\
  (forall topic plan,
     queries plan <> [] ->
     engine_only (DeepResearch.DeepResearchWorkflow_run topic plan) /\
     all_ops (@activity_primitive) (DeepResearch.DeepResearchWorkflow_run topic plan)) /\
  (forall (p : wf value) e e' st,
     engine_or_print p ->
     (forall t c, outcome e t c = outcome e' t c) ->
     (forall t, finish_time e t = finish_time e' t) ->
     exec e p st = exec e' p st).
Proof.
  split; [intros topic; unfold Simple.ResearchWorkflow_run, engine_or_print; body_ops|].
  split; [intros topic;
          unfold V2Workflows.BleedingEdgeResearchWorkflow_run, engine_or_print; body_ops|].
  split; [intros topics;
          unfold V2Workflows.BleedingEdgeOrchestrator_run_all, engine_or_print; body_ops|].
  split; [intros topic;
          unfold FinalWorkflows.BleedingEdgeResearchWorkflow_run, engine_or_print;
          body_ops|].
  split; [intros topics;
          unfold FinalWorkflows.BleedingEdgeOrchestrator_run_all, engine_or_print;
          body_ops|].
  split.
  - intros topic plan Hq. rewrite (deep_research_group topic plan Hq). split.
    + unfold engine_only. body_ops.
    + apply all_ops_bind.
      * apply task_group_of_activities.
        generalize (queries plan) as qs. induction qs as [|q qs IH]; simpl; auto.
      * intros all_results. body_ops.
  - intros p e e' st. apply exec_engine_or_print.
Qed.

End Bodies.

Lemma all_ops_first (ok : forall X, op X -> bool) {R} (p : wf R) :
  all_ops ok p ->
  match p with
  | Ret _ => True
  | Vis o _ => ok _ o = true
  end.
Proof. intros Hp. destruct Hp; [exact I | assumption]. Qed.

Lemma workflow_bodies_use_engine_primitives_witness :
  engine_only (DeepResearch.DeepResearchWorkflow_run "workflows" three_queries).
Proof.
  apply (proj1 (proj2 (proj2 (proj2 (proj2 (proj2
           (@workflow_bodies_use_engine_primitives (sample_host mixed_response)))))))
           "workflows" three_queries).
  discriminate.
Defined.

(** C1, as stated, fails.  Given a plan without queries,
    [DeepResearchWorkflow.run] first runs a planning agent itself, with no
    engine primitive in between, and what the run returns then depends on
    the agent's answer; and [BleedingEdgeResearchWorkflow.run] opens with a
    print. *)
Lemma deep_research_runs_an_agent_itself :
  first_op_is (@is_agent_run)
    (DeepResearch.DeepResearchWorkflow_run "workflows" no_queries) = true /\
  ~ engine_or_print (DeepResearch.DeepResearchWorkflow_run "workflows" no_queries) /\
  agent_runs (fst (exec punctual_env
                     (DeepResearch.DeepResearchWorkflow_run "workflows" no_queries)
                     exec_init))
  = [("minimax-m3", DeepResearch.planning_system_prompt,
      "Create a research plan for: workflows")] /\
  slots (fst (exec punctual_env
                (DeepResearch.DeepResearchWorkflow_run "workflows" no_queries)
                exec_init)) = [] /\
  snd (exec punctual_env
         (DeepResearch.DeepResearchWorkflow_run "workflows" no_queries) exec_init)
  <> snd (exec planning_env
            (DeepResearch.DeepResearchWorkflow_run "workflows" no_queries) exec_init) /\
  ~ engine_only (V2Workflows.BleedingEdgeResearchWorkflow_run "workflows").
Proof.
  split; [reflexivity|]. split.
  { intros Hp. apply all_ops_first in Hp. discriminate Hp. }
  split; [reflexivity|]. split; [reflexivity|]. split.
  { vm_compute. discriminate. }
  intros Hp. apply all_ops_first in Hp. discriminate Hp.
Qed.

(** ** C7: which names a worker resolves *)

Lemma Worker_registers (q : string) (workflows activities : list (string * string))
    (name defn : string) :
  NoDup (map fst workflows) ->
  (name, defn) ∈ workflows ->
  worker_workflows (Worker q workflows activities) !! name = Some defn.
Proof. intros Hnd Hin. unfold Worker; simpl. now apply elem_of_list_to_map_1. Qed.

Lemma resolve_unregistered (w : worker) (r : start_request) :
  worker_workflows w !! start_type r = None -> resolve_workflow w r = None.
Proof.
  intros Hr. unfold resolve_workflow. rewrite Hr. now destruct (String.eqb _ _).
Qed.

Section Registry.
Context `{Host}.

(** C7, as the code has it.  A worker builds, when it starts, an explicit
    table from the names of the classes and functions it is given to their
    definitions; starting it checks no name a client or workflow will send,
    and a name that is not in the table is found missing only when a task
    of that type reaches the worker.  The workflow types [ResearchWorkflow]
    (started by the demo client) and [BleedingEdgeResearchWorkflow] (started
    as a child by both orchestrators), and every activity a workflow body
    calls, are registered by a worker of the [research-tasks] queue. *)
Theorem registered_names_resolve :
  (forall q workflows activities name defn,
     NoDup (map fst workflows) ->
     (name, defn) ∈ workflows ->
     resolve_workflow (Worker q workflows activities)
       {| start_type := name; start_queue := q |} = Some defn) /\
  (forall w r, worker_workflows w !! start_type r = None -> resolve_workflow w r = None) /\
  resolve_workflow simple_worker simple_demo_start = Some "workflows" /\
  (forall it,
     (child_request (V2Workflows.child_call it)
        ≫= resolve_workflow bleeding_edge_worker)
     = Some "temporal_research_workflows_v2") /\
  (forall it,
     (child_request (FinalWorkflows.child_call it)
        ≫= resolve_workflow run_bleeding_worker)
     = Some "bleeding_edge_research_final") /\
  (forall topic research_data,
     resolve_activity simple_worker (call_type (Simple.research_call topic))
     = Some "workflows" /\
     resolve_activity bleeding_edge_worker (call_type (V2Workflows.research_call topic))
     = Some "temporal_research_workflows_v2" /\
     resolve_activity bleeding_edge_worker (call_type (V2Workflows.report_call research_data))
     = Some "temporal_research_workflows_v2" /\
     resolve_activity run_bleeding_worker (call_type (FinalWorkflows.research_call topic))
     = Some "bleeding_edge_research_final" /\
     resolve_activity run_bleeding_worker
       (call_type (FinalWorkflows.report_call research_data))
     = Some "bleeding_edge_research_final") /\
  (forall q topic all_results,
     resolve_activity temporal_worker (call_type (DeepResearch.search_call q))
     = Some "pydantic_ai_examples.deep_research_agent" /\
     resolve_activity temporal_worker
       (call_type (DeepResearch.analysis_call topic all_results))
     = Some "pydantic_ai_examples.deep_research_agent").
Proof.
  split.
  { intros q workflows activities name defn Hnd Hin. unfold resolve_workflow.
    cbn [worker_queue start_queue start_type]. rewrite String.eqb_refl.
    now apply Worker_registers. }
  split; [exact resolve_unregistered|].
  split; [vm_compute; reflexivity|].
  split; [intros it; vm_compute; reflexivity|].
  split; [intros it; vm_compute; reflexivity|].
  split; [intros topic research_data; repeat split; vm_compute; reflexivity|].
  intros q topic all_results; split; vm_compute; reflexivity.
Qed.

End Registry.

Lemma registered_names_resolve_witness :
  resolve_workflow bleeding_edge_worker
    {| start_type := "BleedingEdgeOrchestrator"; start_queue := "research-tasks" |}
  = Some "temporal_research_workflows_v2".
Proof.
  apply (proj1 (@registered_names_resolve (sample_host mixed_response))
           "research-tasks" _ _ "BleedingEdgeOrchestrator").
  - apply (bool_decide_unpack _). vm_compute. exact I.
  - apply list_elem_of_further, list_elem_of_here.
Defined.

(** C7, as stated, fails.  The clients start the orchestrator under the name
    [BleedingEdgeOrchestrator.run_all]; the workers of the [research-tasks]
    queue all start, and none has that name in its table, where the class is
    registered as [BleedingEdgeOrchestrator].  The deep-research client
    sends its start to a queue no worker of the repository polls. *)
Lemma orchestrator_start_is_not_registered :
  Forall (fun w => resolve_workflow w orchestrator_start = None) repo_workers /\
  served orchestrator_start = false /\
  worker_workflows bleeding_edge_worker !! "BleedingEdgeOrchestrator"
  = Some "temporal_research_workflows_v2" /\
  served deep_research_start = false /\
  served simple_demo_start = true.
Proof.
  split; [repeat constructor; vm_compute; reflexivity|].
  repeat split; vm_compute; reflexivity.
Qed.

(** ** The engine: general facts *)

Module EngineFacts.
Import Engine.

Lemma same_run_refl s : same_run s s.
Proof. repeat split. Qed.

Lemma same_run_sym s s' : same_run s s' -> same_run s' s.
Proof. intros (? & ? & ? & ?). repeat split; congruence. Qed.

Lemma same_run_trans s s' s'' : same_run s s' -> same_run s' s'' -> same_run s s''.
Proof. intros (? & ? & ? & ?) (? & ? & ? & ?). repeat split; congruence. Qed.

(** The decisions of a replay of a body that makes no agent run do not
    depend on the agent, on what was printed or on the count of agent
    runs. *)
Lemma replay_decisions_ext (p : wf value) :
  engine_or_print p ->
  forall a a' h next ls ls' runs runs',
    decisions (replay a h p next ls runs) = decisions (replay a' h p next ls' runs').
Proof.
  induction 1 as [r | X o k Ho _ IH]; intros a a' h next ls ls' runs runs';
    [reflexivity|].
  destruct o; simpl in *; try discriminate.
  - apply IH.
  - destruct (scheduled_in h next) as [c'|]; [|reflexivity].
    destruct (same_type c c'); [|reflexivity].
    destruct (outcome_in h next) as [[v|err]|]; try reflexivity. apply IH.
  - destruct (scheduled_in h next) as [c'|].
    + destruct (same_type c c'); [apply IH | reflexivity].
    + simpl. f_equal. apply IH.
  - destruct (first_failure h ts); [reflexivity|].
    destruct (forallb _ ts); [apply IH | reflexivity].
  - destruct (outcome_in h t) as [[v|err]|]; try reflexivity. apply IH.
Qed.

Lemma decision_cycle_same (w : world) (p : wf value) (s s' : state) :
  engine_or_print p -> same_run s s' ->
  same_run (decision_cycle w p s) (decision_cycle w p s').
Proof.
  intros Hp (Hh & Hq & Hw & Hi). unfold decision_cycle.
  rewrite <- Hh, <- Hq, <- Hi.
  rewrite (replay_decisions_ext p Hp (agent w) (agent w) (history s) 0 [] []
             (agent_count s) (agent_count s')).
  destruct (existsb is_nondeterminism _).
  - repeat split; reflexivity.
  - unfold append. rewrite Nat.eqb_refl. repeat split; reflexivity.
Qed.

Lemma report_same (w : world) t r (s s' : state) :
  same_run s s' -> same_run (report w t r s) (report w t r s').
Proof.
  intros (Hh & Hq & Hw & Hi). unfold report, close_task. rewrite Hh, Hq, Hw.
  destruct r as [v|err]; [repeat split|].
  destruct (on_failure _ _ _); repeat split.
Qed.

Lemma advance_same (w : world) (p : wf value) (s s' : state) :
  engine_or_print p -> same_run s s' ->
  same_run (advance w p s) (advance w p s').
Proof.
  intros Hp Hs. pose proof Hs as (Hh & Hq & Hw & Hi). unfold advance.
  rewrite <- Hh, <- Hw, <- Hi, <- Hq.
  destruct (terminal (history s)); [exact Hs|].
  destruct (wake s) eqn:Hws; [now apply decision_cycle_same|].
  destruct (inflight s) as [[t r]|] eqn:His; [now apply report_same|].
  destruct (pick (rank w) (queue s)); [|exact Hs].
  unfold start_task. repeat split; simpl; congruence.
Qed.

Lemma crash_same (s s' : state) : same_run s s' -> same_run (crash s) (crash s').
Proof. intros (Hh & Hq & Hw & Hi). unfold crash. rewrite Hh, Hq, Hw. repeat split. Qed.

Lemma step_same (w : world) (p : wf value) (t : tick) (s s' : state) :
  engine_or_print p -> same_run s s' ->
  same_run (step w p s t) (step w p s' t).
Proof.
  intros Hp Hs. destruct t; simpl; [now apply advance_same | now apply crash_same | exact Hs].
Qed.

Lemma run_same (w : world) (p : wf value) (ts : list tick) (s s' : state) :
  engine_or_print p -> same_run s s' ->
  same_run (run w p ts s) (run w p ts s').
Proof.
  intros Hp. revert s s'; induction ts as [|t ts IH]; intros s s' Hs; [exact Hs|].
  simpl. apply IH. now apply step_same.
Qed.

Lemma run_app (w : world) (p : wf value) (ts ts' : list tick) (s : state) :
  run w p (ts ++ ts') s = run w p ts' (run w p ts s).
Proof. unfold run. apply fold_left_app. Qed.

(** *** Histories *)







(** *** Results stay *)

Lemma advance_terminal (w : world) (p : wf value) (s : state) (r : result value) :
  get_result s = Some r -> advance w p s = s.
Proof. unfold get_result, advance. intros ->. reflexivity. Qed.

Lemma step_result_stays (w : world) (p : wf value) (s : state) (t : tick)
    (r : result value) :
  get_result s = Some r -> get_result (step w p s t) = Some r.
Proof.
  intros Hr. destruct t; simpl; [|exact Hr|exact Hr].
  now rewrite (advance_terminal w p s r Hr).
Qed.

Lemma run_result_stays (w : world) (p : wf value) (ts : list tick) (s : state)
    (r : result value) :
  get_result s = Some r -> get_result (run w p ts s) = Some r.
Proof.
  revert s; induction ts as [|t ts IH]; intros s Hr; [exact Hr|].
  simpl. apply IH. now apply step_result_stays.
Qed.


Lemma run_snoc (w : world) (p : wf value) (ts : list tick) (t : tick) (s : state) :
  run w p (ts ++ [t]) s = step w p (run w p ts s) t.
Proof. now rewrite run_app. Qed.

(** ** C8: a query leaves the run alone *)


(** ** C6: what [get_result] returns *)




(** ** C5: recovery after a crash *)

Lemma find_event_app {A} (f : event_kind -> option A) (h h' : list event) :
  find_event f (h ++ h') = match find_event f h with
                           | Some a => Some a
                           | None => find_event f h'
                           end.
Proof.
  induction h as [|ev h IH]; simpl; [reflexivity|].
  destruct (f (kind ev)); [reflexivity | exact IH].
Qed.

Lemma find_event_none {A} (f : event_kind -> option A) (n : nat) (ks : list event_kind) :
  (forall k, k ∈ ks -> f k = None) -> find_event f (number_from n ks) = None.
Proof.
  revert n; induction ks as [|k ks IH]; intros n Hks; simpl; [reflexivity|].
  rewrite (Hks k) by apply list_elem_of_here.
  apply IH. intros k' Hk'. apply Hks. now apply list_elem_of_further.
Qed.

Lemma find_event_some {A} (f : event_kind -> option A) (n : nat) (ks : list event_kind)
    (k : event_kind) :
  k ∈ ks -> is_Some (f k) -> is_Some (find_event f (number_from n ks)).
Proof.
  revert n; induction ks as [|k' ks IH]; intros n Hin Hk; [inversion Hin|].
  simpl. destruct (f k') as [a|] eqn:Hk'; [eauto|].
  apply elem_of_cons in Hin as [->|Hin]; [rewrite Hk' in Hk; now destruct Hk|].
  now apply IH.
Qed.

Lemma decision_event_not_closing (id : task) (d : decision) (k : event_kind) :
  decision_event d = Some k -> closed_by id k = None.
Proof.
  destruct d as [i [] | i | v | err |]; simpl; intros [= <-]; reflexivity.
Qed.

(** A replay schedules a call only under an id history has not scheduled. *)
Lemma replay_schedules_fresh (a : nat -> result ResearchPlan) (h : list event)
    (p : wf value) :
  forall next ls runs id c,
    ScheduleCall id c ∈ decisions (replay a h p next ls runs) ->
    scheduled_in h id = None.
Proof.
  induction p as [v | X o k IH]; intros next ls runs id c; simpl.
  - intros Hin. apply list_elem_of_singleton in Hin. discriminate.
  - destruct o; simpl.
    + apply IH.
    + destruct (scheduled_in h next) as [c'|] eqn:Hs.
      * destruct (same_type c0 c');
          [|intros Hin; apply list_elem_of_singleton in Hin; discriminate].
        destruct (outcome_in h next) as [[v|err]|]; simpl.
        -- apply IH.
        -- intros Hin; apply list_elem_of_singleton in Hin; discriminate.
        -- intros Hin; inversion Hin.
      * intros Hin. apply list_elem_of_singleton in Hin. now injection Hin as -> ->.
    + destruct (scheduled_in h next) as [c'|] eqn:Hs.
      * destruct (same_type c0 c'); [apply IH|].
        intros Hin; apply list_elem_of_singleton in Hin; discriminate.
      * simpl. intros Hin. apply elem_of_cons in Hin as [Heq|Hin].
        -- now injection Heq as -> ->.
        -- now apply IH in Hin.
    + destruct (first_failure h ts).
      * simpl. intros Hin. apply elem_of_app in Hin as [Hin|Hin].
        -- apply list_elem_of_fmap in Hin as (t & Ht & _). discriminate.
        -- apply list_elem_of_singleton in Hin. discriminate.
      * destruct (forallb _ ts); [apply IH|]. intros Hin; inversion Hin.
    + destruct (outcome_in h t) as [[v|err]|]; simpl.
      * apply IH.
      * intros Hin; apply list_elem_of_singleton in Hin; discriminate.
      * intros Hin; apply list_elem_of_singleton in Hin; discriminate.
    + destruct (a runs) as [plan|err]; simpl; [apply IH|].
      intros Hin; apply list_elem_of_singleton in Hin; discriminate.
Qed.

Lemma pick_in (rk : nat -> nat) (q : list activity_task) (t : activity_task) :
  pick rk q = Some t -> t ∈ q.
Proof.
  revert t; induction q as [|u q IH]; intros t; simpl; [discriminate|].
  destruct (pick rk q) as [v|].
  - destruct (rk (activityId v) <? rk (activityId u))%nat; intros [= <-].
    + apply list_elem_of_further. now apply IH.
    + apply list_elem_of_here.
  - intros [= <-]. apply list_elem_of_here.
Qed.

Lemma remove_task_in (id : task) (q : list activity_task) (t : activity_task) :
  t ∈ remove_task id q <-> t ∈ q /\ activityId t <> id.
Proof.
  unfold remove_task. rewrite !list_elem_of_In, filter_In, negb_true_iff, Nat.eqb_neq.
  reflexivity.
Qed.

Lemma queue_after_decisions (ds : list decision) (q : list activity_task)
    (t : activity_task) :
  t ∈ fold_left apply_to_queue ds q ->
  t ∈ q \/ exists c, ScheduleCall (activityId t) c ∈ ds.
Proof.
  revert q; induction ds as [|d ds IH]; intros q; simpl; [auto|].
  intros Hin. apply IH in Hin as [Hin|(c & Hc)].
  - destruct d as [id c | id | v | err |]; simpl in Hin; auto.
    + apply elem_of_app in Hin as [Hin|Hin]; [auto|].
      apply list_elem_of_singleton in Hin; subst t. right. exists c. apply list_elem_of_here.
    + apply remove_task_in in Hin as [Hin _]. auto.
  - right. exists c. now apply list_elem_of_further.
Qed.

Lemma outcome_after_decisions (h : list event) (n : nat) (ds : list decision) (id : task) :
  outcome_in (h ++ number_from n (omap decision_event ds)) id = outcome_in h id.
Proof.
  unfold outcome_in. rewrite find_event_app.
  destruct (find_event (closed_by id) h); [reflexivity|].
  apply find_event_none. intros k Hk.
  apply list_elem_of_omap in Hk as (d & _ & Hd).
  exact (decision_event_not_closing id d k Hd).
Qed.

Lemma scheduled_grows (h h' : list event) (id : task) :
  is_Some (scheduled_in h id) -> is_Some (scheduled_in (h ++ h') id).
Proof.
  unfold scheduled_in. rewrite find_event_app.
  destruct (find_event (scheduled_by id) h); [auto | intros [c Hc]; discriminate].
Qed.

Lemma scheduled_by_decision (n : nat) (ds : list decision) (id : task) (c : call) :
  ScheduleCall id c ∈ ds ->
  is_Some (scheduled_in (number_from n (omap decision_event ds)) id).
Proof.
  intros Hin. unfold scheduled_in.
  destruct c as [name args tmo pol | name arg wid q tmo].
  - apply (find_event_some _ n _ (ActivityScheduled id (ExecuteActivity name args tmo pol))).
    + apply list_elem_of_omap. eexists. split; [exact Hin | reflexivity].
    + simpl. rewrite Nat.eqb_refl. eauto.
  - apply (find_event_some _ n _
             (ChildWorkflowStarted id (ExecuteChildWorkflow name arg wid q tmo))).
    + apply list_elem_of_omap. eexists. split; [exact Hin | reflexivity].
    + simpl. rewrite Nat.eqb_refl. eauto.
Qed.

Lemma sound_start (w : world) (input : value) : sound w (start_workflow input).
Proof.
  split; simpl.
  - intros t Ht. inversion Ht.
  - intros id [r Hr]. discriminate.
  - discriminate.
Qed.

Lemma sound_decision_cycle (w : world) (p : wf value) (s : state) :
  sound w s -> wake s = true -> sound w (decision_cycle w p s).
Proof.
  intros [Hq Hc Hi] Hw.
  assert (Hnone : inflight s = None).
  { destruct (inflight s) as [[t r]|] eqn:Hin; [|reflexivity].
    destruct (Hi t r eq_refl) as [Hw' _]. congruence. }
  unfold decision_cycle.
  set (ds := decisions (replay (agent w) (history s) p 0 [] (agent_count s))).
  assert (Hfresh : forall id c, ScheduleCall id c ∈ ds -> scheduled_in (history s) id = None)
    by (intros id c; apply replay_schedules_fresh).
  destruct (existsb is_nondeterminism ds).
  - split; simpl; [exact Hq | exact Hc | rewrite Hnone; discriminate].
  - unfold append. rewrite Nat.eqb_refl. split; simpl.
    + intros t Ht. unfold open_task. rewrite outcome_after_decisions.
      apply queue_after_decisions in Ht as [Ht|(c & Hdc)].
      * destruct (Hq t Ht) as [Ho Hs]. split; [exact Ho | now apply scheduled_grows].
      * split.
        -- destruct (outcome_in (history s) (activityId t)) as [r|] eqn:Ho; [|reflexivity].
           destruct (Hc (activityId t)) as [c' Hc']; [eauto|].
           rewrite (Hfresh _ _ Hdc) in Hc'. discriminate.
        -- unfold scheduled_in. rewrite find_event_app.
           destruct (find_event _ (history s)); [eauto|].
           exact (scheduled_by_decision _ _ _ _ Hdc).
    + intros id. rewrite outcome_after_decisions. intros Ho.
      now apply scheduled_grows, Hc.
    + rewrite Hnone. discriminate.
Qed.

Lemma closing_event_closes (t : activity_task) (r : result value) (id : task) :
  closed_by id (closing_event t r)
  = if (activityId t =? id)%nat then Some r else None.
Proof. unfold closing_event. destruct (task_call t), r; reflexivity. Qed.

Lemma outcome_after_close (h : list event) (t : activity_task) (r : result value)
    (id : task) :
  outcome_in (h ++ [{| seq := length h; kind := closing_event t r |}]) id
  = match outcome_in h id with
    | Some x => Some x
    | None => if (activityId t =? id)%nat then Some r else None
    end.
Proof.
  unfold outcome_in. rewrite find_event_app.
  destruct (find_event (closed_by id) h); [reflexivity|].
  simpl. rewrite closing_event_closes. now destruct (activityId t =? id)%nat.
Qed.

Lemma bump_id (id : task) (t : activity_task) : activityId (bump id t) = activityId t.
Proof. unfold bump. now destruct (activityId t =? id)%nat. Qed.

Lemma sound_close (w : world) (t : activity_task) (r : result value) (s : state) :
  sound w s -> t ∈ queue s -> sound w (close_task t r s).
Proof.
  intros [Hq Hc Hi] Ht. split; simpl.
  - intros u Hu. apply remove_task_in in Hu as [Hu Hne].
    destruct (Hq u Hu) as [Ho Hs]. split; [|now apply scheduled_grows].
    rewrite outcome_after_close, Ho.
    destruct (Nat.eqb_spec (activityId t) (activityId u)); [congruence | reflexivity].
  - intros id. rewrite outcome_after_close. intros Ho. apply scheduled_grows.
    destruct (outcome_in (history s) id) as [x|] eqn:Hx; [apply Hc; rewrite Hx; eauto|].
    destruct (Nat.eqb_spec (activityId t) id) as [<-|Hne];
      [|destruct Ho; discriminate].
    now destruct (Hq t Ht).
  - discriminate.
Qed.

Lemma sound_report (w : world) (t : activity_task) (r : result value) (s : state) :
  sound w s -> t ∈ queue s -> sound w (report w t r s).
Proof.
  intros Hs Ht. unfold report.
  destruct r as [v|err]; [now apply sound_close|].
  destruct (on_failure _ _ _); [|now apply sound_close].
  destruct Hs as [Hq Hc Hi]. split; simpl.
  - intros u Hu. apply list_elem_of_fmap in Hu as (u0 & -> & Hu0).
    unfold open_task. rewrite bump_id. now apply Hq.
  - exact Hc.
  - discriminate.
Qed.

Lemma sound_advance (w : world) (p : wf value) (s : state) :
  sound w s -> sound w (advance w p s).
Proof.
  intros Hs. unfold advance.
  destruct (terminal (history s)) eqn:Hterm; [exact Hs|].
  destruct (wake s) eqn:Hw; [now apply sound_decision_cycle|].
  destruct (inflight s) as [[t r]|] eqn:Hin.
  - apply sound_report; [exact Hs|].
    destruct (sound_inflight w s Hs t r Hin) as (_ & _ & Hpick & _).
    now apply pick_in in Hpick.
  - destruct (pick (rank w) (queue s)) as [t|] eqn:Hpick; [|exact Hs].
    destruct Hs as [Hq Hc Hi]. split; simpl; [exact Hq | exact Hc |].
    intros t' r' [= <- <-]. auto.
Qed.

Lemma sound_step (w : world) (p : wf value) (s : state) (t : tick) :
  sound w s -> sound w (step w p s t).
Proof.
  intros Hs. destruct t; simpl; [now apply sound_advance | | exact Hs].
  destruct Hs as [Hq Hc Hi]. split; simpl; [exact Hq | exact Hc | discriminate].
Qed.

Lemma sound_run (w : world) (p : wf value) (ts : list tick) (s : state) :
  sound w s -> sound w (run w p ts s).
Proof.
  revert s; induction ts as [|t ts IH]; intros s Hs; [exact Hs|].
  simpl. apply IH. now apply sound_step.
Qed.

Lemma history_grows (w : world) (p : wf value) (s : state) (t : tick) :
  exists h', history (step w p s t) = (history s ++ h')%list.
Proof.
  destruct t; simpl; [|exists []; now rewrite app_nil_r ..].
  unfold advance.
  destruct (terminal (history s)); [exists []; now rewrite app_nil_r|].
  destruct (wake s).
  - unfold decision_cycle. destruct (existsb is_nondeterminism _); simpl.
    + exists []. now rewrite app_nil_r.
    + unfold append. rewrite Nat.eqb_refl. simpl. eauto.
  - destruct (inflight s) as [[tk r]|].
    + unfold report, close_task.
      destruct r as [v|err]; [simpl; eauto|].
      destruct (on_failure _ _ _); simpl; [exists []; now rewrite app_nil_r | eauto].
    + destruct (pick (rank w) (queue s)); simpl; exists []; now rewrite app_nil_r.
Qed.

Lemma outcome_stays (w : world) (p : wf value) (s : state) (t : tick) (id : task) :
  is_Some (outcome_in (history s) id) ->
  is_Some (outcome_in (history (step w p s t)) id).
Proof.
  intros Ho. destruct (history_grows w p s t) as [h' ->].
  unfold outcome_in in *. rewrite find_event_app.
  destruct (find_event (closed_by id) (history s)); [eauto | destruct Ho; discriminate].
Qed.

(** Once history records how a call ended, no step executes it again. *)
Lemma step_executions (w : world) (p : wf value) (s : state) (t : tick) (id : task) :
  sound w s ->
  is_Some (outcome_in (history s) id) ->
  executions id (step w p s t) = executions id s.
Proof.
  intros Hs Ho. destruct t; simpl; try reflexivity.
  unfold advance.
  destruct (terminal (history s)); [reflexivity|].
  destruct (wake s).
  - unfold decision_cycle, append. rewrite Nat.eqb_refl.
    now destruct (existsb is_nondeterminism _).
  - destruct (inflight s) as [[tk r]|].
    + unfold report, close_task. destruct r as [v|err]; [reflexivity|].
      now destruct (on_failure _ _ _).
    + destruct (pick (rank w) (queue s)) as [tk|] eqn:Hpick; [|reflexivity].
      unfold executions, start_task; simpl.
      rewrite List.filter_app, length_app. simpl.
      apply pick_in in Hpick. destruct (sound_queue w s Hs tk Hpick) as [Hopen _].
      destruct (Nat.eqb_spec (activityId tk) id) as [<-|Hne]; [|simpl; lia].
      rewrite Hopen in Ho. destruct Ho; discriminate.
Qed.

Lemma run_executions (w : world) (p : wf value) (ts : list tick) (s : state) (id : task) :
  sound w s ->
  is_Some (outcome_in (history s) id) ->
  executions id (run w p ts s) = executions id s.
Proof.
  revert s; induction ts as [|t ts IH]; intros s Hs Ho; [reflexivity|].
  simpl. rewrite IH; [| now apply sound_step | now apply outcome_stays].
  now apply step_executions.
Qed.

Lemma uninterrupted_S (w : world) (p : wf value) (input : value) (n : nat) :
  uninterrupted w p input (S n) = advance w p (uninterrupted w p input n).
Proof.
  unfold uninterrupted. rewrite <- Nat.add_1_r, repeat_app, run_app. reflexivity.
Qed.

Lemma uninterrupted_add (w : world) (p : wf value) (input : value) (n m : nat) :
  uninterrupted w p input (n + m)
  = run w p (repeat Advance m) (uninterrupted w p input n).
Proof. unfold uninterrupted. now rewrite repeat_app, run_app. Qed.

(** After a crash, one step of the engine restores what the worker held. *)
Lemma advance_after_crash (w : world) (p : wf value) (s : state) :
  sound w s -> is_Some (inflight s) -> same_run (advance w p (crash s)) s.
Proof.
  intros Hs [[t r] Hin].
  destruct (sound_inflight w s Hs t r Hin) as (Hw & Hterm & Hpick & ->).
  unfold advance, crash; simpl. rewrite Hterm, Hw, Hpick.
  repeat split; simpl; congruence.
Qed.

Lemma crash_idle (s : state) : inflight s = None -> same_run (crash s) s.
Proof. intros Hin. repeat split; simpl; congruence. Qed.

(** Where a run with crashes and faults stands: at a state of the
    uninterrupted run, or one step of the engine before one. *)
Lemma run_tracks_uninterrupted (w : world) (p : wf value) (input : value)
    (ts : list tick) :
  engine_or_print p ->
  exists j,
    same_run (run w p ts (start_workflow input)) (uninterrupted w p input j) \/
    (inflight (run w p ts (start_workflow input)) = None /\
     same_run (advance w p (run w p ts (start_workflow input)))
       (uninterrupted w p input j)).
Proof.
  intros Hp. induction ts as [|t ts IH] using rev_ind.
  - exists 0. left. apply same_run_refl.
  - rewrite run_snoc.
    set (s := run w p ts (start_workflow input)) in *.
    assert (Hs : sound w s) by apply sound_run, sound_start.
    destruct IH as [j [Hon | [Hidle Hnext]]]; destruct t; simpl.
    + exists (S j). left. rewrite uninterrupted_S. now apply advance_same.
    + destruct (inflight s) as [held|] eqn:Hin.
      * exists j. right. split; [reflexivity|].
        eapply same_run_trans; [|exact Hon].
        apply advance_after_crash; [exact Hs | rewrite Hin; eauto].
      * exists j. left. eapply same_run_trans; [|exact Hon]. now apply crash_idle.
    + exists j. now left.
    + exists j. now left.
    + exists j. right. split; [reflexivity|].
      eapply same_run_trans; [|exact Hnext].
      apply advance_same; [exact Hp|]. now apply crash_idle.
    + exists j. right. now split.
Qed.

Lemma same_run_result (s s' : state) : same_run s s' -> get_result s = get_result s'.
Proof. intros [Hh _]. unfold get_result. now rewrite Hh. Qed.

(** C5.  Let a run crash anywhere, any number of times, and be recovered
    from the persisted history.  Once history records how a call ended,
    that call is not executed again, whatever happens later.  Recovery is
    the engine's ordinary step from the state the crash left: a crash keeps
    the history and the queue, and what follows it is [advance].  For a
    body that keeps the determinism contract (engine primitives and prints
    only): if the uninterrupted run reaches a terminal result, the recovered
    run reaches the same result after enough steps of the engine; and a
    result the interrupted run returns is one the uninterrupted run
    returns. *)
Theorem recovery_replays_the_persisted_history (w : world) (p : wf value)
    (input : value) :
  (forall ts1 ts2 id,
     is_Some (outcome_in (history (run w p ts1 (start_workflow input))) id) ->
     executions id (run w p (ts1 ++ ts2) (start_workflow input))
     = executions id (run w p ts1 (start_workflow input))) /\
  (forall s ts,
     history (crash s) = history s /\ queue (crash s) = queue s /\
     run w p (Crash :: Advance :: ts) s = run w p ts (advance w p (crash s))) /\
  (engine_or_print p ->
   (forall ts n r,
      get_result (uninterrupted w p input n) = Some r ->
      exists m,
        get_result (run w p (ts ++ repeat Advance m) (start_workflow input)) = Some r) /\
   (forall ts r,
      get_result (run w p ts (start_workflow input)) = Some r ->
      exists n, get_result (uninterrupted w p input n) = Some r)).
Proof.
  split; [|split; [intros s ts; repeat split|]].
  { intros ts1 ts2 id Ho. rewrite run_app.
    apply run_executions; [apply sound_run, sound_start | exact Ho]. }
  intros Hp. split.
  - intros ts n r Hr.
    assert (Hlater : forall j, get_result (uninterrupted w p input (j + n)) = Some r).
    { intros j. rewrite Nat.add_comm, uninterrupted_add. now apply run_result_stays. }
    destruct (run_tracks_uninterrupted w p input ts Hp) as [j [Hon | [_ Hnext]]].
    + exists n. rewrite run_app.
      rewrite (same_run_result _ _ (run_same w p (repeat Advance n) _ _ Hp Hon)).
      rewrite <- uninterrupted_add. apply Hlater.
    + exists (S n). rewrite run_app. cbn [repeat run fold_left step].
      change (fold_left (step w p) (repeat Advance n) ?s)
        with (run w p (repeat Advance n) s).
      rewrite (same_run_result _ _ (run_same w p (repeat Advance n) _ _ Hp Hnext)).
      rewrite <- uninterrupted_add. apply Hlater.
  - intros ts r Hr.
    destruct (run_tracks_uninterrupted w p input ts Hp) as [j [Hon | [_ Hnext]]].
    + exists j. now rewrite <- (same_run_result _ _ Hon).
    + exists j. rewrite <- (same_run_result _ _ Hnext).
      now rewrite (advance_terminal w p _ r Hr).
Qed.

(** ** C4: the retry schedule *)

Lemma same_type_refl (c : call) : same_type c c = true.
Proof. destruct c; simpl; apply String.eqb_refl. Qed.

Lemma replay_awaits_unscheduled (a : nat -> result ResearchPlan) (h : list event)
    (c : call) (p : wf value) :
  awaits c p -> scheduled_in h 0 = None ->
  forall ls runs, decisions (replay a h p 0 ls runs) = [ScheduleCall 0 c].
Proof.
  intros Hp Hs. induction Hp as [k | line k _ IH]; intros ls runs; simpl.
  - now rewrite Hs.
  - apply IH.
Qed.

Lemma replay_awaits_pending (a : nat -> result ResearchPlan) (h : list event)
    (c : call) (p : wf value) :
  awaits c p -> scheduled_in h 0 = Some c -> outcome_in h 0 = None ->
  forall ls runs, decisions (replay a h p 0 ls runs) = [].
Proof.
  intros Hp Hs Ho. induction Hp as [k | line k _ IH]; intros ls runs; simpl.
  - now rewrite Hs, same_type_refl, Ho.
  - apply IH.
Qed.

Lemma replay_awaits_failed (a : nat -> result ResearchPlan) (h : list event)
    (c : call) (p : wf value) (err : exn) :
  awaits c p -> scheduled_in h 0 = Some c -> outcome_in h 0 = Some (Raise err) ->
  forall ls runs, decisions (replay a h p 0 ls runs) = [FailWorkflow err].
Proof.
  intros Hp Hs Ho. induction Hp as [k | line k _ IH]; intros ls runs; simpl.
  - now rewrite Hs, same_type_refl, Ho.
  - apply IH.
Qed.

Section RetrySchedule.
Variable w : world.
Variable p : wf value.
Variable input : value.
Variables (name : string) (args : list value) (tmo : option Q) (pol : RetryPolicy).
Variable err : exn.

Let c : call := ExecuteActivity name args tmo (Some pol).

Hypothesis body_awaits : awaits c p.
Hypothesis always_fails : forall n, run_attempt w 0 n c = Raise err.
Hypothesis marked_retryable : retryable w err = true.

Lemma first_cycle_schedules :
  before_attempt input c 1 (advance w p (start_workflow input)) /\
  performed (advance w p (start_workflow input)) = [] /\
  delays (advance w p (start_workflow input)) = [].
Proof.
  unfold advance, decision_cycle; cbn [start_workflow history terminal terminal_of kind wake
    agent_count queue inflight performed delays].
  rewrite (replay_awaits_unscheduled (agent w)
             [{| seq := 0; kind := WorkflowStarted input |}] c p body_awaits eq_refl).
  repeat split.
Qed.

Lemma failed_attempt_is_retried (n : nat) (s : state) :
  before_attempt input c n s ->
  (n <? maximum_attempts pol)%nat = true ->
  before_attempt input c (S n) (advance w p (advance w p s)) /\
  performed (advance w p (advance w p s)) = (performed s ++ [(0, n)])%list /\
  delays (advance w p (advance w p s)) = (delays s ++ [(0, retry_delay pol n)])%list.
Proof.
  intros (Hh & Hq & Hw & Hi) Hn.
  assert (Hfirst : advance w p s
                   = start_task w {| activityId := 0; task_call := c; attempt := n |} s).
  { unfold advance. rewrite Hh, Hw, Hi, Hq. reflexivity. }
  rewrite Hfirst. clear Hfirst.
  assert (Hsecond :
    advance w p (start_task w {| activityId := 0; task_call := c; attempt := n |} s)
    = report w {| activityId := 0; task_call := c; attempt := n |} (Raise err)
        (start_task w {| activityId := 0; task_call := c; attempt := n |} s)).
  { unfold advance. cbn [start_task history wake inflight queue activityId attempt task_call].
    rewrite Hh, Hw, always_fails. reflexivity. }
  rewrite Hsecond. clear Hsecond. unfold report.
  cbn [task_call policy_of c activityId attempt]. rewrite marked_retryable.
  unfold on_failure. rewrite Hn, orb_true_r. cbn [andb].
  unfold before_attempt.
  cbn [start_task history queue wake inflight performed delays activityId].
  rewrite Hh, Hq, Hw. repeat split.
Qed.

Lemma retried_until_last_attempt (k n : nat) (s : state) :
  before_attempt input c n s ->
  n + k = maximum_attempts pol ->
  before_attempt input c (maximum_attempts pol) (run w p (repeat Advance (2 * k)) s) /\
  performed (run w p (repeat Advance (2 * k)) s)
  = (performed s ++ map (fun i => (0, i)) (List.seq n k))%list /\
  delays (run w p (repeat Advance (2 * k)) s)
  = (delays s ++ map (fun i => (0, retry_delay pol i)) (List.seq n k))%list.
Proof.
  revert n s; induction k as [|k IH]; intros n s Hs Hn.
  - simpl. rewrite !app_nil_r. rewrite Nat.add_0_r in Hn. subst n. auto.
  - replace (2 * S k) with (S (S (2 * k))) by lia.
    cbn [repeat run fold_left step].
    change (fold_left (step w p) (repeat Advance (2 * k)) ?x)
      with (run w p (repeat Advance (2 * k)) x).
    destruct (failed_attempt_is_retried n s Hs) as (Hnext & Hperf & Hdel).
    { apply Nat.ltb_lt. lia. }
    destruct (IH (S n) _ Hnext) as (Hlast & Hperf' & Hdel'); [lia|].
    split; [exact Hlast|]. rewrite Hperf', Hdel', Hperf, Hdel.
    cbn [List.seq map]. rewrite <- !app_assoc. auto.
Qed.

Lemma last_attempt_is_terminal (s : state) :
  before_attempt input c (maximum_attempts pol) s ->
  1 <= maximum_attempts pol ->
  map kind (history (run w p (repeat Advance 3) s))
  = [WorkflowStarted input; ActivityScheduled 0 c; ActivityFailed 0 err;
     WorkflowFailed err] /\
  performed (run w p (repeat Advance 3) s)
  = (performed s ++ [(0, maximum_attempts pol)])%list /\
  delays (run w p (repeat Advance 3) s) = delays s.
Proof.
  intros (Hh & Hq & Hw & Hi) Hm.
  set (t := {| activityId := 0; task_call := c; attempt := maximum_attempts pol |}).
  assert (H1 : advance w p s = start_task w t s).
  { unfold advance. rewrite Hh, Hw, Hi, Hq. reflexivity. }
  assert (H2 : advance w p (start_task w t s)
               = close_task t (Raise err) (start_task w t s)).
  { unfold advance. cbn [start_task history wake inflight queue activityId attempt task_call t].
    rewrite Hh, Hw, always_fails. cbn [trying_history terminal terminal_of kind].
    unfold report. cbn [t task_call policy_of c activityId attempt].
    rewrite marked_retryable. unfold on_failure.
    rewrite Nat.ltb_irrefl, (proj2 (Nat.eqb_neq _ 0)) by lia. reflexivity. }
  cbn [repeat run fold_left step]. rewrite H1, H2. clear H1 H2.
  unfold advance, close_task, decision_cycle.
  cbn [start_task history wake inflight queue performed delays agent_count].
  rewrite Hh.
  cbn [trying_history app terminal terminal_of kind closing_event t task_call c activityId].
  rewrite (replay_awaits_failed (agent w) _ c p err body_awaits) by reflexivity.
  cbn. repeat split.
Qed.

Lemma no_attempt_after_result (ts : list tick) (s : state) (r : result value) :
  get_result s = Some r -> performed (run w p ts s) = performed s.
Proof.
  revert s; induction ts as [|t ts IH]; intros s Hr; [reflexivity|].
  simpl. rewrite IH by now apply step_result_stays.
  destruct t; simpl; [|reflexivity|reflexivity].
  now rewrite (advance_terminal w p s r Hr).
Qed.

(** A call that always fails, retryably, under a policy with a limit of
    attempts: the scheduler waits the delay of the policy after each failed
    attempt but the last, then records the failure, and the run fails. *)
Lemma always_failing_call_is_retried :
  1 <= maximum_attempts pol ->
  delays (uninterrupted w p input (2 * maximum_attempts pol + 2))
  = map (fun n => (0, retry_delay pol n)) (List.seq 1 (maximum_attempts pol - 1)) /\
  performed (uninterrupted w p input (2 * maximum_attempts pol + 2))
  = map (fun n => (0, n)) (List.seq 1 (maximum_attempts pol)) /\
  map kind (history (uninterrupted w p input (2 * maximum_attempts pol + 2)))
  = [WorkflowStarted input; ActivityScheduled 0 c; ActivityFailed 0 err;
     WorkflowFailed err] /\
  forall ts,
    performed (run w p ts (uninterrupted w p input (2 * maximum_attempts pol + 2)))
    = performed (uninterrupted w p input (2 * maximum_attempts pol + 2)).
Proof.
  intros Hm.
  replace (2 * maximum_attempts pol + 2)
    with (1 + 2 * (maximum_attempts pol - 1) + 3) by lia.
  rewrite !uninterrupted_add.
  change (uninterrupted w p input 1) with (advance w p (start_workflow input)).
  destruct first_cycle_schedules as (H1 & Hp1 & Hd1).
  destruct (retried_until_last_attempt (maximum_attempts pol - 1) 1 _ H1)
    as (Hlast & Hperf & Hdel); [lia|].
  destruct (last_attempt_is_terminal _ Hlast Hm) as (Hkinds & Hperf' & Hdel').
  split; [rewrite Hdel', Hdel, Hd1; reflexivity|]. split.
  { rewrite Hperf', Hperf, Hp1. cbn [app].
    replace (maximum_attempts pol) with (maximum_attempts pol - 1 + 1) at 3 by lia.
    rewrite seq_app, map_app. cbn [List.seq map].
    replace (1 + (maximum_attempts pol - 1)) with (maximum_attempts pol) by lia.
    reflexivity. }
  split; [exact Hkinds|].
  intros ts. apply (no_attempt_after_result ts _ (Raise err)).
  unfold get_result.
  set (h := history _) in *. clearbody h.
  destruct h as [|[s0 k0] [|[s1 k1] [|[s2 k2] [|[s3 k3] [|]]]]]; try discriminate.
  cbn in Hkinds. injection Hkinds as -> -> -> ->. reflexivity.
Qed.

End RetrySchedule.

Lemma v2_run_awaits (topic : string) :
  awaits (V2Workflows.research_call topic)
    (V2Workflows.BleedingEdgeResearchWorkflow_run topic).
Proof. apply awaits_print, awaits_here. Qed.

Lemma v2_run_engine_or_print (topic : string) :
  engine_or_print (V2Workflows.BleedingEdgeResearchWorkflow_run topic).
Proof.
  unfold V2Workflows.BleedingEdgeResearchWorkflow_run, engine_or_print. body_ops.
Qed.

(** C4.  On a retryable failure of attempt [n] that the policy lets be
    retried, the scheduler waits
    [min(initialInterval * backoffCoefficient^(n-1), maxInterval)].  A call
    that always fails under a policy with [maxAttempts = m >= 1] is executed
    [m] times, with these delays after attempts 1 to [m-1], then recorded as
    [ActivityFailed], and never executed again.  For the policy
    [BleedingEdgeResearchWorkflow.run] gives its research activity (1s, 2.0,
    15s, 3 attempts) the delays are 1s and 2s, the attempts three, and the
    run fails after the third. *)
Theorem retry_delays_follow_the_policy :
  (forall pol n,
     1 <= n ->
     maximum_attempts pol = 0 \/ n < maximum_attempts pol ->
     on_failure pol n true
     = RetryAfter (Qmin (initial_interval pol
                         * backoff_coefficient pol ^ (Z.of_nat n - 1))
                        (maximum_interval pol))) /\
  (forall w p input name args tmo pol err,
     awaits (ExecuteActivity name args tmo (Some pol)) p ->
     (forall n, run_attempt w 0 n (ExecuteActivity name args tmo (Some pol)) = Raise err) ->
     retryable w err = true ->
     1 <= maximum_attempts pol ->
     delays (uninterrupted w p input (2 * maximum_attempts pol + 2))
     = map (fun n => (0, retry_delay pol n)) (List.seq 1 (maximum_attempts pol - 1)) /\
     performed (uninterrupted w p input (2 * maximum_attempts pol + 2))
     = map (fun n => (0, n)) (List.seq 1 (maximum_attempts pol)) /\
     map kind (history (uninterrupted w p input (2 * maximum_attempts pol + 2)))
     = [WorkflowStarted input; ActivityScheduled 0 (ExecuteActivity name args tmo (Some pol));
        ActivityFailed 0 err; WorkflowFailed err] /\
     forall ts,
       performed (run w p ts (uninterrupted w p input (2 * maximum_attempts pol + 2)))
       = performed (uninterrupted w p input (2 * maximum_attempts pol + 2))) /\
  (forall w topic input err,
     (forall n, run_attempt w 0 n (V2Workflows.research_call topic) = Raise err) ->
     retryable w err = true ->
     delays (uninterrupted w (V2Workflows.BleedingEdgeResearchWorkflow_run topic) input 8)
     = [(0, 1%Q); (0, 2%Q)] /\
     performed (uninterrupted w (V2Workflows.BleedingEdgeResearchWorkflow_run topic) input 8)
     = [(0, 1); (0, 2); (0, 3)] /\
     map kind (history (uninterrupted w
                          (V2Workflows.BleedingEdgeResearchWorkflow_run topic) input 8))
     = [WorkflowStarted input; ActivityScheduled 0 (V2Workflows.research_call topic);
        ActivityFailed 0 err; WorkflowFailed err] /\
     forall ts,
       performed (run w (V2Workflows.BleedingEdgeResearchWorkflow_run topic) ts
                    (uninterrupted w (V2Workflows.BleedingEdgeResearchWorkflow_run topic)
                       input 8))
       = [(0, 1); (0, 2); (0, 3)]).
Proof.
  split; [|split].
  - intros pol n Hn Hmax. unfold on_failure, retry_delay. cbn [andb].
    destruct Hmax as [->|Hlt]; [reflexivity|].
    rewrite (proj2 (Nat.ltb_lt _ _) Hlt), orb_true_r. reflexivity.
  - intros w p input name args tmo pol err Hp Hfail Hretry Hm.
    exact (always_failing_call_is_retried w p input name args tmo pol err
             Hp Hfail Hretry Hm).
  - intros w topic input err Hfail Hretry.
    destruct (always_failing_call_is_retried w
                (V2Workflows.BleedingEdgeResearchWorkflow_run topic) input
                "bleeding_edge_research_activity" [VStr topic] (Some (minutes 3))
                V2Workflows.research_retry_policy err
                (v2_run_awaits topic) Hfail Hretry)
      as (Hdel & Hperf & Hkinds & Hstay).
    { cbn. lia. }
    change (2 * maximum_attempts V2Workflows.research_retry_policy + 2) with 8 in *.
    split; [rewrite Hdel; reflexivity|]. split; [exact Hperf|].
    split; [exact Hkinds|]. intros ts. rewrite Hstay. exact Hperf.
Qed.

Lemma retry_delays_follow_the_policy_witness :
  delays (uninterrupted failing_world sample_run (VStr "durable agents") 8)
  = [(0, 1%Q); (0, 2%Q)] /\
  performed (uninterrupted failing_world sample_run (VStr "durable agents") 8)
  = [(0, 1); (0, 2); (0, 3)].
Proof.
  destruct (proj2 (proj2 retry_delays_follow_the_policy) failing_world
              "durable agents" (VStr "durable agents")
              (ExternalError "search unavailable")
              (fun _ => eq_refl) eq_refl) as (Hdel & Hperf & _).
  split; [exact Hdel | exact Hperf].
Defined.

Lemma recovery_replays_the_persisted_history_witness :
  exists m,
    get_result (run steady_world sample_run
                  ([Advance; Advance; Advance; Advance; Advance; Crash; Fault; Crash]
                   ++ repeat Advance m)
                  (start_workflow (VStr "durable agents")))
    = Some (Ok (child_report 1)).
Proof.
  apply (proj1 (proj2 (proj2 (recovery_replays_the_persisted_history steady_world
                                sample_run (VStr "durable agents")))
                  (v2_run_engine_or_print "durable agents"))
           _ 7).
  vm_compute. reflexivity.
Defined.


End EngineFacts.

(** * The activities, the orchestrators and the executive summary *)

(** ** The date filter: what it keeps *)

Lemma filter_sublist {A} (f : A -> bool) (l : list A) : sublist (List.filter f l) l.
Proof.
  induction l as [|a l IH]; simpl; [constructor|].
  destruct (f a); [apply sublist_skip | apply sublist_cons]; exact IH.
Qed.

Lemma filter_sources_sublist (sources fs : list value) :
  filter_sources sources = Ok fs -> sublist fs sources.
Proof.
  intros Hf. apply filter_sources_ok in Hf; subst fs.
  destruct (existsb date_matches sources); [apply filter_sublist | apply sublist_take].
Qed.

(** X1.  Whenever the date filter returns, what it returns is a
    subsequence of the fetched sources, in their order; it is empty only if
    nothing was fetched; and when no source is in range it holds at most ten
    sources. *)
Theorem date_filter_keeps_fetched_sources (sources fs : list value) :
  filter_sources sources = Ok fs ->
  sublist fs sources /\
  (fs = [] -> sources = []) /\
  (existsb date_matches sources = false -> (length fs <= 10)%nat).
Proof.
  intros Hf. split; [exact (filter_sources_sublist _ _ Hf)|].
  apply filter_sources_ok in Hf. split.
  - intros Hnil. destruct (existsb date_matches sources) eqn:He.
    + rewrite Hnil in Hf. symmetry in Hf. apply filter_nil_existsb in Hf. congruence.
    + rewrite Hnil in Hf. destruct sources; [reflexivity | discriminate].
  - intros He. rewrite He in Hf. subst fs. rewrite length_firstn. lia.
Qed.

Lemma date_filter_keeps_fetched_sources_witness :
  sublist [dated_hit] [dated_hit; old_hit; undated_hit] /\
  ([dated_hit] = [] -> [dated_hit; old_hit; undated_hit] = []) /\
  (existsb date_matches [dated_hit; old_hit; undated_hit] = false -> (1 <= 10)%nat).
Proof.
  exact (date_filter_keeps_fetched_sources [dated_hit; old_hit; undated_hit] [dated_hit]
           eq_refl).
Defined.

Lemma date_filter_loop_tests (sources kept : list value) :
  date_filter_loop sources = Ok kept ->
  Forall (fun s => exists b, date_test s = Ok b) sources.
Proof.
  revert kept; induction sources as [|s rest IH]; simpl; intros kept Hk; [constructor|].
  rbind_inv Hk. rbind_inv Hk. rbind_inv Hk. constructor; [|eauto].
  exists x0. unfold date_test. rewrite E. exact E0.
Qed.

Lemma date_filter_loop_total (sources : list value) :
  Forall (fun s => exists b, date_test s = Ok b) sources ->
  date_filter_loop sources = Ok (List.filter date_matches sources).
Proof.
  induction 1 as [|s rest [b Hb] _ IH]; simpl; [reflexivity|].
  unfold date_matches. fold (date_test s). rewrite Hb.
  unfold date_test in Hb. rbind_inv Hb. rewrite E; simpl. rewrite Hb; simpl.
  rewrite IH; simpl. destruct b; reflexivity.
Qed.

Lemma filter_filter_same {A} (f : A -> bool) (l : list A) :
  List.filter f (List.filter f l) = List.filter f l.
Proof.
  induction l as [|a l IH]; simpl; [reflexivity|].
  destruct (f a) eqn:Hfa; simpl; [rewrite Hfa, IH|]; auto.
Qed.

Lemma existsb_sublist {A} (f : A -> bool) (l l' : list A) :
  sublist l l' -> existsb f l' = false -> existsb f l = false.
Proof.
  induction 1 as [|a l l' _ IH|a l l' _ IH]; simpl; intros He; [reflexivity| |].
  - apply orb_false_iff in He as [-> He]. simpl. auto.
  - apply orb_false_iff in He as [_ He]. auto.
Qed.

Lemma Forall_sublist {A} (P : A -> Prop) (l l' : list A) :
  sublist l l' -> Forall P l' -> Forall P l.
Proof.
  induction 1 as [|a l l' _ IH|a l l' _ IH]; intros HP; [constructor| |];
    inversion HP; subst; [constructor|]; auto.
Qed.

(** X2.  The date filter is idempotent: filtering what it returned
    returns the same list, in both of its branches. *)
Theorem date_filter_is_idempotent (sources fs : list value) :
  filter_sources sources = Ok fs -> filter_sources fs = Ok fs.
Proof.
  intros Hf. pose proof (filter_sources_sublist _ _ Hf) as Hsub.
  unfold filter_sources in Hf |- *. rbind_inv Hf.
  pose proof (date_filter_loop_tests _ _ E) as Htests.
  apply date_filter_loop_ok in E; subst x.
  rewrite date_filter_loop_total by (eapply Forall_sublist; eauto). simpl.
  destruct (List.filter date_matches sources) as [|s kept] eqn:Hk.
  - apply Ok_inj in Hf; subst fs.
    apply filter_nil_existsb in Hk.
    apply (existsb_sublist _ _ _ Hsub) in Hk. apply filter_nil_existsb in Hk.
    rewrite Hk. rewrite firstn_firstn. reflexivity.
  - apply Ok_inj in Hf; subst fs. rewrite <- Hk, filter_filter_same, Hk. reflexivity.
Qed.

Lemma date_filter_is_idempotent_witness :
  filter_sources [old_hit; undated_hit] = Ok [old_hit; undated_hit] /\
  filter_sources [dated_hit] = Ok [dated_hit].
Proof.
  split.
  - exact (date_filter_is_idempotent [old_hit; undated_hit] [old_hit; undated_hit] eq_refl).
  - exact (date_filter_is_idempotent [dated_hit; old_hit; undated_hit] [dated_hit] eq_refl).
Defined.

(** ** The sources the research activities build *)

Lemma make_source_shape (topic : string) (r s : value) :
  make_source topic r = Ok s ->
  exists entries,
    s = VDict entries /\ dict_keys entries = source_keys /\
    dict_lookup "query" entries = Some (VStr topic) /\
    py_getitem s "title" = py_getitem r "title" /\
    py_getitem s "url" = py_getitem r "url" /\
    py_getitem s "published_date" = py_get r "published_date" (VStr "N/A").
Proof.
  unfold make_source; intros Hs.
  rbind_inv Hs. rbind_inv Hs. rbind_inv Hs. rbind_inv Hs. rbind_inv Hs.
  apply Ok_inj in Hs; subst s. eexists. split; [reflexivity|].
  rewrite E, E0, E3. repeat split; reflexivity.
Qed.

Lemma rmap_Forall2 {A B} (f : A -> result B) (l : list A) (bs : list B) :
  rmap f l = Ok bs -> Forall2 (fun a b => f a = Ok b) l bs.
Proof.
  revert bs; induction l as [|a l IH]; simpl; intros bs Hm.
  - apply Ok_inj in Hm; subst bs. constructor.
  - rbind_inv Hm. rbind_inv Hm. apply Ok_inj in Hm; subst bs. constructor; auto.
Qed.

Lemma extract_sources_hits (topic : string) (results : value) :
  extract_sources topic results = rbind (hits_of results) (rmap (make_source topic)).
Proof.
  unfold extract_sources, hits_of.
  destruct (py_get results "results" (VList [])) as [found|e]; simpl; reflexivity.
Qed.

Lemma extracted_sources_are_dicts (topic : string) (results : value) (sources : list value) :
  extract_sources topic results = Ok sources ->
  Forall (fun s => exists entries, s = VDict entries /\ dict_keys entries = source_keys)
    sources.
Proof.
  rewrite extract_sources_hits. intros Hs. rbind_inv Hs.
  apply rmap_Forall2 in Hs. clear E.
  induction Hs as [|r s hits sources Hrs _ IH]; constructor; [|exact IH].
  destruct (make_source_shape _ _ _ Hrs) as (entries & -> & Hk & _). eauto.
Qed.

(** X3.  Whenever the sources are extracted from a search response, there
    is one source per hit, in the order of the hits, and every source is a
    dictionary with exactly the keys [title], [url], [content], [query] and
    [published_date]: its query is the topic, its title and url are the
    hit's, and its date is the hit's or ['N/A'], so that the filter's
    [source.get('published_date', '')] always finds the key. *)
Theorem extracted_sources_have_five_keys (topic : string) (results : value)
    (sources : list value) :
  extract_sources topic results = Ok sources ->
  exists hits,
    hits_of results = Ok hits /\
    Forall2 (fun r s =>
               exists entries,
                 s = VDict entries /\ dict_keys entries = source_keys /\
                 dict_lookup "query" entries = Some (VStr topic) /\
                 py_getitem s "title" = py_getitem r "title" /\
                 py_getitem s "url" = py_getitem r "url" /\
                 py_getitem s "published_date" = py_get r "published_date" (VStr "N/A") /\
                 py_get s "published_date" (VStr "") = py_getitem s "published_date")
            hits sources.
Proof.
  rewrite extract_sources_hits. intros Hs. rbind_inv Hs. exists x. split; [exact E|].
  apply rmap_Forall2 in Hs. eapply Forall2_impl; [exact Hs|].
  intros r s Hrs. cbv beta in Hrs.
  destruct (make_source_shape _ _ _ Hrs) as (entries & -> & Hk & Hq & Ht & Hu & Hd).
  exists entries. split; [reflexivity|]. do 5 (split; [assumption|]).
  destruct (dict_lookup_key "published_date" entries) as [v Hv].
  { rewrite Hk. unfold source_keys; simpl; tauto. }
  simpl. rewrite Hv. reflexivity.
Qed.

Lemma extracted_sources_have_five_keys_witness :
  exists s1 s2 s3,
    extract_sources "durable agents" mixed_response = Ok [s1; s2; s3] /\
    py_getitem s3 "published_date" = Ok (VStr "N/A").
Proof.
  destruct (extract_sources "durable agents" mixed_response) as [sources|e] eqn:Hs;
    [|vm_compute in Hs; discriminate].
  destruct (extracted_sources_have_five_keys _ _ _ Hs) as (hits & Hh & Hall).
  vm_compute in Hh. apply Ok_inj in Hh; subst hits.
  inversion Hall as [|r1 s1 l1 l1' H1 Ht1]; subst.
  inversion Ht1 as [|r2 s2 l2 l2' H2 Ht2]; subst.
  inversion Ht2 as [|r3 s3 l3 l3' H3 Ht3]; subst.
  inversion Ht3; subst.
  exists s1, s2, s3. split; [reflexivity|].
  destruct H3 as (entries & _ & _ & _ & _ & _ & Hd & _). exact Hd.
Defined.

(** ** The research activities on responses that are not as expected *)

Lemma rmap_raise_at {A B} (f : A -> result B) (pre post : list A) (a : A) (e : exn) :
  Forall (fun x => exists b, f x = Ok b) pre ->
  f a = Raise e ->
  rmap f (pre ++ a :: post)%list = Raise e.
Proof.
  intros Hpre Ha. induction Hpre as [|x pre [b Hb] _ IH]; simpl.
  - rewrite Ha. reflexivity.
  - rewrite Hb; simpl. rewrite IH. reflexivity.
Qed.

Lemma research_results_extract `{Host} (topic : string) (results : value) (e : exn) :
  extract_sources topic results = Raise e ->
  V2.research_result topic results = Raise e /\
  Final.research_result topic results = Raise e.
Proof.
  intros He. unfold V2.research_result, Final.research_result. rewrite He.
  split; reflexivity.
Qed.

(** X4.  What the two research activities do with a search response that
    is not as expected.  A response dictionary without ['results'] counts as
    no hit: the final activity returns its dictionary with an empty source
    list, the v2 activity one with no source and a raw count of 0.  A
    response that is not a dictionary raises [AttributeError].  A hit without
    ['title'], or with a title and without ['url'], raises [KeyError] on that
    key when the hits before it are well formed, whatever comes after it. *)
Theorem research_on_malformed_response `{Host} (topic : string) :
  (forall d,
     dict_lookup "results" d = None ->
     Final.research_result topic (VDict d)
     = Ok (VDict [("topic", VStr topic); ("sources", VList []);
                  ("timestamp", VStr now_isoformat);
                  ("date_filter", VStr "June-November 2025")]) /\
     exists out,
       V2.research_result topic (VDict d) = Ok out /\
       sources_of out = Ok (VList []) /\
       py_getitem out "raw_count" = Ok (VInt 0)) /\
  (forall results,
     (forall d, results <> VDict d) ->
     V2.research_result topic results = Raise AttributeError /\
     Final.research_result topic results = Raise AttributeError) /\
  (forall results pre hit post d key,
     hits_of results = Ok (pre ++ hit :: post)%list ->
     Forall (fun h => exists s, make_source topic h = Ok s) pre ->
     hit = VDict d ->
     dict_lookup key d = None ->
     key = "title" \/ (key = "url" /\ is_Some (dict_lookup "title" d)) ->
     V2.research_result topic results = Raise (KeyError key) /\
     Final.research_result topic results = Raise (KeyError key)).
Proof.
  split; [|split].
  - intros d Hd.
    assert (He : extract_sources topic (VDict d) = Ok []).
    { unfold extract_sources; simpl. rewrite Hd. reflexivity. }
    unfold Final.research_result, V2.research_result. rewrite He. cbn [rbind].
    change (filter_sources []) with (Ok (@nil value)).
    cbn [rbind firstn rmap py_join str_join].
    split; [reflexivity|]. eexists. split; [reflexivity|]. split; reflexivity.
  - intros results Hnd. apply research_results_extract.
    unfold extract_sources. destruct results; try reflexivity.
    now destruct (Hnd d).
  - intros results pre hit post d key Hhits Hpre -> Hkey Hwhich.
    apply research_results_extract. rewrite extract_sources_hits, Hhits. simpl.
    apply rmap_raise_at; [exact Hpre|].
    unfold make_source; simpl.
    destruct Hwhich as [->|[-> [t Ht]]].
    + rewrite Hkey. reflexivity.
    + rewrite Ht; simpl. rewrite Hkey. reflexivity.
Qed.

Lemma research_on_malformed_response_witness :
  @Final.research_result (sample_host mixed_response) "durable agents"
    (VDict [("results", VList [dated_hit; VDict [("url", VStr "https://example.org/d")];
                               undated_hit])])
  = Raise (KeyError "title").
Proof.
  apply (proj2 (proj2 (@research_on_malformed_response (sample_host mixed_response)
                         "durable agents")))
    with (pre := [dated_hit]) (post := [undated_hit])
         (d := [("url", VStr "https://example.org/d")]) (hit := VDict [("url", VStr "https://example.org/d")]).
  - reflexivity.
  - constructor; [|constructor]. eexists. reflexivity.
  - reflexivity.
  - reflexivity.
  - left. reflexivity.
Defined.

(** X5.  A source whose [published_date] is there and is not a string, a
    list or a dictionary, such as the [None] of a JSON null, makes the date
    filter raise [TypeError]: both research activities then raise it instead
    of returning, even when other sources are in range. *)
Theorem null_date_fails_the_research `{Host} (topic : string) (results : value)
    (sources : list value) :
  extract_sources topic results = Ok sources ->
  Exists (fun s => exists date, py_getitem s "published_date" = Ok date /\
                                is_container date = false) sources ->
  filter_sources sources = Raise TypeError /\
  V2.research_result topic results = Raise TypeError /\
  Final.research_result topic results = Raise TypeError.
Proof.
  intros Hs Hnull.
  assert (Hf : filter_sources sources = Raise TypeError).
  { assert (Hdicts : Forall (fun s => exists entries, s = VDict entries) sources).
    { eapply Forall_impl; [exact (extracted_sources_are_dicts _ _ _ Hs)|].
      intros s (entries & -> & _). eauto. }
    clear -Hnull Hdicts. unfold filter_sources.
    assert (Hloop : date_filter_loop sources = Raise TypeError).
    { induction Hnull as [s rest (date & Hd & Hc)|s rest _ IH];
        inversion Hdicts as [|? ? [entries ->] Hrest]; subst.
      - simpl in Hd |- *. destruct (dict_lookup "published_date" entries); [|discriminate].
        apply Ok_inj in Hd; subst v. simpl.
        destruct date; try discriminate; reflexivity.
      - cbn [date_filter_loop py_get]. rewrite (IH Hrest).
        destruct (dict_lookup "published_date" entries) as [date|]; cbn [rbind].
        + destruct date; try reflexivity; cbn [in_june_november py_str_in rbind].
          * repeat (match goal with |- context [str_contains ?m ?s] =>
                      destruct (str_contains m s) end; cbn [rbind]); reflexivity.
          * repeat (match goal with |- context [existsb ?f ?l] =>
                      destruct (existsb f l) end; cbn [rbind]); reflexivity.
          * repeat (match goal with |- context [existsb ?f ?l] =>
                      destruct (existsb f l) end; cbn [rbind]); reflexivity.
        + vm_compute. reflexivity. }
    rewrite Hloop. reflexivity. }
  split; [exact Hf|].
  unfold V2.research_result, Final.research_result. rewrite Hs; cbn [rbind].
  rewrite Hf. split; reflexivity.
Qed.

Lemma null_date_fails_the_research_witness :
  @V2.research_result (sample_host mixed_response) "durable agents"
    (VDict [("results",
             VList [dated_hit;
                    VDict [("title", VStr "No date"); ("url", VStr "https://example.org/e");
                           ("published_date", VNone)]])])
  = Raise TypeError.
Proof.
  eapply (fun Hs Hn => proj1 (proj2 (@null_date_fails_the_research
                                      (sample_host mixed_response) "durable agents" _ _ Hs Hn))).
  - vm_compute. reflexivity.
  - apply Exists_cons_tl, Exists_cons_hd. exists VNone. split; reflexivity.
Defined.

(** ** The counts in the v2 research result *)

(** X6.  Whenever the v2 research activity returns, the counts in its
    dictionary agree with its lists: [raw_count] is the number of fetched
    sources, [filtered_count] and [total_sources] are both the number of
    sources returned, which is at most the raw count; [key_concepts] is a
    subsequence of the fifteen concepts the activity looks for,
    [concepts_found] is its length and [coverage] is that length over
    fifteen, between 0 and 1. *)
Theorem v2_result_counts_agree `{Host} (topic : string) (results d : value) :
  V2.research_result topic results = Ok d ->
  exists sources kept found,
    extract_sources topic results = Ok sources /\
    sources_of d = Ok (VList kept) /\
    py_getitem d "raw_count" = Ok (VInt (Z.of_nat (length sources))) /\
    py_getitem d "filtered_count" = Ok (VInt (Z.of_nat (length kept))) /\
    py_getitem d "total_sources" = Ok (VInt (Z.of_nat (length kept))) /\
    (length kept <= length sources)%nat /\
    py_getitem d "key_concepts" = Ok (VList (map VStr found)) /\
    sublist found V2.key_concepts /\
    py_getitem d "concepts_found" = Ok (VInt (Z.of_nat (length found))) /\
    py_getitem d "coverage" = Ok (VFloat (Z.of_nat (length found) # 15)) /\
    (length found <= 15)%nat /\
    (0 <= Z.of_nat (length found) # 15 <= 1)%Q.
Proof.
  unfold V2.research_result; intros Hr.
  rbind_inv Hr. rbind_inv Hr. rbind_inv Hr. apply Ok_inj in Hr; subst d.
  pose proof (filter_sources_sublist _ _ E0) as Hsub.
  match goal with
  | |- context [List.filter ?f V2.key_concepts] =>
      pose proof (filter_sublist f V2.key_concepts) as Hfound;
      set (found := List.filter f V2.key_concepts) in *
  end.
  assert (Hlen : (length found <= 15)%nat) by exact (sublist_length _ _ Hfound).
  exists x, x0, found.
  split; [exact E|]. do 4 (split; [reflexivity|]).
  split; [exact (sublist_length _ _ Hsub)|].
  split; [reflexivity|]. split; [exact Hfound|]. do 2 (split; [reflexivity|]).
  split; [exact Hlen|].
  unfold Qle; simpl. lia.
Qed.

Lemma v2_result_counts_agree_witness :
  exists d,
    @V2.research_result (sample_host mixed_response) "durable agents" mixed_response
    = Ok d /\
    py_getitem d "raw_count" = Ok (VInt 3) /\
    py_getitem d "filtered_count" = Ok (VInt 1).
Proof.
  pose (H := sample_host mixed_response).
  destruct (@V2.research_result H "durable agents" mixed_response) as [d|e] eqn:Hd;
    [|vm_compute in Hd; discriminate].
  exists d. split; [exact Hd|].
  destruct (@v2_result_counts_agree H _ _ d Hd)
    as (sources & kept & found & Hs & Hk & Hraw & Hfil & _).
  vm_compute in Hs. apply Ok_inj in Hs; subst sources.
  split; [exact Hraw|].
  rewrite Hfil. vm_compute in Hd. apply Ok_inj in Hd; subst d.
  vm_compute in Hk. apply Ok_inj in Hk. injection Hk as <-. reflexivity.
Defined.

(** ** The name of a report file *)

Lemma str_has_replace_old (old new : ascii) (s : string) :
  old <> new -> str_has old (str_replace_char old new s) = false.
Proof.
  intros Hne. induction s as [|c s IH]; simpl; [reflexivity|].
  rewrite IH, orb_false_r. destruct (Ascii.eqb_spec c old) as [->|Hc].
  - apply Ascii.eqb_neq. congruence.
  - apply Ascii.eqb_neq. exact Hc.
Qed.

Lemma str_has_replace_other (old new c : ascii) (s : string) :
  c <> new -> str_has c s = false -> str_has c (str_replace_char old new s) = false.
Proof.
  intros Hne. induction s as [|a s IH]; simpl; [reflexivity|].
  intros Hs. apply orb_false_iff in Hs as [Ha Hs]. rewrite (IH Hs), orb_false_r.
  destruct (Ascii.eqb a old); [|exact Ha].
  apply Ascii.eqb_neq. congruence.
Qed.

Lemma str_has_take (c : ascii) (n : nat) (s : string) :
  str_has c s = false -> str_has c (str_take n s) = false.
Proof.
  unfold str_take. revert n; induction s as [|a s IH]; intros n Hs.
  - destruct n; reflexivity.
  - destruct n; [reflexivity|]. simpl in Hs |- *.
    apply orb_false_iff in Hs as [-> Hs]. simpl. apply IH, Hs.
Qed.

Lemma str_has_app (c : ascii) (a b : string) :
  str_has c (a ++ b) = str_has c a || str_has c b.
Proof.
  induction a as [|x a IH]; simpl; [reflexivity|]. rewrite IH, orb_assoc. reflexivity.
Qed.

Lemma path_head_no_slash (b : string) : str_has "/" b = false -> path_head b = "".
Proof. intros Hb. destruct b; simpl in *; [reflexivity|]. rewrite Hb. reflexivity. Qed.

Lemma path_head_app (a b : string) :
  str_has "/" b = false -> path_head (a ++ "/" ++ b) = a ++ "/".
Proof.
  intros Hb. induction a as [|c a IH].
  - change (path_head (String "/" b) = "/"). cbn [path_head str_has].
    rewrite Ascii.eqb_refl. cbn [orb]. rewrite (path_head_no_slash _ Hb). reflexivity.
  - change (path_head (String c (a ++ "/" ++ b)) = String c (a ++ "/")).
    cbn [path_head]. rewrite <- IH.
    assert (Hs : str_has "/" (String c (a ++ "/" ++ b)) = true).
    { cbn [str_has]. rewrite str_has_app.
      change (str_has "/" ("/" ++ b)) with true. now rewrite !orb_true_r. }
    rewrite Hs. reflexivity.
Qed.

(** X7.  The file name a report activity derives from its topic has no
    space, no slash and no colon, whatever the topic is; so the report path
    lies directly in the reports directory: [os.path.dirname] of it, which
    the activity creates, is [/adapt/projects/firebird/reports]. *)
Theorem report_file_stays_in_reports_dir (topic : string) :
  exists name,
    V2.safe_filename_of (VStr topic) = Ok name /\
    str_has " " name = false /\ str_has "/" name = false /\ str_has ":" name = false /\
    report_path topic = V2.reports_dir ++ "/" ++ name ++ ".md" /\
    dirname (report_path topic) = V2.reports_dir.
Proof.
  eexists. split; [reflexivity|].
  assert (Hslash : str_has "/" (str_take 50 (str_replace_char ":" "_"
                     (str_replace_char "/" "_" (str_replace_char " " "_" topic)))) = false).
  { apply str_has_take, str_has_replace_other; [discriminate|].
    apply str_has_replace_old. discriminate. }
  split; [|split; [exact Hslash|split; [|split; [reflexivity|]]]].
  - apply str_has_take. do 2 (apply str_has_replace_other; [discriminate|]).
    apply str_has_replace_old. discriminate.
  - apply str_has_take, str_has_replace_old. discriminate.
  - unfold dirname, report_path. rewrite path_head_app.
    2:{ rewrite str_has_app, Hslash. reflexivity. }
    reflexivity.
Qed.

(** ** What the report activities do to the file system *)




(** ** The final pipeline *)

Lemma source_entries_run `{Host} (l : list value) :
  Forall (fun s => exists entries, s = VDict entries /\ dict_keys entries = source_keys) l ->
  forall i,
    if forallb content_sliceable l
    then exists text, V2.enumerate_lines FinalReport.source_entry i l = Ok text
    else V2.enumerate_lines FinalReport.source_entry i l = Raise TypeError.
Proof.
  induction 1 as [|s l (entries & -> & Hkeys) _ IH]; intros i.
  - simpl. eexists. reflexivity.
  - destruct (dict_lookup_key "title" entries) as [t Ht].
    { rewrite Hkeys. unfold source_keys; simpl; tauto. }
    destruct (dict_lookup_key "content" entries) as [c Hc].
    { rewrite Hkeys. unfold source_keys; simpl; tauto. }
    cbn [forallb V2.enumerate_lines]. unfold FinalReport.source_entry at 1 3.
    unfold content_sliceable at 1. cbn [py_getitem]. rewrite Ht, Hc. cbn [rbind].
    specialize (IH (i + 1)%Z).
    destruct c; cbn [py_slice_to rbind andb]; try reflexivity;
      (destruct (forallb content_sliceable l);
       [destruct IH as [text ->]; cbn [rbind]; eexists; reflexivity
       | rewrite IH; reflexivity]).
Qed.

Lemma final_research_result_topic `{Host} (topic : string) (results d : value) :
  Final.research_result topic results = Ok d ->
  py_getitem d "topic" = Ok (VStr topic).
Proof.
  unfold Final.research_result; intros Hr.
  rbind_inv Hr. rbind_inv Hr. apply Ok_inj in Hr. subst d. reflexivity.
Qed.

(** The markdown text of the final report on what the research returned. *)
Lemma final_markdown_on_research_output `{Host} (topic : string) (results d : value) :
  Final.research_result topic results = Ok d ->
  exists kept,
    sources_of d = Ok (VList kept) /\
    if forallb content_sliceable (firstn 5 kept)
    then exists text, FinalReport.markdown_content d (VStr topic) = Ok text
    else FinalReport.markdown_content d (VStr topic) = Raise TypeError.
Proof.
  unfold Final.research_result; intros Hr.
  rbind_inv Hr. rbind_inv Hr. apply Ok_inj in Hr.
  rename x into sources, x0 into kept.
  assert (Hdicts : Forall (fun s => exists entries, s = VDict entries /\
                                    dict_keys entries = source_keys) (firstn 5 kept)).
  { apply Forall_take. eapply Forall_sublist; [exact (filter_sources_sublist _ _ E0)|].
    exact (extracted_sources_are_dicts _ _ _ E). }
  assert (Hs : py_getitem d "sources" = Ok (VList kept)) by (subst d; reflexivity).
  assert (Hts : py_getitem d "timestamp" = Ok (VStr now_isoformat)) by (subst d; reflexivity).
  assert (Hdf : py_getitem d "date_filter" = Ok (VStr "June-November 2025"))
    by (subst d; reflexivity).
  clear Hr. exists kept. split; [exact Hs|].
  unfold FinalReport.markdown_content.
  rewrite Hs, Hts, Hdf. cbn [rbind py_len_of py_slice_to py_iter].
  pose proof (source_entries_run _ Hdicts 1%Z) as Hrun.
  destruct (forallb content_sliceable (firstn 5 kept)).
  - destruct Hrun as [text ->]. cbn [rbind]. eexists. reflexivity.
  - rewrite Hrun. reflexivity.
Qed.

(** The steps of the final report activity once its topic is read. *)
Lemma final_report_steps `{Host} `{Files} (d : value) (topic : string) :
  py_getitem d "topic" = Ok (VStr topic) ->
  FinalReport.generate_markdown_report_activity d
  = let line := "[Activity] 📝 Report: " ++ py_str (VStr (str_take 50 topic)) ++ "..." in
    match FinalReport.markdown_content d (VStr topic) with
    | Raise err => ([Print line], Raise err)
    | Ok text =>
        match os_makedirs V2.reports_dir with
        | Raise err => ([Print line], Raise err)
        | Ok _ =>
            match write_text (report_path topic) text with
            | Raise err => ([Print line; MakeDirs V2.reports_dir], Raise err)
            | Ok _ =>
                ([Print line; MakeDirs V2.reports_dir; WriteFile (report_path topic) text],
                 Ok (VStr (report_path topic)))
            end
        end
    end.
Proof.
  intros Ht.
  unfold FinalReport.generate_markdown_report_activity, io_bind, io_lift, io_emit,
    io_attempt, io_ret.
  rewrite Ht. cbn [py_slice_to V2.safe_filename_of]. cbv zeta.
  destruct (FinalReport.markdown_content d (VStr topic)) as [text|err]; [|reflexivity].
  destruct (os_makedirs V2.reports_dir) as [[]|err]; [|reflexivity].
  destruct (write_text (report_path topic) text) as [[]|err] eqn:Hw;
    unfold report_path in Hw |- *; rewrite Hw; reflexivity.
Qed.

(** X9.  On the dictionary the research activity of
    [bleeding_edge_research_final.py] returns, the report activity of that
    file builds its markdown text exactly when the content of each of the
    first five sources can be sliced (a string or a list); otherwise it
    prints its line and raises, with no file step taken.  Once the text is
    built the file system decides: if [os.makedirs] raises, the activity
    raises after its print; if the directory is made and the write raises,
    it raises with the directory made; and if both succeed it returns the
    report path of the topic, having printed one line, made the reports
    directory and written the text to that path. *)
Theorem final_report_reads_what_research_returns `{Host} `{Files} (topic : string)
    (results d : value) :
  Final.research_result topic results = Ok d ->
  exists kept line,
    sources_of d = Ok (VList kept) /\
    if forallb content_sliceable (firstn 5 kept)
    then exists text,
           FinalReport.markdown_content d (VStr topic) = Ok text /\
           FinalReport.generate_markdown_report_activity d
           = match os_makedirs V2.reports_dir with
             | Raise err => ([Print line], Raise err)
             | Ok _ =>
                 match write_text (report_path topic) text with
                 | Raise err => ([Print line; MakeDirs V2.reports_dir], Raise err)
                 | Ok _ =>
                     ([Print line; MakeDirs V2.reports_dir;
                       WriteFile (report_path topic) text],
                      Ok (VStr (report_path topic)))
                 end
             end
    else exists err,
           FinalReport.generate_markdown_report_activity d = ([Print line], Raise err).
Proof.
  intros Hd. destruct (final_markdown_on_research_output topic results d Hd)
    as (kept & Hk & Hif).
  exists kept. eexists. split; [exact Hk|].
  rewrite (final_report_steps d topic (final_research_result_topic _ _ _ Hd)). cbv zeta.
  destruct (forallb content_sliceable (firstn 5 kept)).
  - destruct Hif as [text Hmd]. exists text. split; [exact Hmd|]. rewrite Hmd. reflexivity.
  - rewrite Hif. eexists. reflexivity.
Qed.

Lemma final_report_reads_what_research_returns_witness :
  exists d out,
    @Final.research_result (sample_host mixed_response) "durable agents" mixed_response
    = Ok d /\
    @FinalReport.generate_markdown_report_activity (sample_host mixed_response)
      sample_files d
    = (out, Ok (VStr "/adapt/projects/firebird/reports/durable_agents.md")).
Proof.
  pose (H := sample_host mixed_response).
  destruct (@Final.research_result H "durable agents" mixed_response) as [d|e] eqn:Hd;
    [|vm_compute in Hd; discriminate].
  destruct (@final_report_reads_what_research_returns H sample_files _ _ d Hd)
    as (kept & line & Hk & Hif).
  exists d. pose proof Hd as Hd'. vm_compute in Hd'. apply Ok_inj in Hd'.
  destruct (forallb content_sliceable (firstn 5 kept)) eqn:Hall.
  - destruct Hif as (text & _ & Hrun). eexists. split; [exact Hd | exact Hrun].
  - subst d. vm_compute in Hk. apply Ok_inj in Hk. injection Hk as <-.
    vm_compute in Hall. discriminate.
Defined.

Lemma final_research_activity_result `{Host} (topic : string) :
  snd (Final.bleeding_edge_research_activity topic)
  = rbind (tavily_search topic) (Final.research_result topic).
Proof.
  unfold Final.bleeding_edge_research_activity, io_bind, io_emit, io_lift.
  destruct (tavily_search topic) as [results|err]; simpl; [|reflexivity].
  destruct (Final.research_result topic results); reflexivity.
Qed.

(** A run of the final workflow over the activities of its worker: the
    research activity, then the report activity on what it returned. *)
Lemma final_workflow_result `{Host} `{Files} (e : env) (topic : string) :
  (forall t c, is_activity c = true -> outcome e t c = run_final_activity c) ->
  snd (exec e (FinalWorkflows.BleedingEdgeResearchWorkflow_run topic) exec_init)
  = try! results := tavily_search topic in
    try! research_data := Final.research_result topic results in
    snd (FinalReport.generate_markdown_report_activity research_data).
Proof.
  intros He. unfold FinalWorkflows.BleedingEdgeResearchWorkflow_run, perform.
  cbn [wf_bind exec]. rewrite He by reflexivity.
  change (run_final_activity (FinalWorkflows.research_call topic))
    with (snd (Final.bleeding_edge_research_activity topic)).
  rewrite final_research_activity_result.
  destruct (tavily_search topic) as [results|err]; cbn [rbind]; [|reflexivity].
  destruct (Final.research_result topic results) as [d|err]; cbn [rbind]; [|reflexivity].
  cbn [wf_bind exec]. rewrite He by reflexivity.
  change (run_final_activity (FinalWorkflows.report_call d))
    with (snd (FinalReport.generate_markdown_report_activity d)).
  destruct (snd (FinalReport.generate_markdown_report_activity d)); reflexivity.
Qed.

Lemma final_workflow_returns_path `{Host} `{Files} (e : env) (topic : string) :
  (forall t c, is_activity c = true -> outcome e t c = run_final_activity c) ->
  renderable topic ->
  snd (exec e (FinalWorkflows.BleedingEdgeResearchWorkflow_run topic) exec_init)
  = Ok (VStr (report_path topic)).
Proof.
  intros He (results & d & text & Hsearch & Hd & Hmd & Hdir & Hwrite).
  rewrite (final_workflow_result e topic He), Hsearch; cbn [rbind]. rewrite Hd; cbn [rbind].
  rewrite (final_report_steps d topic (final_research_result_topic _ _ _ Hd)). cbv zeta.
  rewrite Hmd, Hdir, Hwrite. reflexivity.
Qed.

Lemma final_workflow_file_failure `{Host} `{Files} (e : env) (topic : string)
    (results d : value) (text : string) (err : exn) :
  (forall t c, is_activity c = true -> outcome e t c = run_final_activity c) ->
  tavily_search topic = Ok results ->
  Final.research_result topic results = Ok d ->
  FinalReport.markdown_content d (VStr topic) = Ok text ->
  os_makedirs V2.reports_dir = Raise err \/
  (os_makedirs V2.reports_dir = Ok tt /\ write_text (report_path topic) text = Raise err) ->
  snd (exec e (FinalWorkflows.BleedingEdgeResearchWorkflow_run topic) exec_init)
  = Raise err.
Proof.
  intros He Hsearch Hd Hmd Hfail.
  rewrite (final_workflow_result e topic He), Hsearch; cbn [rbind]. rewrite Hd; cbn [rbind].
  rewrite (final_report_steps d topic (final_research_result_topic _ _ _ Hd)). cbv zeta.
  rewrite Hmd. destruct Hfail as [Hdir | [Hdir Hwrite]].
  - rewrite Hdir. reflexivity.
  - rewrite Hdir, Hwrite. reflexivity.
Qed.

Lemma imap_enumerate_outcomes {A} (f : Z * A -> call) (h : A -> value) (P : A -> Prop)
    (out : nat -> call -> result value) (xs : list A) :
  (forall t i x, P x -> out t (f (i, x)) = Ok (h x)) ->
  Forall P xs ->
  forall start k,
    imap (fun i c => out (k + i)%nat c) (map f (enumerate start xs)) = map Ok (map h xs).
Proof.
  intros Hout Hxs. induction Hxs as [|x xs Hx _ IH]; intros start k; [reflexivity|].
  cbn [enumerate map imap]. rewrite (Hout _ _ _ Hx). f_equal.
  rewrite <- (IH (start + 1)%Z (S k)). apply imap_ext. intros i c _. cbn.
  f_equal. lia.
Qed.

(** X10.  With the worker of [run_bleeding_worker.py] serving, the final
    pipeline runs through when nothing fails on the way: a workflow run on
    a topic whose search returns, whose research and report text are built
    and whose directory and file the file system lets be made and written
    returns the report path of the topic; and the orchestrator, given
    topics of which this holds, returns their report paths in the order of
    the topics, whatever the order in which the children finish.  When the
    text of a topic is built and [os.makedirs] or the write raises, the
    workflow run on that topic ends with that error. *)
Theorem final_pipeline_returns_report_paths `{Host} `{Files} (ft : task -> nat)
    (ag : string -> string -> string -> result ResearchPlan) :
  (forall topic,
     renderable topic ->
     snd (exec (final_worker_env ft ag)
            (FinalWorkflows.BleedingEdgeResearchWorkflow_run topic) exec_init)
     = Ok (VStr (report_path topic))) /\
  (forall topics,
     Forall renderable topics ->
     snd (exec (final_worker_env ft ag)
            (FinalWorkflows.BleedingEdgeOrchestrator_run_all topics) exec_init)
     = Ok (VList (map (fun topic => VStr (report_path topic)) topics))) /\
  (forall topic results d text err,
     tavily_search topic = Ok results ->
     Final.research_result topic results = Ok d ->
     FinalReport.markdown_content d (VStr topic) = Ok text ->
     os_makedirs V2.reports_dir = Raise err \/
     (os_makedirs V2.reports_dir = Ok tt /\
      write_text (report_path topic) text = Raise err) ->
     snd (exec (final_worker_env ft ag)
            (FinalWorkflows.BleedingEdgeResearchWorkflow_run topic) exec_init)
     = Raise err).
Proof.
  assert (Hacts : forall t c, is_activity c = true ->
                              outcome (final_worker_env ft ag) t c = run_final_activity c).
  { intros t c Hc. destruct c; [reflexivity | discriminate]. }
  split; [|split].
  - intros topic Hr. apply final_workflow_returns_path; [exact Hacts | exact Hr].
  - intros topics Htopics. unfold FinalWorkflows.BleedingEdgeOrchestrator_run_all.
    cbn [wf_bind perform exec].
    apply result_group; [reflexivity | reflexivity |].
    unfold group_outcomes.
    apply (imap_enumerate_outcomes FinalWorkflows.child_call
             (fun topic => VStr (report_path topic)) renderable
             (outcome (final_worker_env ft ag)) topics) with (k := 0%nat);
      [|exact Htopics].
    intros t i topic Hr.
    change (outcome (final_worker_env ft ag) t (FinalWorkflows.child_call (i, topic)))
      with (snd (exec {| outcome := fun _ c' => run_final_activity c';
                         finish_time := ft; agent_answer := ag |}
                   (FinalWorkflows.BleedingEdgeResearchWorkflow_run topic) exec_init)).
    apply final_workflow_returns_path; [|exact Hr]. reflexivity.
  - intros topic results d text err Hsearch Hd Hmd Hfail.
    exact (final_workflow_file_failure _ topic results d text err Hacts Hsearch Hd Hmd Hfail).
Qed.

Lemma final_pipeline_returns_report_paths_witness :
  snd (exec (@final_worker_env (sample_host mixed_response) sample_files five_one_three
               (fun _ _ _ => Raise (ExternalError "no agent")))
         (@FinalWorkflows.BleedingEdgeOrchestrator_run_all (sample_host mixed_response)
            three_topics) exec_init)
  = Ok (VList [VStr "/adapt/projects/firebird/reports/durability.md";
               VStr "/adapt/projects/firebird/reports/replay.md";
               VStr "/adapt/projects/firebird/reports/fan-out.md"]).
Proof.
  apply (proj1 (proj2 (@final_pipeline_returns_report_paths (sample_host mixed_response)
                         sample_files five_one_three
                         (fun _ _ _ => Raise (ExternalError "no agent"))))
           three_topics).
  repeat constructor;
    (eexists; eexists; eexists; split; [reflexivity|]; split; [reflexivity|];
     split; [reflexivity|]; split; reflexivity).
Defined.

(** ** The orchestrators: which children are started *)

Lemma enumerate_lookup {A} (xs : list A) (start : Z) (i : nat) :
  enumerate start xs !! i = (fun x => ((start + Z.of_nat i)%Z, x)) <$> xs !! i.
Proof.
  revert start i; induction xs as [|x xs IH]; intros start i; [reflexivity|].
  destruct i as [|i]; cbn [enumerate].
  - cbn. do 2 f_equal. lia.
  - cbn [lookup list_lookup]. rewrite IH. destruct (xs !! i); cbn; [|reflexivity].
    do 2 f_equal. lia.
Qed.

Lemma task_group_slots (e : env) (calls : list call) (K : list value -> wf value)
    (st : exec_state) :
  slots st = [] ->
  (forall vs st', slots (fst (exec e (K vs) st')) = slots st') ->
  map slot_call (slots (fst (exec e (wf_bind (task_group calls) K) st))) = calls.
Proof.
  intros Hst HK. rewrite exec_task_group by exact Hst.
  destruct (finished_until_failure e calls _) as [fin [err|]].
  - cbn [fst with_slots slots]. apply group_slots_calls.
  - rewrite HK. cbn [with_slots slots]. apply group_slots_calls.
Qed.

(** X11.  Both orchestrators start one child workflow per topic, in the
    order of the topics, and they do so whether or not the join then fails:
    the engine calls a run has made are exactly the child calls of the
    topics.  The child of the topic at index [i] is a
    [BleedingEdgeResearchWorkflow] on that topic, on the queue
    [research-tasks], with five minutes to close and an id numbered [i + 1].
    Given no topic, an orchestrator starts nothing and returns the empty
    list. *)
Theorem run_all_starts_one_child_per_topic `{Host} (e : env) (topics : list string) :
  map slot_call
    (slots (fst (exec e (V2Workflows.BleedingEdgeOrchestrator_run_all topics) exec_init)))
  = map V2Workflows.child_call (enumerate 1 topics) /\
  map slot_call
    (slots (fst (exec e (FinalWorkflows.BleedingEdgeOrchestrator_run_all topics) exec_init)))
  = map FinalWorkflows.child_call (enumerate 1 topics) /\
  (forall i,
     map V2Workflows.child_call (enumerate 1 topics) !! i
     = (fun topic =>
          ExecuteChildWorkflow "BleedingEdgeResearchWorkflow" (VStr topic)
            ("bleeding-edge-" ++ py_str (VInt (1 + Z.of_nat i)) ++ "-"
             ++ str_take 20 (str_replace_char " " "_" topic))
            "research-tasks" (Some (minutes 5))) <$> topics !! i) /\
  (forall i,
     map FinalWorkflows.child_call (enumerate 1 topics) !! i
     = (fun topic =>
          ExecuteChildWorkflow "BleedingEdgeResearchWorkflow" (VStr topic)
            ("bleeding-" ++ py_str (VInt (1 + Z.of_nat i)))
            "research-tasks" (Some (minutes 5))) <$> topics !! i) /\
  snd (exec e (V2Workflows.BleedingEdgeOrchestrator_run_all []) exec_init) = Ok (VList []) /\
  snd (exec e (FinalWorkflows.BleedingEdgeOrchestrator_run_all []) exec_init) = Ok (VList []).
Proof.
  split; [|split; [|split; [|split; [|split]]]].
  - unfold V2Workflows.BleedingEdgeOrchestrator_run_all. cbn [wf_bind perform exec].
    apply task_group_slots; [reflexivity|]. intros vs st'. reflexivity.
  - unfold FinalWorkflows.BleedingEdgeOrchestrator_run_all. cbn [wf_bind perform exec].
    apply task_group_slots; [reflexivity|]. intros vs st'. reflexivity.
  - intros i. rewrite list_lookup_fmap, enumerate_lookup.
    destruct (topics !! i); reflexivity.
  - intros i. rewrite list_lookup_fmap, enumerate_lookup.
    destruct (topics !! i); reflexivity.
  - reflexivity.
  - reflexivity.
Qed.

(** ** The research workflow when it is given no query *)

(** X12.  [DeepResearchWorkflow.run] on a plan without queries asks the
    planning agent once.  If the agent fails, the run fails with the agent's
    error and has made no engine call.  If the agent answers with a plan
    that has no query either, the agent is not asked again: the run makes
    one engine call, [analysis_activity] on the topic and an empty list of
    results, and ends as that call ends.  The topic a plan carries is never
    read: two plans with the same queries give the same run. *)
Theorem deep_research_without_queries (e : env) (topic : string) (plan : ResearchPlan) :
  (queries plan = [] ->
   forall err,
     agent_answer e "minimax-m3" DeepResearch.planning_system_prompt
       ("Create a research plan for: " ++ topic) = Raise err ->
     exec e (DeepResearch.DeepResearchWorkflow_run topic plan) exec_init
     = ({| slots := []; printed := []; agent_runs := [planning_prompt topic] |},
        Raise err)) /\
  (queries plan = [] ->
   forall planned,
     agent_answer e "minimax-m3" DeepResearch.planning_system_prompt
       ("Create a research plan for: " ++ topic) = Ok planned ->
     queries planned = [] ->
     exec e (DeepResearch.DeepResearchWorkflow_run topic plan) exec_init
     = ({| slots := [ {| slot_call := DeepResearch.analysis_call topic [];
                         slot_status :=
                           Done (outcome e 0 (DeepResearch.analysis_call topic [])) |} ];
           printed := []; agent_runs := [planning_prompt topic] |},
        outcome e 0 (DeepResearch.analysis_call topic []))) /\
  (forall plan',
     queries plan' = queries plan ->
     DeepResearch.DeepResearchWorkflow_run topic plan'
     = DeepResearch.DeepResearchWorkflow_run topic plan).
Proof.
  split; [|split].
  - intros Hq err Hag.
    unfold DeepResearch.DeepResearchWorkflow_run, DeepResearch.plan_queries, perform.
    rewrite Hq. cbn [wf_bind exec]. rewrite Hag. reflexivity.
  - intros Hq planned Hag Hplanned.
    unfold DeepResearch.DeepResearchWorkflow_run, DeepResearch.plan_queries, perform.
    rewrite Hq. cbn [wf_bind exec]. rewrite Hag, Hplanned.
    cbn. destruct (outcome e 0 (DeepResearch.analysis_call topic [])); reflexivity.
  - intros plan' Hq.
    unfold DeepResearch.DeepResearchWorkflow_run, DeepResearch.plan_queries.
    rewrite Hq. destruct (queries plan) eqn:Hqs; [reflexivity|].
    cbn [wf_bind]. rewrite Hq, Hqs. reflexivity.
Qed.

Lemma deep_research_without_queries_witness :
  exec struck_env (DeepResearch.DeepResearchWorkflow_run "workflows" no_queries) exec_init
  = ({| slots := []; printed := []; agent_runs := [planning_prompt "workflows"] |},
     Raise (ExternalError "no agent")).
Proof.
  apply (proj1 (deep_research_without_queries struck_env "workflows" no_queries));
    reflexivity.
Defined.

(** ** workflows.py: the research workflow over its activity *)

(** X13.  With the worker of [worker.py] serving, [ResearchWorkflow.run]
    never fails: for every topic it makes one engine call, the research
    activity on the topic with ten seconds to close, returns the string
    ['Research completed for: '] followed by the topic, which is what the
    activity returned, and prints its two lines, the second one showing that
    result; the activity itself prints two lines and touches no file. *)
Theorem research_workflow_returns_the_activity_result `{Host} (ft : task -> nat)
    (ag : string -> string -> string -> result ResearchPlan) (topic : string) :
  exec (simple_worker_env ft ag) (Simple.ResearchWorkflow_run topic) exec_init
  = ({| slots :=
          [ {| slot_call :=
                 ExecuteActivity "research_activity" [VStr topic] (Some (10 # 1)) None;
               slot_status := Done (Ok (VStr ("Research completed for: " ++ topic))) |} ];
        printed :=
          [ "[Workflow] Starting research workflow for: " ++ topic;
            "[Workflow] Workflow completed: "
            ++ py_str (VStr ("Research completed for: " ++ topic)) ];
        agent_runs := [] |},
     Ok (VStr ("Research completed for: " ++ topic))) /\
  SimpleActivity.research_activity topic
  = ([ Print ("[Activity] Starting research on: " ++ topic);
       Print ("[Activity] Research completed for: " ++ topic) ],
     Ok (VStr ("Research completed for: " ++ topic))) /\
  file_effects (fst (SimpleActivity.research_activity topic)) = [].
Proof. split; [|split]; reflexivity. Qed.

(** ** deep_research_agent.py: the search activity *)

Lemma search_hit_fields (q : string) (r : value) (s : DeepActivities.SearchResult) :
  DeepActivities.search_hit q r = Ok s ->
  DeepActivities.query s = q /\
  py_getitem r "title" = Ok (VStr (DeepActivities.title s)) /\
  py_getitem r "url" = Ok (VStr (DeepActivities.url s)).
Proof.
  unfold DeepActivities.search_hit, DeepActivities.new_SearchResult; intros Hs.
  rbind_inv Hs. rbind_inv Hs. rbind_inv Hs. rbind_inv Hs.
  rbind_inv Hs. rbind_inv Hs. rbind_inv Hs. apply Ok_inj in Hs; subst s.
  destruct x; try discriminate. destruct x0; try discriminate.
  apply Ok_inj in E3. apply Ok_inj in E4. subst. cbn. auto.
Qed.

(** X14.  [search_activity] subscripts the response, where the research
    activities use [get]: on a response dictionary without ['results'] it
    raises [KeyError] on that key, while the research activities take the
    same response as one without hits.  When it returns, it returns one
    [SearchResult] per hit, in the order of the hits, each with the query it
    was called with and with the title and url of its hit, which are
    strings. *)
Theorem search_activity_subscripts_results (search : string -> result value)
    (q : string) :
  (forall d,
     search q = Ok (VDict d) ->
     dict_lookup "results" d = None ->
     DeepActivities.search_activity search q = Raise (KeyError "results") /\
     extract_sources q (VDict d) = Ok []) /\
  (forall found,
     DeepActivities.search_activity search q = Ok found ->
     exists results hits,
       search q = Ok results /\
       hits_of results = Ok hits /\
       Forall2 (fun r s =>
                  DeepActivities.query s = q /\
                  py_getitem r "title" = Ok (VStr (DeepActivities.title s)) /\
                  py_getitem r "url" = Ok (VStr (DeepActivities.url s)))
               hits found).
Proof.
  split.
  - intros d Hsearch Hd. unfold DeepActivities.search_activity. rewrite Hsearch.
    unfold DeepActivities.search_results, extract_sources. cbn. rewrite Hd.
    split; reflexivity.
  - intros found Hfound. unfold DeepActivities.search_activity in Hfound.
    rbind_inv Hfound. unfold DeepActivities.search_results in Hfound.
    rbind_inv Hfound. rbind_inv Hfound.
    exists x, x1. split; [exact E|]. split.
    + unfold hits_of. destruct x; try discriminate. cbn in E0 |- *.
      destruct (dict_lookup "results" d); [|discriminate].
      apply Ok_inj in E0; subst x0. exact E1.
    + apply rmap_Forall2 in Hfound. eapply Forall2_impl; [exact Hfound|].
      intros r s Hrs. exact (search_hit_fields _ _ _ Hrs).
Qed.

Lemma search_activity_subscripts_results_witness :
  DeepActivities.search_activity (fun _ => Ok (VDict [("answer", VStr "none")]))
    "durability"
  = Raise (KeyError "results") /\
  extract_sources "durability" (VDict [("answer", VStr "none")]) = Ok [].
Proof.
  apply (proj1 (search_activity_subscripts_results
                  (fun _ => Ok (VDict [("answer", VStr "none")])) "durability"));
    reflexivity.
Defined.

(** ** The executive summary: reading the reports back *)

Lemma str_append_nil_r (s : string) : s ++ "" = s.
Proof.
  induction s as [|c s IH]; [reflexivity|].
  change (String c (s ++ "") = String c s). now rewrite IH.
Qed.

Lemma str_append_assoc (a b c : string) : (a ++ b) ++ c = a ++ b ++ c.
Proof.
  induction a as [|x a IH]; [reflexivity|].
  change (String x ((a ++ b) ++ c) = String x (a ++ b ++ c)). now rewrite IH.
Qed.

Lemma str_contains_cons (sep : string) (c : ascii) (s : string) :
  str_contains sep (String c s) = String.prefix sep (String c s) || str_contains sep s.
Proof.
  cbn [str_contains]. destruct (String.prefix sep (String c s)); reflexivity.
Qed.

(** A string without the separator is not split. *)
Lemma str_split_from_whole (sep s : string) :
  str_contains sep s = false ->
  forall part, str_split_from sep 0 part s = [part ++ s].
Proof.
  induction s as [|c s IH]; intros Hs part.
  - cbn [str_split_from]. now rewrite str_append_nil_r.
  - rewrite str_contains_cons in Hs. apply orb_false_iff in Hs as [Hp Hs].
    cbn [str_split_from]. rewrite Hp, (IH Hs), str_append_assoc. reflexivity.
Qed.

Lemma str_split_from_first (sep s : string) :
  forall skip part, exists first rest, str_split_from sep skip part s = first :: rest.
Proof.
  induction s as [|c s IH]; intros skip part; [cbn; eauto|].
  cbn [str_split_from]. destruct skip as [|n]; [|apply IH].
  destruct (String.prefix sep (String c s)); [eauto | apply IH].
Qed.

(** A string with the separator is split in two parts at least. *)
Lemma str_split_from_second (sep s : string) :
  sep <> "" ->
  str_contains sep s = true ->
  forall part, exists first second rest,
    str_split_from sep 0 part s = first :: second :: rest.
Proof.
  intros Hsep. induction s as [|c s IH]; intros Hs part.
  - destruct sep; [contradiction | discriminate].
  - rewrite str_contains_cons in Hs. cbn [str_split_from].
    destruct (String.prefix sep (String c s)).
    + destruct (str_split_from_first sep s (String.length sep - 1) "") as (b & rest & ->).
      eauto.
    + apply IH. exact Hs.
Qed.

Lemma prefix_append (p q s : string) :
  String.prefix (p ++ q) s = true -> String.prefix p s = true.
Proof.
  revert s; induction p as [|c p IH]; intros s; [destruct s; reflexivity|].
  change (String c p ++ q) with (String c (p ++ q)).
  destruct s as [|d s]; cbn [String.prefix]; [discriminate|].
  destruct (ascii_dec c d); [apply IH | discriminate].
Qed.

Lemma str_contains_append (p q s : string) :
  str_contains (p ++ q) s = true -> str_contains p s = true.
Proof.
  induction s as [|c s IH].
  - cbn [str_contains]. destruct (String.prefix (p ++ q) "") eqn:Hp; [|discriminate].
    intros _. now rewrite (prefix_append _ _ _ Hp).
  - rewrite !str_contains_cons. intros Hs. apply orb_true_iff in Hs as [Hs|Hs].
    + now rewrite (prefix_append _ _ _ Hs).
    + rewrite (IH Hs). apply orb_true_r.
Qed.

(** A text with the whole heading has a concepts section. *)
Lemma concepts_section_with_heading (content : string) :
  str_contains Executive.concepts_heading content = true ->
  str_contains "## 🔑 Key Concepts" content = true /\
  exists section, Executive.concepts_section content = Some section.
Proof.
  intros Hc.
  assert (Hs : str_contains "## 🔑 Key Concepts" content = true)
    by exact (str_contains_append "## 🔑 Key Concepts" " Identified" content Hc).
  split; [exact Hs|]. unfold Executive.concepts_section. rewrite Hs.
  destruct (str_split_from_second Executive.concepts_heading content) with (part := "")
    as (first & second & rest & Hsplit); [discriminate | exact Hc |].
  unfold str_split. rewrite Hsplit.
  destruct (str_split_from_first "---" second 0 "") as (a & rest' & ->). eauto.
Qed.

(** A text with the shorter string and without the whole heading has none:
    the split gives one piece and index 1 is past its end. *)
Lemma concepts_section_split_fails (content : string) :
  str_contains "## 🔑 Key Concepts" content = true ->
  str_contains Executive.concepts_heading content = false ->
  Executive.concepts_section content = None.
Proof.
  intros Hs Hc. unfold Executive.concepts_section, str_split. rewrite Hs.
  rewrite (str_split_from_whole _ _ Hc). reflexivity.
Qed.

Lemma concepts_section_none (content : string) :
  Executive.concepts_section content = None ->
  str_contains "## 🔑 Key Concepts" content = true /\
  str_contains Executive.concepts_heading content = false.
Proof.
  intros Hnone.
  destruct (str_contains "## 🔑 Key Concepts" content) eqn:Hs.
  - split; [reflexivity|].
    destruct (str_contains Executive.concepts_heading content) eqn:Hc; [|reflexivity].
    destruct (concepts_section_with_heading content Hc) as [_ [section Hsec]]. congruence.
  - unfold Executive.concepts_section in Hnone. rewrite Hs in Hnone. discriminate.
Qed.

(** X15.  Reading the concepts of a report back raises [IndexError]
    exactly on a text that contains ['## 🔑 Key Concepts'] and not the whole
    heading ['## 🔑 Key Concepts Identified']: the test looks for the shorter
    string, the split is at the longer one.  A text without the shorter
    string has an empty concepts section, and a text with the whole heading
    always has one. *)
Theorem concepts_section_index_error (content : string) :
  (Executive.concepts_section content = None
   <-> str_contains "## 🔑 Key Concepts" content = true /\
       str_contains Executive.concepts_heading content = false) /\
  (str_contains "## 🔑 Key Concepts" content = false ->
   Executive.concepts_section content = Some "") /\
  (str_contains Executive.concepts_heading content = true ->
   exists section, Executive.concepts_section content = Some section).
Proof.
  split; [split|split].
  - apply concepts_section_none.
  - intros [Hs Hc]. exact (concepts_section_split_fails content Hs Hc).
  - intros Hs. unfold Executive.concepts_section. rewrite Hs. reflexivity.
  - intros Hc. exact (proj2 (concepts_section_with_heading content Hc)).
Qed.

Lemma concepts_section_index_error_witness :
  Executive.concepts_section ("# Report" ++ nl ++ "## 🔑 Key Concepts" ++ nl ++ "- **Durable execution**" ++ nl)
  = None.
Proof.
  apply (proj1 (concepts_section_index_error _)). split; reflexivity.
Defined.

(** X16.  The loop of the executive summary over the report paths fails,
    with that [IndexError], exactly when one of the paths exists and holds
    such a text; paths that do not exist are passed over.  When every path
    is missing or holds a text without ['## 🔑 Key Concepts'], the loop ends
    with no concept at all. *)
Theorem collect_concepts_fails_on_a_short_heading (files : string -> option string)
    (workflow_results : list string) :
  (Executive.collect_concepts files workflow_results = None
   <-> Exists (unreadable files) workflow_results) /\
  (Forall (fun result_path =>
             match files result_path with
             | None => True
             | Some content => str_contains "## 🔑 Key Concepts" content = false
             end) workflow_results ->
   Executive.collect_concepts files workflow_results = Some []).
Proof.
  split.
  - induction workflow_results as [|p rest IH]; cbn [Executive.collect_concepts].
    + split; [discriminate | intros Hex; inversion Hex].
    + destruct (files p) as [content|] eqn:Hp.
      * destruct (Executive.concepts_section content) as [section|] eqn:Hsec.
        -- destruct (Executive.collect_concepts files rest) as [more|].
           ++ split; [discriminate|]. intros Hex.
              inversion Hex as [? ? (content' & Hc & Hbad)|? ? Hrest]; subst.
              ** rewrite Hp in Hc. apply Some_inj in Hc; subst content'.
                 destruct Hbad as [Hshort Hlong].
                 rewrite (concepts_section_split_fails content Hshort Hlong) in Hsec.
                 discriminate.
              ** apply IH in Hrest. discriminate.
           ++ split; [|reflexivity]. intros _. apply Exists_cons_tl, IH. reflexivity.
        -- split; [|reflexivity]. intros _. apply Exists_cons_hd.
           exists content. split; [exact Hp|].
           exact (concepts_section_none content Hsec).
      * rewrite IH. split; [apply Exists_cons_tl|].
        intros Hex. inversion Hex as [? ? (content' & Hc & _)|? ? Hrest]; subst;
          [congruence | exact Hrest].
  - induction 1 as [|p rest Hp _ IH]; cbn [Executive.collect_concepts]; [reflexivity|].
    destruct (files p) as [content|]; [|exact IH].
    unfold Executive.concepts_section. rewrite Hp, IH. reflexivity.
Qed.

Lemma collect_concepts_fails_on_a_short_heading_witness :
  Executive.collect_concepts
    (fun path => if String.eqb path "/adapt/projects/firebird/reports/replay.md"
                 then Some ("## 🔑 Key Concepts" ++ nl ++ "- **Replay**" ++ nl)
                 else None)
    ["/adapt/projects/firebird/reports/durability.md";
     "/adapt/projects/firebird/reports/replay.md"]
  = None.
Proof.
  apply (proj1 (collect_concepts_fails_on_a_short_heading _ _)).
  apply Exists_cons_tl, Exists_cons_hd.
  exists ("## 🔑 Key Concepts" ++ nl ++ "- **Replay**" ++ nl).
  split; [reflexivity|]. split; reflexivity.
Defined.

(** ** The v2 research activity and the contents of the sources *)

Lemma contents_of_dicts (l : list value) :
  Forall (fun s => exists entries, s = VDict entries /\ dict_keys entries = source_keys) l ->
  exists cs, rmap (fun s => py_getitem s "content") l = Ok cs /\
             (forallb content_is_str l = true -> exists ss, cs = map VStr ss) /\
             (forallb content_is_str l = false -> rmap as_str cs = Raise TypeError).
Proof.
  induction 1 as [|s l (entries & -> & Hkeys) _ (cs & Hcs & Hall & Hnot)].
  - exists []. split; [reflexivity|]. split; [exists []; reflexivity | discriminate].
  - destruct (dict_lookup_key "content" entries) as [c Hc].
    { rewrite Hkeys. unfold source_keys; simpl; tauto. }
    exists (c :: cs). cbn [rmap forallb]. unfold content_is_str at 1 3.
    cbn [py_getitem]. rewrite Hc. cbn [rbind]. rewrite Hcs. cbn [rbind].
    split; [reflexivity|].
    destruct c; cbn [andb as_str rbind]; try (split; [discriminate | reflexivity]).
    split.
    + intros Hl. destruct (Hall Hl) as [ss ->]. exists (s :: ss). reflexivity.
    + intros Hl. rewrite (Hnot Hl). reflexivity.
Qed.

Lemma rmap_as_str (ss : list string) : rmap as_str (map VStr ss) = Ok ss.
Proof. induction ss as [|s ss IH]; cbn; [reflexivity|]. rewrite IH. reflexivity. Qed.

(** X17.  The v2 research activity joins the contents of the first ten
    sources it keeps, so it returns exactly when each of them is a string:
    a source among them with another content, such as the [None] of a JSON
    null, makes it raise [TypeError].  The research activity of
    [bleeding_edge_research_final.py] does not read the contents and returns
    on every response on which the sources are extracted and filtered. *)
Theorem v2_research_needs_text_contents `{Host} (topic : string) (results : value)
    (sources kept : list value) :
  extract_sources topic results = Ok sources ->
  filter_sources sources = Ok kept ->
  (exists d, Final.research_result topic results = Ok d /\
             sources_of d = Ok (VList kept)) /\
  if forallb content_is_str (firstn 10 kept)
  then exists d, V2.research_result topic results = Ok d /\
                 sources_of d = Ok (VList kept)
  else V2.research_result topic results = Raise TypeError.
Proof.
  intros Hs Hk. split.
  - unfold Final.research_result. rewrite Hs; cbn [rbind]. rewrite Hk; cbn [rbind].
    eexists. split; reflexivity.
  - assert (Hdicts : Forall (fun s => exists entries, s = VDict entries /\
                                      dict_keys entries = source_keys) (firstn 10 kept)).
    { apply Forall_take. eapply Forall_sublist; [exact (filter_sources_sublist _ _ Hk)|].
      exact (extracted_sources_are_dicts _ _ _ Hs). }
    destruct (contents_of_dicts _ Hdicts) as (cs & Hcs & Hall & Hnot).
    unfold V2.research_result. rewrite Hs; cbn [rbind]. rewrite Hk; cbn [rbind].
    rewrite Hcs; cbn [rbind]. unfold py_join.
    destruct (forallb content_is_str (firstn 10 kept)).
    + destruct (Hall eq_refl) as [ss ->]. rewrite rmap_as_str; cbn [rbind].
      eexists. split; reflexivity.
    + rewrite (Hnot eq_refl). reflexivity.
Qed.

Lemma v2_research_needs_text_contents_witness :
  @V2.research_result (sample_host mixed_response) "durable agents"
    (VDict [("results",
             VList [VDict [("title", VStr "No text"); ("url", VStr "https://example.org/f");
                           ("content", VNone); ("published_date", VStr "2025-09-01")]])])
  = Raise TypeError.
Proof.
  pose (source := VDict [("title", VStr "No text"); ("url", VStr "https://example.org/f");
                         ("content", VNone); ("query", VStr "durable agents");
                         ("published_date", VStr "2025-09-01")]).
  exact (proj2 (@v2_research_needs_text_contents (sample_host mixed_response)
                  "durable agents"
                  (VDict [("results",
                           VList [VDict [("title", VStr "No text");
                                         ("url", VStr "https://example.org/f");
                                         ("content", VNone);
                                         ("published_date", VStr "2025-09-01")]])])
                  [source] [source] eq_refl eq_refl)).
Defined.

(** ** What the v2 report activity needs *)

Lemma v2_markdown_content_keys `{Host} (research_data topic : value) (text : string) :
  V2.markdown_content research_data topic = Ok text ->
  Forall (fun k => exists x, py_getitem research_data k = Ok x)
    ["timestamp"; "date_filter"; "filtered_count"; "raw_count"; "executive_summary";
     "key_findings"; "key_concepts"; "sources"; "recommendations"; "total_sources";
     "concepts_found"; "coverage"].
Proof.
  unfold V2.markdown_content. intros Hmd.
  do 5 rbind_inv Hmd. cbv zeta in Hmd. do 16 rbind_inv Hmd.
  repeat constructor; eauto.
Qed.

(** X18.  Whenever the v2 report activity returns, the dictionary it was
    given has every one of the thirteen keys [topic], [timestamp],
    [date_filter], [filtered_count], [raw_count], [executive_summary],
    [key_findings], [key_concepts], [sources], [recommendations],
    [total_sources], [concepts_found] and [coverage]: a dictionary that
    lacks one of them makes the activity raise before it writes. *)
Theorem v2_report_reads_thirteen_keys `{Host} `{Files} (research_data : value) :
  (forall out v,
     V2.generate_markdown_report_activity research_data = (out, Ok v) ->
     Forall (fun k => exists x, py_getitem research_data k = Ok x) v2_report_keys) /\
  (forall k,
     In k v2_report_keys ->
     (forall x, py_getitem research_data k <> Ok x) ->
     exists err,
       snd (V2.generate_markdown_report_activity research_data) = Raise err /\
       file_effects (fst (V2.generate_markdown_report_activity research_data)) = []).
Proof.
  split.
  - intros out v Hr.
    unfold V2.generate_markdown_report_activity, io_bind, io_lift, io_emit, io_ret in Hr.
    destruct (py_getitem research_data "topic") as [topic|] eqn:Htopic; [|discriminate].
    destruct (py_slice_to 50 topic); [|discriminate].
    destruct (V2.markdown_content research_data topic) as [text|] eqn:Hmd; [|discriminate].
    constructor; [eauto|]. exact (v2_markdown_content_keys _ _ _ Hmd).
  - intros k Hk Hnone.
    unfold V2.generate_markdown_report_activity, io_bind, io_lift, io_emit, io_ret.
    destruct (py_getitem research_data "topic") as [topic|e] eqn:Htopic;
      [|exists e; split; reflexivity].
    destruct (py_slice_to 50 topic) as [short|e]; [|exists e; split; reflexivity].
    destruct (V2.markdown_content research_data topic) as [text|e] eqn:Hmd;
      [|exists e; split; reflexivity].
    exfalso. destruct Hk as [<-|Hk]; [exact (Hnone _ Htopic)|].
    destruct (proj1 (List.Forall_forall _ _) (v2_markdown_content_keys _ _ _ Hmd) k Hk)
      as [x Hx].
    exact (Hnone x Hx).
Qed.

Lemma v2_report_reads_thirteen_keys_witness :
  exists err,
    snd (@V2.generate_markdown_report_activity (sample_host mixed_response) strict_files
           (VDict [("topic", VStr "durable agents"); ("timestamp", VStr "now")]))
    = Raise err /\
    file_effects
      (fst (@V2.generate_markdown_report_activity (sample_host mixed_response) strict_files
              (VDict [("topic", VStr "durable agents"); ("timestamp", VStr "now")])))
    = [].
Proof.
  apply (proj2 (@v2_report_reads_thirteen_keys (sample_host mixed_response) strict_files
                  (VDict [("topic", VStr "durable agents"); ("timestamp", VStr "now")])))
    with (k := "coverage").
  - unfold v2_report_keys. simpl. tauto.
  - intros x. discriminate.
Defined.

(** ** Concept lines: written by the report, read by the summary *)

Lemma str_append_cons (c : ascii) (s t : string) : String c s ++ t = String c (s ++ t).
Proof. reflexivity. Qed.












(** ** The workers: two registrations of the same names *)

Lemma list_to_map_is_Some (l : list (string * string)) (name : string) :
  is_Some ((list_to_map l : gmap string string) !! name) <-> name ∈ map fst l.
Proof.
  split.
  - intros Hs. destruct (decide (name ∈ map fst l)) as [Hin|Hout]; [exact Hin|].
    apply (not_elem_of_list_to_map_1 (M := gmap string)) in Hout.
    rewrite Hout in Hs. now destruct Hs.
  - intros Hin. apply not_eq_None_Some. intros Hnone.
    apply not_elem_of_list_to_map_2 in Hnone. contradiction.
Qed.

Lemma Worker_same_names (q q' : string) (wfs wfs' acts acts' : list (string * string)) :
  map fst wfs = map fst wfs' ->
  map fst acts = map fst acts' ->
  forall name,
    (is_Some (worker_workflows (Worker q wfs acts) !! name)
     <-> is_Some (worker_workflows (Worker q' wfs' acts') !! name)) /\
    (is_Some (resolve_activity (Worker q wfs acts) name)
     <-> is_Some (resolve_activity (Worker q' wfs' acts') name)).
Proof.
  intros Hw Ha name. unfold resolve_activity, Worker; cbn [worker_workflows worker_activities].
  rewrite !list_to_map_is_Some, Hw, Ha. tauto.
Qed.

(** X20.  [bleeding_edge_worker.py] and [run_bleeding_worker.py] register
    the same names on the same task queue: a workflow type or an activity
    name is known to one exactly when it is known to the other, and a start
    request is resolved by one exactly when it is resolved by the other.
    They never resolve a name to the same code: the first one runs the
    definitions of [temporal_research_workflows_v2], the second one those of
    [bleeding_edge_research_final]. *)
Theorem bleeding_workers_register_the_same_names :
  worker_queue bleeding_edge_worker = worker_queue run_bleeding_worker /\
  (forall name,
     is_Some (resolve_activity bleeding_edge_worker name)
     <-> is_Some (resolve_activity run_bleeding_worker name)) /\
  (forall r,
     is_Some (resolve_workflow bleeding_edge_worker r)
     <-> is_Some (resolve_workflow run_bleeding_worker r)) /\
  (forall name m m',
     resolve_activity bleeding_edge_worker name = Some m ->
     resolve_activity run_bleeding_worker name = Some m' ->
     m = "temporal_research_workflows_v2" /\ m' = "bleeding_edge_research_final") /\
  (forall r m m',
     resolve_workflow bleeding_edge_worker r = Some m ->
     resolve_workflow run_bleeding_worker r = Some m' ->
     m = "temporal_research_workflows_v2" /\ m' = "bleeding_edge_research_final").
Proof.
  split; [reflexivity|]. split; [|split; [|split]].
  - intros name. apply Worker_same_names; reflexivity.
  - intros r. unfold resolve_workflow.
    change (worker_queue bleeding_edge_worker) with "research-tasks".
    change (worker_queue run_bleeding_worker) with "research-tasks".
    destruct (String.eqb "research-tasks" (start_queue r)); [|tauto].
    apply Worker_same_names; reflexivity.
  - intros name m m' Hm Hm'. unfold resolve_activity in Hm, Hm'.
    apply elem_of_list_to_map_2 in Hm. apply elem_of_list_to_map_2 in Hm'.
    split.
    + repeat (apply elem_of_cons in Hm as [Hm|Hm]; [congruence|]). inversion Hm.
    + repeat (apply elem_of_cons in Hm' as [Hm'|Hm']; [congruence|]). inversion Hm'.
  - intros r m m' Hm Hm'. unfold resolve_workflow in Hm, Hm'.
    destruct (String.eqb (worker_queue bleeding_edge_worker) (start_queue r));
      [|discriminate].
    destruct (String.eqb (worker_queue run_bleeding_worker) (start_queue r));
      [|discriminate].
    apply elem_of_list_to_map_2 in Hm. apply elem_of_list_to_map_2 in Hm'.
    split.
    + repeat (apply elem_of_cons in Hm as [Hm|Hm]; [congruence|]). inversion Hm.
    + repeat (apply elem_of_cons in Hm' as [Hm'|Hm']; [congruence|]). inversion Hm'.
Qed.

Lemma bleeding_workers_register_the_same_names_witness :
  resolve_activity bleeding_edge_worker "generate_markdown_report_activity"
  = Some "temporal_research_workflows_v2" /\
  resolve_activity run_bleeding_worker "generate_markdown_report_activity"
  = Some "bleeding_edge_research_final".
Proof.
  destruct (resolve_activity bleeding_edge_worker "generate_markdown_report_activity")
    as [m|] eqn:Hm; [|vm_compute in Hm; discriminate].
  destruct (resolve_activity run_bleeding_worker "generate_markdown_report_activity")
    as [m'|] eqn:Hm'; [|vm_compute in Hm'; discriminate].
  destruct (proj1 (proj2 (proj2 (proj2 bleeding_workers_register_the_same_names)))
              _ m m' Hm Hm') as [-> ->].
  split; reflexivity.
Defined.

(** ** The workflows of two activities: where a run stops *)

(** X21.  The workflow bodies catch nothing.  A run of
    [BleedingEdgeResearchWorkflow.run], in either file and whatever the
    activities do, ends as the research activity ends if that one fails,
    and else as the report activity ends on the research result; the report
    activity is called only after the research activity has returned, with
    what it returned; and the v2 body prints its closing line only when both
    have returned.  [ResearchWorkflow.run] ends as its one activity ends. *)
Theorem workflows_stop_at_first_failure `{Host} (e : env) (topic : string) :
  (let run := exec e (V2Workflows.BleedingEdgeResearchWorkflow_run topic) exec_init in
   snd run = (try! research_data := outcome e 0 (V2Workflows.research_call topic) in
              outcome e 1 (V2Workflows.report_call research_data)) /\
   invoked (fst run)
   = match outcome e 0 (V2Workflows.research_call topic) with
     | Ok research_data =>
         [V2Workflows.research_call topic; V2Workflows.report_call research_data]
     | Raise _ => [V2Workflows.research_call topic]
     end /\
   length (printed (fst run)) = match snd run with Ok _ => 2 | Raise _ => 1 end) /\
  (let run := exec e (FinalWorkflows.BleedingEdgeResearchWorkflow_run topic) exec_init in
   snd run = (try! research_data := outcome e 0 (FinalWorkflows.research_call topic) in
              outcome e 1 (FinalWorkflows.report_call research_data)) /\
   invoked (fst run)
   = match outcome e 0 (FinalWorkflows.research_call topic) with
     | Ok research_data =>
         [FinalWorkflows.research_call topic; FinalWorkflows.report_call research_data]
     | Raise _ => [FinalWorkflows.research_call topic]
     end) /\
  (let run := exec e (Simple.ResearchWorkflow_run topic) exec_init in
   snd run = outcome e 0 (Simple.research_call topic) /\
   invoked (fst run) = [Simple.research_call topic] /\
   length (printed (fst run)) = match snd run with Ok _ => 2 | Raise _ => 1 end).
Proof.
  cbv zeta. split; [|split].
  - unfold V2Workflows.BleedingEdgeResearchWorkflow_run, perform.
    cbn [wf_bind exec with_slots slots app length exec_init].
    destruct (outcome e 0 (V2Workflows.research_call topic)) as [d|err];
      [|repeat split; reflexivity].
    cbn [wf_bind exec with_slots slots app length rbind].
    destruct (outcome e 1 (V2Workflows.report_call d)); repeat split; reflexivity.
  - unfold FinalWorkflows.BleedingEdgeResearchWorkflow_run, perform.
    cbn [wf_bind exec with_slots slots app length exec_init].
    destruct (outcome e 0 (FinalWorkflows.research_call topic)) as [d|err];
      [|repeat split; reflexivity].
    cbn [wf_bind exec with_slots slots app length rbind].
    destruct (outcome e 1 (FinalWorkflows.report_call d)); repeat split; reflexivity.
  - unfold Simple.ResearchWorkflow_run, perform.
    cbn [wf_bind exec with_slots slots app length exec_init].
    destruct (outcome e 0 (Simple.research_call topic)); repeat split; reflexivity.
Qed.

(** ** Child workflow ids *)

Lemma enumerate_elem {A} (xs : list A) (start i : Z) (x : A) :
  (i, x) ∈ enumerate start xs ->
  exists k, xs !! k = Some x /\ i = (start + Z.of_nat k)%Z.
Proof.
  intros Hin. apply list_elem_of_lookup in Hin as [k Hk].
  rewrite enumerate_lookup in Hk. destruct (xs !! k) as [y|] eqn:Hy; [|discriminate].
  cbn in Hk. injection Hk as <- <-. eauto.
Qed.

Lemma enumerate_NoDup_by_index {A B} (f : Z * A -> B) (xs : list A) (start : Z) :
  (forall i j x y, (i, x) ∈ enumerate start xs -> (j, y) ∈ enumerate start xs ->
                   f (i, x) = f (j, y) -> i = j) ->
  NoDup (map f (enumerate start xs)).
Proof.
  revert start; induction xs as [|x xs IH]; intros start Hinj; [constructor|].
  cbn [enumerate map]. constructor.
  - intros Hin. apply list_elem_of_fmap in Hin as ([j y] & Heq & Hjy).
    assert (Hj : start = j).
    { apply (Hinj start j x y); [apply list_elem_of_here | | exact Heq].
      apply list_elem_of_further. exact Hjy. }
    apply enumerate_elem in Hjy as (k & _ & Hk). lia.
  - apply IH. intros i j a b Ha Hb. apply Hinj; apply list_elem_of_further; assumption.
Qed.

Lemma str_app_inv_head (p a b : string) : p ++ a = p ++ b -> a = b.
Proof.
  induction p as [|c p IH]; [trivial|].
  rewrite !str_append_cons. intros Hab. injection Hab as Hab. auto.
Qed.

Lemma str_before_char (c : ascii) (a b x y : string) :
  str_has c a = false -> str_has c b = false ->
  a ++ String c x = b ++ String c y -> a = b.
Proof.
  revert b; induction a as [|d a IH]; intros [|d' b] Ha Hb Heq.
  - reflexivity.
  - change (String c x = String d' (b ++ String c y)) in Heq. injection Heq as <- _.
    cbn in Hb. rewrite Ascii.eqb_refl in Hb. discriminate.
  - change (String d (a ++ String c x) = String c y) in Heq. injection Heq as -> _.
    cbn in Ha. rewrite Ascii.eqb_refl in Ha. discriminate.
  - rewrite !str_append_cons in Heq. injection Heq as <- Heq.
    cbn in Ha, Hb. apply orb_false_iff in Ha as [_ Ha]. apply orb_false_iff in Hb as [_ Hb].
    f_equal. exact (IH b Ha Hb Heq).
Qed.

(** X22.  The children an orchestrator starts have pairwise distinct
    workflow ids, whatever the topics are and even when topics repeat: the
    id carries the position of the topic, counted from 1.  This needs of
    [str] on the positions what Python gives: distinct numbers are written
    differently and, for the ids of the v2 file, which put a dash and a piece
    of the topic after the number, without a dash. *)
Theorem child_workflow_ids_are_distinct `{Host} (topics : list string) :
  (forall i j : Z,
     (1 <= i <= Z.of_nat (length topics))%Z ->
     (1 <= j <= Z.of_nat (length topics))%Z ->
     py_str (VInt i) = py_str (VInt j) -> i = j) ->
  NoDup (map (fun it => call_id (FinalWorkflows.child_call it)) (enumerate 1 topics)) /\
  ((forall i : Z,
      (1 <= i <= Z.of_nat (length topics))%Z -> str_has "-" (py_str (VInt i)) = false) ->
   NoDup (map (fun it => call_id (V2Workflows.child_call it)) (enumerate 1 topics))).
Proof.
  intros Hinj.
  assert (Hrange : forall i x, (i, x) ∈ enumerate 1 topics ->
                               (1 <= i <= Z.of_nat (length topics))%Z).
  { intros i x Hin. apply enumerate_elem in Hin as (k & Hk & ->).
    apply lookup_lt_Some in Hk. lia. }
  split.
  - apply enumerate_NoDup_by_index. intros i j x y Hi Hj Heq.
    cbn in Heq. injection Heq as Heq. apply str_app_inv_head in Heq.
    apply Hinj; eauto.
  - intros Hdash. apply enumerate_NoDup_by_index. intros i j x y Hi Hj Heq.
    cbn in Heq. injection Heq as Heq. unfold V2Workflows.child_id in Heq.
    apply str_app_inv_head in Heq.
    apply str_before_char in Heq; eauto.
Qed.

Lemma child_workflow_ids_are_distinct_witness :
  NoDup (map (fun it => call_id (@FinalWorkflows.child_call (sample_host mixed_response) it))
           (enumerate 1 ["replay"; "replay"; "fan-out"])).
Proof.
  apply (@child_workflow_ids_are_distinct (sample_host mixed_response)
           ["replay"; "replay"; "fan-out"]).
  intros i j Hi Hj Heq. cbn in Hi, Hj.
  assert (Hi' : i = 1%Z \/ i = 2%Z \/ i = 3%Z) by lia.
  assert (Hj' : j = 1%Z \/ j = 2%Z \/ j = 3%Z) by lia.
  destruct Hi' as [-> | [-> | ->]]; destruct Hj' as [-> | [-> | ->]];
    try reflexivity; vm_compute in Heq; discriminate.
Defined.

(** ** When two topics share a report file *)

Lemma str_replace_char_idem (old new : ascii) (s : string) :
  old <> new ->
  str_replace_char old new (str_replace_char old new s) = str_replace_char old new s.
Proof.
  intros Hne. induction s as [|c s IH]; cbn; [reflexivity|]. rewrite IH. f_equal.
  destruct (Ascii.eqb_spec c old) as [->|Hc].
  - destruct (Ascii.eqb_spec new old); congruence.
  - apply Ascii.eqb_neq in Hc. now rewrite Hc.
Qed.

Lemma str_replace_char_app (old new : ascii) (a b : string) :
  str_replace_char old new (a ++ b) = str_replace_char old new a ++ str_replace_char old new b.
Proof.
  induction a as [|c a IH]; [reflexivity|].
  rewrite str_append_cons. cbn [str_replace_char]. rewrite IH. reflexivity.
Qed.

Lemma str_replace_char_length (old new : ascii) (s : string) :
  String.length (str_replace_char old new s) = String.length s.
Proof. induction s as [|c s IH]; cbn; [reflexivity|]. now rewrite IH. Qed.

Lemma str_take_app (n : nat) (a b : string) :
  (n <= String.length a)%nat -> str_take n (a ++ b) = str_take n a.
Proof.
  unfold str_take. revert n; induction a as [|c a IH]; intros n Hn.
  - cbn in Hn. assert (n = 0%nat) by lia. subst n. destruct b; reflexivity.
  - destruct n as [|n]; [reflexivity|]. rewrite str_append_cons. cbn [String.substring].
    rewrite IH by (cbn in Hn; lia). reflexivity.
Qed.

(** X23.  Two topics can share a report file, and the later report then
    replaces the earlier one: a topic and the same topic with its spaces
    turned into underscores have the same report path, and so have a topic
    of fifty ASCII characters or more and any topic that continues it.  The
    twenty research topics of the repository have twenty different report
    paths. *)
Theorem report_paths_can_collide :
  (forall topic, report_path (str_replace_char " " "_" topic) = report_path topic) /\
  (forall topic more,
     str_ascii topic = true ->
     (50 <= String.length topic)%nat ->
     report_path (topic ++ more) = report_path topic) /\
  NoDup (map report_path V2.RESEARCH_TOPICS).
Proof.
  split; [|split].
  - intros topic. unfold report_path.
    rewrite str_replace_char_idem by discriminate. reflexivity.
  - intros topic more _ Hlen. unfold report_path.
    rewrite !str_replace_char_app, str_take_app; [reflexivity|].
    rewrite !str_replace_char_length. exact Hlen.
  - apply (bool_decide_unpack _). vm_compute. exact I.
Qed.

Lemma report_paths_can_collide_witness :
  report_path "Agent state management Temporal 2025: an overview of patterns"
  = report_path "Agent state management Temporal 2025: an overview ".
Proof.
  apply (proj1 (proj2 report_paths_can_collide)
           "Agent state management Temporal 2025: an overview " "of patterns").
  - reflexivity.
  - vm_compute. lia.
Defined.
